(** * ABCD_ML: the evaluation engine and the scope resolver

    A shallow embedding of [ABCD_ML/helpers/Scopes.py] and of
    [ABCD_ML/pipeline/Model_Pipeline.py], with the functions of
    [ABCD_ML/helpers/Data_Helpers.py] on lists and strings.

    Python exceptions are values of [exn]; a call that may raise returns a
    [result].  Attributes of [self] that are assigned after construction are
    fields of a state record threaded through the calls.  DataFrames and
    numpy arrays are objects of a store addressed by location, so that
    copies and in-place changes by the estimator are told apart.

    Cell values, scores and class labels are numbers the engine never does
    arithmetic on; they are taken in [Z], a float being given by the
    integer it is equal to, and [astype(float)] rounding the cells of
    the table to float64.  Console output ([_print], the progress bars,
    [_show_best_params]) is not modelled. *)

From Stdlib Require Import Ascii.
From stdpp Require Import gmap strings list sorting pretty.

(** ** Exceptions and results *)

Inductive exn :=
  | AttributeError
  | IndexError
  | KeyError
  | OverflowError
  | TypeError
  | UnboundLocalError
  | ValueError
  | ZeroDivisionError
  | ExternalError (tag : string).

Inductive result (A : Type) :=
  | Ok (a : A)
  | Raise (e : exn).
Arguments Ok {A} a.
Arguments Raise {A} e.

#[global] Instance result_ret : MRet result := fun A a => Ok a.
#[global] Instance result_bind : MBind result := fun A B f r =>
  match r with
  | Ok a => f a
  | Raise e => Raise e
  end.

(** Reading an attribute that may not have been assigned yet. *)
Definition getattr {A : Type} (o : option A) : result A :=
  match o with
  | Some a => Ok a
  | None => Raise AttributeError
  end.

(** A Python value that is either one [str] or a list of them. *)
Inductive str_or_list :=
  | PStr (s : string)
  | PList (l : list string).

(** ** Scopes.py *)

Module Scopes.

(** The argument of [get_keys_from_scope]: a [Scope] wrapper object
    ([is_scope] holds, the scope is its [value]) or the scope itself. *)
Inductive scope_arg :=
  | ScopeObj (value : str_or_list)
  | ScopeRaw (scope : str_or_list).

Record Scopes := mkScopes {
  data_keys : list string;
  data_file_keys : list string;
  cat_keys : list string;
  strat_keys : list string;
  covars_keys : list string;
  (* assigned by [set_all_keys] *)
  keys_at_end : option (list string);
  all_keys : option (list string);
  num_feat_keys : option nat
}.

Definition Scopes_init (data_keys data_file_keys cat_keys strat_keys
                        covars_keys : list string) : Scopes :=
  mkScopes data_keys data_file_keys cat_keys strat_keys covars_keys
           None None None.

(** [r in a] on two [str]: [r] occurs in [a]. *)
Definition str_in (r a : string) : bool :=
  match String.index 0 r a with
  | Some _ => true
  | None => false
  end.

(** [keys.remove(key)] inside [try ... except ValueError: pass]: the first
    occurrence goes, a missing key is ignored. *)
Fixpoint list_remove (key : string) (keys : list string) : list string :=
  match keys with
  | [] => []
  | k :: rest => if decide (k = key) then rest else k :: list_remove key rest
  end.

(** The closing loop of [get_keys_from_scope], over [self.keys_at_end]. *)
Definition remove_keys_at_end (keys at_end : list string) : list string :=
  fold_left (fun ks key => list_remove key ks) at_end keys.

(** [list(set(keys))]; the order of the result is whatever the set yields. *)
Definition list_of_set (keys : list string) : list string :=
  elements (list_to_set keys : gset string).

Section ScopesModel.

(** [SCOPES] of [helpers/VARS.py] and [conv_to_list] of
    [helpers/ML_Helpers.py] are not part of the sources at hand. *)
Variable SCOPES : list string.
Variable conv_to_list : str_or_list -> list string.

(** The first branch of [get_keys_from_scope]: [scope] is a [str] of
    [SCOPES].  A member of [SCOPES] without a case of its own leaves
    [keys] unbound. *)
Definition named_scope_keys (self : Scopes) (scope : string)
  : result (list string) :=
  if decide (scope = "float") then
    (ak ← getattr (all_keys self);
     Ok (filter (fun k => k ∉ cat_keys self) ak))
  else if decide (scope = "data") then
    Ok (data_keys self)
  else if decide (scope = "data files") then
    Ok (data_file_keys self)
  else if decide (scope = "float covars" ∨ scope = "fc") then
    (ak ← getattr (all_keys self);
     Ok (filter (fun k => (k ∉ cat_keys self) ∧ (k ∉ data_keys self)) ak))
  else if decide (scope = "all" ∨ scope = "n") then
    getattr (all_keys self)
  else if decide (scope = "cat" ∨ scope = "categorical") then
    Ok (cat_keys self)
  else if decide (scope = "covars") then
    Ok (covars_keys self)
  else
    Raise UnboundLocalError.

(** [get_keys_from_scope] on a [str] of [SCOPES]; also what the call
    inside the loop of the second branch does, its argument being a [str]
    of [SCOPES]. *)
Definition get_keys_named (self : Scopes) (scope : string)
  : result (list string) :=
  keys ← named_scope_keys self scope;
  at_end ← getattr (keys_at_end self);
  Ok (remove_keys_at_end keys at_end).

(** [for key in scope: ...] of the second branch, building [keys] and
    [restrict_keys]. *)
Fixpoint scope_loop (self : Scopes) (scope keys restrict_keys : list string)
  : result (list string * list string) :=
  match scope with
  | [] => Ok (keys, restrict_keys)
  | key :: rest =>
      if decide (key ∈ SCOPES) then
        (ks ← get_keys_named self key;
         scope_loop self rest (keys ++ ks) restrict_keys)
      else
        ak ← getattr (all_keys self);
        if decide (key ∈ ak) then
          scope_loop self rest (keys ++ [key]) restrict_keys
        else
          scope_loop self rest keys (restrict_keys ++ [key])
  end.

Definition get_keys_listed (self : Scopes) (scope : list string)
  : result (list string) :=
  '(keys, restrict_keys) ← scope_loop self scope [] [];
  keys ← (if decide (0 < length restrict_keys) then
            (ak ← getattr (all_keys self);
             Ok (keys ++ filter (fun a => forallb (fun r => str_in r a)
                                                  restrict_keys = true) ak))
          else Ok keys);
  let keys := list_of_set keys in
  at_end ← getattr (keys_at_end self);
  Ok (remove_keys_at_end keys at_end).

Definition get_keys_from_scope (self : Scopes) (scope_obj : scope_arg)
  : result (list string) :=
  let scope := match scope_obj with
               | ScopeObj value => value
               | ScopeRaw scope => scope
               end in
  match scope with
  | PStr s =>
      if decide (s ∈ SCOPES) then get_keys_named self s
      else get_keys_listed self (conv_to_list scope)
  | PList _ => get_keys_listed self (conv_to_list scope)
  end.

(** [set_all_keys] returns nothing; its effect is the new [self]. *)
Definition set_all_keys (self : Scopes) (scope : scope_arg)
           (targets_key : str_or_list) : result Scopes :=
  let at_end := strat_keys self ++ conv_to_list targets_key in
  let self1 :=
    mkScopes (data_keys self) (data_file_keys self) (cat_keys self)
             (strat_keys self) (covars_keys self)
             (Some at_end)
             (Some (data_keys self ++ covars_keys self ++ at_end))
             (num_feat_keys self) in
  scoped_keys ← get_keys_from_scope self1 scope;
  let all := scoped_keys ++ at_end in
  Ok (mkScopes (data_keys self) (data_file_keys self) (cat_keys self)
               (strat_keys self) (covars_keys self)
               (Some at_end) (Some all)
               (Some (length all - length at_end))).

(** A duplicate-free resolver: what the key lists hold when the columns of
    the table carry distinct keys. *)
Definition distinct_keys (self : Scopes) : Prop :=
  NoDup (data_keys self) ∧ NoDup (data_file_keys self) ∧
  NoDup (cat_keys self) ∧ NoDup (covars_keys self) ∧
  (∀ ak, all_keys self = Some ak → NoDup ak).

End ScopesModel.

(** [conv_to_list] as the callers use it: a lone value becomes a list of
    one, a list stays; taken for the concrete runs below. *)
Definition conv_to_list_std (v : str_or_list) : list string :=
  match v with
  | PStr s => [s]
  | PList l => l
  end.

(** The scope names [get_keys_from_scope] has a case for. *)
Definition SCOPES_std : list string :=
  ["float"; "data"; "data files"; "float covars"; "fc"; "all"; "n";
   "cat"; "categorical"; "covars"].

(** *** The indices of keys *)

(** [l.index(k)]: the place of the first [k], a [ValueError] without one. *)
Definition list_index (l : list string) (k : string) : result nat :=
  match list_find (fun x => x = k) l with
  | Some (i, _) => Ok i
  | None => Raise ValueError
  end.

(** [[self.all_keys.index(k) for k in keys if k in self.all_keys]]:
    [self.all_keys] is read once per key, so not at all without a key. *)
Fixpoint get_train_inds_from_keys (self : Scopes) (keys : list string)
  : result (list nat) :=
  match keys with
  | [] => Ok []
  | k :: rest =>
      ak ← getattr (all_keys self);
      if decide (k ∈ ak) then
        (i ← list_index ak k;
         inds ← get_train_inds_from_keys self rest;
         Ok (i :: inds))
      else get_train_inds_from_keys self rest
  end.

Section IndexModel.
Variable SCOPES : list string.
Variable conv_to_list : str_or_list -> list string.

Definition get_inds_from_scope (self : Scopes) (scope : scope_arg)
  : result (list nat) :=
  keys ← get_keys_from_scope SCOPES conv_to_list self scope;
  get_train_inds_from_keys self keys.

Definition get_strat_inds (self : Scopes) : result (list nat) :=
  get_train_inds_from_keys self (strat_keys self).

(** The keys a listed scope takes from the scope names among its
    entries, and those it takes as keys of [all_keys]. *)
Definition from_names (self : Scopes) (scope : list string) (k : string)
  : Prop :=
  ∃ name ks, name ∈ scope ∧ name ∈ SCOPES ∧
             get_keys_named self name = Ok ks ∧ k ∈ ks.
Definition from_keys (ak scope : list string) (k : string) : Prop :=
  k ∈ scope ∧ (k ∉ SCOPES) ∧ k ∈ ak.

(** Two resolvers that differ in [num_feat_keys] at most. *)
Definition same_keys (a b : Scopes) : Prop :=
  data_keys a = data_keys b ∧ data_file_keys a = data_file_keys b ∧
  cat_keys a = cat_keys b ∧ strat_keys a = strat_keys b ∧
  covars_keys a = covars_keys b ∧ keys_at_end a = keys_at_end b ∧
  all_keys a = all_keys b.

End IndexModel.

End Scopes.

(** ** pandas and numpy values *)

Definition subject := nat.
Definition loc := nat.

(** A numpy array by its rank: [len(np.shape(a))] is 1, 2 or 3. *)
Inductive ndarray :=
  | Arr1 (v : list Z)
  | Arr2 (rows : list (list Z))
  | Arr3 (blocks : list (list (list Z))).

Definition ndim (a : ndarray) : nat :=
  match a with
  | Arr1 _ => 1
  | Arr2 _ => 2
  | Arr3 _ => 3
  end.

(** [np.shape(a)[1]] of a 2-D array given by its rows. *)
Definition ncols (rows : list (list Z)) : nat :=
  match rows with
  | [] => 0
  | r :: _ => length r
  end.

(** [l[i]] on a Python list or array. *)
Definition py_index {A : Type} (l : list A) (i : nat) : result A :=
  match l !! i with
  | Some a => Ok a
  | None => Raise IndexError
  end.

(** [a[:, i]] on a 2-D array. *)
Definition column (rows : list (list Z)) (i : nat) : result (list Z) :=
  mapM (fun row => py_index row i) rows.

(** A DataFrame: row labels, column keys, and the cell of a row label and a
    key (a row label names one row). *)
Record DataFrame := mkDataFrame {
  df_index : list subject;
  df_columns : list string;
  df_at : subject -> string -> Z
}.

(** [data[keys]] with a list of keys: a new frame of those columns. *)
Definition df_getitem_list (df : DataFrame) (keys : list string)
  : result DataFrame :=
  if decide (Forall (fun k => k ∈ df_columns df) keys)
  then Ok (mkDataFrame (df_index df) keys (df_at df))
  else Raise KeyError.

(** [data.loc[subjects]]: a new frame of those rows, in the order asked. *)
Definition df_loc (df : DataFrame) (subjects : list subject)
  : result DataFrame :=
  if decide (Forall (fun s => s ∈ df_index df) subjects)
  then Ok (mkDataFrame subjects (df_columns df) (df_at df))
  else Raise KeyError.

(** The labels a pandas call is given: one label, or a list of them. *)
Definition labels_of (t : str_or_list) : list string :=
  match t with
  | PStr s => [s]
  | PList l => l
  end.

(** [data.drop(labels, axis=1)]: a new frame without those columns. *)
Definition df_drop (df : DataFrame) (labels : list string)
  : result DataFrame :=
  if decide (Forall (fun k => k ∈ df_columns df) labels)
  then Ok (mkDataFrame (df_index df)
                       (filter (fun k => k ∉ labels) (df_columns df))
                       (df_at df))
  else Raise KeyError.

(** The first power of two that is no float64. *)
Definition float64_limit : Z := (2 ^ 1024)%Z.

(** [float(z)] for an integer [z], given as the integer the float is
    equal to: [z] keeps its 53 leading bits, rounded to the nearest, a
    tie going to the even significand. *)
Definition float64 (z : Z) : Z :=
  let a := Z.abs z in
  let e := (Z.log2 a - 52)%Z in
  if decide (e ≤ 0)%Z then z
  else
    let q := Z.shiftr a e in
    let r := Z.land a (Z.ones e) in
    let half := Z.shiftl 1 (e - 1) in
    let q' := if decide (half < r ∨ (r = half ∧ Z.odd q = true))%Z
              then (q + 1)%Z else q in
    (Z.sgn z * Z.shiftl q' e)%Z.

(** A cell that [astype(float)] converts: one that does not round beyond
    the float64. *)
Definition float_cell (z : Z) : Prop :=
  (Z.abs (float64 z) < float64_limit)%Z.

(** The cell of a row label and a key as a float. *)
Definition float_at (df : DataFrame) (s : subject) (k : string) : Z :=
  float64 (df_at df s k).

(** [np.array(X).astype(float)] on a frame: a fresh 2-D array of the
    cells as floats; a cell beyond the float64 is an [OverflowError]. *)
Definition df_to_array (df : DataFrame) : result ndarray :=
  if decide (Forall (fun s => Forall (fun k => float_cell (df_at df s k))
                                     (df_columns df)) (df_index df))
  then Ok (Arr2 (map (fun s => map (float_at df s) (df_columns df))
                     (df_index df)))
  else Raise OverflowError.

(** [np.array(data[target]).astype(float)]: one key gives a Series, hence
    a 1-D array; a list of keys gives a frame, hence a 2-D array. *)
Definition df_target_array (df : DataFrame) (target : str_or_list)
  : result ndarray :=
  match target with
  | PStr t =>
      if decide (t ∈ df_columns df) then
        if decide (Forall (fun s => float_cell (df_at df s t)) (df_index df))
        then Ok (Arr1 (map (fun s => float_at df s t) (df_index df)))
        else Raise OverflowError
      else Raise KeyError
  | PList l =>
      sub ← df_getitem_list df l;
      df_to_array sub
  end.

(** The objects of the store. *)
Inductive obj :=
  | ODataFrame (df : DataFrame)
  | ONdarray (a : ndarray).

(** A cell of [raw_preds_df]: a number or a [str]. *)
Inductive cell :=
  | CNum (z : Z)
  | CStr (s : string).

(** [raw_preds_df]: its index and, per column, the cells set so far (a
    subject without a cell holds NaN there). *)
Record Ledger := mkLedger {
  ld_index : list subject;
  ld_cols : gmap string (gmap subject cell)
}.

(** [pd.DataFrame(index=subjects)] *)
Definition Ledger_new (subjects : list subject) : Ledger :=
  mkLedger subjects ∅.

Definition set_cells (col : gmap subject cell)
           (cells : list (subject * cell)) : gmap subject cell :=
  fold_left (fun c sv => <[sv.1 := sv.2]> c) cells col.

(** [df.loc[subjects, col] = values] with one value per subject: labels
    outside the index are a [KeyError], a wrong number of values is a
    [ValueError]; the column is created when new. *)
Definition loc_assign (df : Ledger) (subjects : list subject) (col : string)
           (values : list cell) : result Ledger :=
  if decide (Forall (fun s => s ∈ ld_index df) subjects) then
    if decide (length values = length subjects) then
      Ok (mkLedger (ld_index df)
            (<[col := set_cells (default ∅ (ld_cols df !! col))
                                (zip subjects values)]> (ld_cols df)))
    else Raise ValueError
  else Raise KeyError.

(** [df.loc[subjects, col] = value] with a scalar. *)
Definition loc_assign_scalar (df : Ledger) (subjects : list subject)
           (col : string) (value : cell) : result Ledger :=
  loc_assign df subjects col (replicate (length subjects) value).

(** [df.loc[subjects, col] = a] with a numpy array: one number per subject;
    an array of higher rank does not fit a column. *)
Definition loc_assign_array (df : Ledger) (subjects : list subject)
           (col : string) (a : ndarray) : result Ledger :=
  match a with
  | Arr1 v => loc_assign df subjects col (CNum <$> v)
  | _ => Raise ValueError
  end.

(** The cell of a subject in a column. *)
Definition ld_at (df : Ledger) (col : string) (s : subject) : option cell :=
  ld_cols df !! col ≫= fun c => c !! s.

(** [self.classes]: the float array of [np.unique(y_test)], or the int
    array [np.array([0, 1])]. *)
Inductive class_labels :=
  | FloatLabels (v : list Z)
  | IntLabels (v : list Z).

Definition labels_len (c : class_labels) : nat :=
  match c with
  | FloatLabels v => length v
  | IntLabels v => length v
  end.

(** [str(self.classes[i])]: a float prints with its fraction. *)
Definition label_str (c : class_labels) (i : nat) : result string :=
  match c with
  | FloatLabels v => z ← py_index v i; Ok (pretty z +:+ ".0")
  | IntLabels v => z ← py_index v i; Ok (pretty z)
  end.

Definition flatten (a : ndarray) : list Z :=
  match a with
  | Arr1 v => v
  | Arr2 rows => concat rows
  | Arr3 blocks => concat (concat blocks)
  end.

(** [np.unique(a)]: the sorted distinct values of the flattened array. *)
Definition np_unique (a : ndarray) : list Z :=
  merge_sort Z.le (remove_dups (flatten a)).

(** [a // b] and [a % b] on Python ints. *)
Definition py_floordiv (a b : Z) : result Z :=
  if decide (b = 0%Z) then Raise ZeroDivisionError else Ok (a `div` b)%Z.
Definition py_mod (a b : Z) : result Z :=
  if decide (b = 0%Z) then Raise ZeroDivisionError else Ok (a `mod` b)%Z.

(** [s.split('_')] and ['_'.join(l)]. *)
Fixpoint split_underscore (s : string) : list string :=
  match s with
  | EmptyString => [EmptyString]
  | String c rest =>
      if Ascii.eqb c "_"%char then EmptyString :: split_underscore rest
      else match split_underscore rest with
           | [] => [String c EmptyString]
           | w :: ws => String c w :: ws
           end
  end.
Fixpoint join_underscore (l : list string) : string :=
  match l with
  | [] => EmptyString
  | [w] => w
  | w :: ws => w +:+ "_" +:+ join_underscore ws
  end.

(** [l[:-1]] *)
Definition drop_last {A : Type} (l : list A) : list A :=
  take (length l - 1) l.

(** The characters of a [str], as indexing and [len] see them. *)
Fixpoint chars (s : string) : list string :=
  match s with
  | EmptyString => []
  | String c rest => String c EmptyString :: chars rest
  end.

(** ** Model_Pipeline.py *)

Module Model_Pipeline.

(** [fold_ind]: the running number of an [Evaluate] fold, or ['test']. *)
Inductive fold_index :=
  | FoldNum (i : Z)
  | FoldTest.

(** What [Test] leaves in [train_scores]: the array of [_get_scores], or
    the int it is set to when the train side is not scored. *)
Inductive scores_val :=
  | ScoreArray (v : list Z)
  | ScoreInt (z : Z).

Record Problem_Spec := mkProblem_Spec {
  target : str_or_list;
  metric : str_or_list;
  weight_metric : bool;
  problem_type : string;
  random_state : Z;
  _final_subjects : option (gset subject)
}.

(** The [Data_Scopes] object handed to [__init__], by the one call
    [__init__] makes on it: [Data_Scopes.set_all_keys(spec=...)], whose
    result becomes [self.all_keys]. *)
Record Data_Scopes_obj := mkData_Scopes {
  Data_Scopes_set_all_keys : Problem_Spec -> result (list string)
}.

(** A [Scopes] of helpers/Scopes.py as [Data_Scopes]: its
    [set_all_keys(self, scope, targets_key)] has no parameter [spec], so
    that call is a [TypeError]. *)
Definition Scopes_as_Data_Scopes (s : Scopes.Scopes) : Data_Scopes_obj :=
  mkData_Scopes (fun _ => Raise TypeError).

(** The estimator interface of the fitted pipeline.  [fit] changes the
    estimator; every call may also change, in place, the arrays it is
    handed, which come back as the last components. *)
Class Estimator (model : Type) := {
  fit : model -> ndarray -> ndarray -> result (model * ndarray * ndarray);
  predict : model -> ndarray -> result (ndarray * ndarray);
  predict_proba : model -> ndarray -> result (ndarray * ndarray)
}.

Section Engine.

Context {model : Type} `{!Estimator model}.
(** Objects of [Feat_Importances.py], the inner resampler handed to the
    search, and the group labels of a leave-one-group-out split. *)
Context {feat_imp search_cv group_vals : Type}.

(** A metric of [get_metric]: [(fitted model, X, y) -> score]. *)
Definition scorer : Type :=
  model -> ndarray -> ndarray -> result (Z * ndarray * ndarray).

(** The [CV] object (helpers/CV.py). *)
Record CV_obj := mkCV {
  repeated_k_fold :
    list subject -> Z -> Z -> Z ->
    result (list (list subject * list subject));
  get_num_groups : list subject -> group_vals -> result Z;
  repeated_leave_one_group_out :
    list subject -> Z -> group_vals ->
    result (list (list subject * list subject));
  k_fold : list subject -> Z -> Z -> result search_cv;
  leave_one_group_out : list subject -> group_vals -> result search_cv
}.

(** The [Base_Model_Pipeline] object. *)
Record Base_Model_Pipeline := mkBase {
  is_search : bool;
  param_search_metric : str_or_list;
  param_search_weight_metric : bool;
  get_search_split_vals : option group_vals * Z;
  get_search_wrapped_pipeline :
    option search_cv -> option scorer -> bool -> Z -> result model
}.

(** The attributes of [self] assigned once, in [__init__]. *)
Record Config := mkConfig {
  ps : Problem_Spec;
  compute_train_score : bool;
  all_keys : list string;
  CV : CV_obj;
  metric_strs : list string;
  metrics : list scorer;
  base_model_pipeline : Base_Model_Pipeline
}.

(** The store and the attributes of [self] assigned or changed later.
    [feat_importances] is assigned in [__init__] only, but its objects
    change in place. *)
Record State := mkState {
  store : gmap loc obj;
  Model : option model;
  classes : option class_labels;
  n_splits_ : option Z;
  raw_preds_df : option Ledger;
  n_test_per_fold : list nat;
  feat_importances : list feat_imp
}.

(** A method of the engine: it runs on a state, leaves a state, and
    returns or raises.  The state survives an exception. *)
Definition M (A : Type) : Type := State -> result A * State.

#[export] Instance M_ret : MRet M := fun A a st => (Ok a, st).
#[export] Instance M_bind : MBind M := fun A B f m st =>
  match m st with
  | (Ok a, st') => f a st'
  | (Raise e, st') => (Raise e, st')
  end.

Definition lift {A : Type} (r : result A) : M A := fun st => (r, st).
Definition raise {A : Type} (e : exn) : M A := lift (Raise e).
Definition gets {A : Type} (f : State -> A) : M A := fun st => (Ok (f st), st).
Definition modify (f : State -> State) : M unit := fun st => (Ok tt, f st).

Definition set_store (h : gmap loc obj) (st : State) : State :=
  mkState h (Model st) (classes st) (n_splits_ st) (raw_preds_df st)
          (n_test_per_fold st) (feat_importances st).
Definition set_Model (m : model) (st : State) : State :=
  mkState (store st) (Some m) (classes st) (n_splits_ st) (raw_preds_df st)
          (n_test_per_fold st) (feat_importances st).
Definition set_classes (c : class_labels) (st : State) : State :=
  mkState (store st) (Model st) (Some c) (n_splits_ st) (raw_preds_df st)
          (n_test_per_fold st) (feat_importances st).
Definition set_n_splits_ (n : Z) (st : State) : State :=
  mkState (store st) (Model st) (classes st) (Some n) (raw_preds_df st)
          (n_test_per_fold st) (feat_importances st).
Definition set_raw_preds_df (df : Ledger) (st : State) : State :=
  mkState (store st) (Model st) (classes st) (n_splits_ st) (Some df)
          (n_test_per_fold st) (feat_importances st).
Definition set_n_test_per_fold (l : list nat) (st : State) : State :=
  mkState (store st) (Model st) (classes st) (n_splits_ st) (raw_preds_df st)
          l (feat_importances st).
Definition set_feat_importances (l : list feat_imp) (st : State) : State :=
  mkState (store st) (Model st) (classes st) (n_splits_ st) (raw_preds_df st)
          (n_test_per_fold st) l.

(** A new object: it gets a location no object of the store has. *)
Definition alloc (o : obj) : M loc := fun st =>
  let l := fresh (dom (store st)) in
  (Ok l, set_store (<[l := o]> (store st)) st).

Definition read_df (l : loc) : M DataFrame := fun st =>
  match store st !! l with
  | Some (ODataFrame df) => (Ok df, st)
  | _ => (Raise TypeError, st)
  end.

Definition read_arr (l : loc) : M ndarray := fun st =>
  match store st !! l with
  | Some (ONdarray a) => (Ok a, st)
  | _ => (Raise TypeError, st)
  end.

(** An in-place change of the array at [l]. *)
Definition write_arr (l : loc) (a : ndarray) : M unit :=
  modify (fun st => set_store (<[l := ONdarray a]> (store st)) st).

(** A call of foreign code on the array [X]: what it did to the array
    is written back. *)
Definition call_on {R : Type} (X : loc)
           (f : ndarray -> result (R * ndarray)) : M R :=
  Xa ← read_arr X;
  '(r, Xa') ← lift (f Xa);
  write_arr X Xa';;
  mret r.

(** The same on the two arrays [X] and [y]. *)
Definition call_on2 {R : Type} (X y : loc)
           (f : ndarray -> ndarray -> result (R * ndarray * ndarray)) : M R :=
  Xa ← read_arr X;
  ya ← read_arr y;
  '(r, Xa', ya') ← lift (f Xa ya);
  write_arr X Xa';;
  write_arr y ya';;
  mret r.

(** [try: body except AttributeError: pass] *)
Definition try_except_AttributeError (body : M unit) : M unit := fun st =>
  match body st with
  | (Raise AttributeError, st') => (Ok tt, st')
  | r => r
  end.

(** [for i in range(n): body(i)] *)
Fixpoint for_range (n : nat) (body : nat -> M unit) : M unit :=
  match n with
  | O => mret tt
  | S k => for_range k body;; body k
  end.

(** What the engine takes from modules that are not among the sources:
    [conv_to_list] and [proc_type_dep_str] of helpers/ML_Helpers.py,
    [get_metric] of pipeline/Metrics.py, and, for a non-empty
    [self.feat_importances], [_set_model_flags] and the body of the loop
    of [_proc_feat_importance], which drive objects of
    pipeline/Feat_Importances.py and of the fitted pipeline. *)
Class Foreign := {
  conv_to_list : str_or_list -> list string;
  proc_type_dep_str : list string -> string -> result (list string);
  get_metric : string -> result scorer;
  _set_model_flags : M unit;
  feat_imp_body : feat_imp -> loc -> loc -> fold_index -> M feat_imp;
  set_final_local : feat_imp -> result feat_imp
}.
Context `{!Foreign}.

Definition _process_metrics (spec : Problem_Spec) (in_metrics : str_or_list)
  : result (list string * list scorer * scorer) :=
  let metric_strs := conv_to_list in_metrics in
  metric_strs ← proc_type_dep_str metric_strs (problem_type spec);
  metrics ← mapM get_metric metric_strs;
  metric ← py_index metrics 0;
  Ok (metric_strs, metrics, metric).

(** Both paths return the empty list, whatever was passed. *)
Definition _process_feat_importances (feat_importances : option str_or_list)
  : list feat_imp :=
  let feat_importances := conv_to_list <$> feat_importances in
  match feat_importances with
  | Some _ => []
  | None => []
  end.

(** [__init__]: the configuration and the first state of [self], over
    the store the caller's objects live in.  [make_base] is what its
    last two calls, [self.ps.get_model_spec()] and
    [Base_Model_Pipeline(...)], come to. *)
Definition init (feat_importances_obj : option str_or_list)
           (problem_spec : Problem_Spec) (cv : CV_obj)
           (Data_Scopes : Data_Scopes_obj)
           (compute_train_score : bool)
           (make_base : result Base_Model_Pipeline)
           (h : gmap loc obj) : result (Config * State) :=
  all_keys ← Data_Scopes_set_all_keys Data_Scopes problem_spec;
  '(metric_strs, metrics, _) ← _process_metrics problem_spec
                                                (metric problem_spec);
  let feat_importances := _process_feat_importances feat_importances_obj in
  base ← make_base;
  Ok (mkConfig problem_spec compute_train_score all_keys cv
               metric_strs metrics base,
      mkState h None None None None [] feat_importances).

Variable self : Config.

Definition _get_subjects_overlap (subjects : list subject) : list subject :=
  let overlap :=
    match _final_subjects (ps self) with
    | None => list_to_set subjects
    | Some final_subjects => final_subjects ∩ list_to_set subjects
    end in
  elements (overlap : gset subject).

Definition _init_raw_preds_df (subjects : list subject) : M unit :=
  modify (set_raw_preds_df (Ledger_new subjects)).

Definition _get_eval_splits (train_subjects : list subject) (splits : Z)
           (n_repeats : Z) (splits_vals : option group_vals)
  : M (list (list subject * list subject)) :=
  match splits_vals with
  | None =>
      modify (set_n_splits_ splits);;
      lift (repeated_k_fold (CV self) train_subjects n_repeats splits
                            (random_state (ps self)))
  | Some vals =>
      n ← lift (get_num_groups (CV self) train_subjects vals);
      modify (set_n_splits_ n);;
      lift (repeated_leave_one_group_out (CV self) train_subjects
                                         n_repeats vals)
  end.

Definition _get_search_cv (train_data_index : list subject)
  : M search_cv :=
  let '(search_split_vals, search_splits) :=
    get_search_split_vals (base_model_pipeline self) in
  match search_split_vals with
  | None => lift (k_fold (CV self) train_data_index search_splits
                         (random_state (ps self)))
  | Some vals => lift (leave_one_group_out (CV self) train_data_index vals)
  end.

Definition _get_score_metric (base_metric : str_or_list)
           (weight_metric0 : bool) : M (scorer * bool) :=
  let '(base_metric, weight_metric0) :=
    match base_metric with
    | PStr "default" => (metric (ps self), weight_metric (ps self))
    | _ => (base_metric, weight_metric0)
    end in
  '(_, _, metric) ← lift (_process_metrics (ps self) base_metric);
  mret (metric, weight_metric0).

(** Without a search, [weight_search_metric] is never assigned and the
    last statement reads it. *)
Definition _get_final_model (train_data : loc) : M model :=
  if is_search (base_model_pipeline self) then
    (df ← read_df train_data;
     search_cv ← _get_search_cv (df_index df);
     '(search_metric, weight_search_metric) ←
       _get_score_metric (param_search_metric (base_model_pipeline self))
                         (param_search_weight_metric
                            (base_model_pipeline self));
     lift (get_search_wrapped_pipeline (base_model_pipeline self)
             (Some search_cv) (Some search_metric) weight_search_metric
             (random_state (ps self))))
  else raise UnboundLocalError.

(** [X] is a frame only when [X_as_df]; [copy] copies what is new
    already.  Both results are new objects.  The two conversions to
    float raise the same exception and change nothing, so the order
    between them does not show. *)
Definition _get_X_y (data : loc) (X_as_df copy : bool) : M (loc * loc) :=
  df ← read_df data;
  Xdf ← lift (df_drop df (labels_of (target (ps self))));
  ya ← lift (df_target_array df (target (ps self)));
  Xo ← lift (if X_as_df then Ok (ODataFrame Xdf)
             else Xa ← df_to_array Xdf; Ok (ONdarray Xa));
  X ← alloc Xo;
  y ← alloc (ONdarray ya);
  mret (X, y).

Definition _train_model (train_data : loc) : M unit :=
  '(X, y) ← _get_X_y train_data false false;
  m ← gets Model ≫= fun o => lift (getattr o);
  m' ← call_on2 X y (fun Xa ya => fit m Xa ya);
  modify (set_Model m').

Definition _proc_feat_importance (train_data test_data : loc)
           (fold_ind : fold_index) : M unit :=
  fis ← gets feat_importances;
  if decide (0 < length fis) then
    (_set_model_flags;;
     fis' ← mapM (fun feat_imp =>
                    feat_imp_body feat_imp train_data test_data fold_ind)
                 fis;
     modify (set_feat_importances fis'))
  else mret tt.

(** [self.raw_preds_df.loc[subjects, col] = ...] *)
Definition assign (f : Ledger -> result Ledger) : M unit :=
  df ← gets raw_preds_df ≫= fun o => lift (getattr o);
  df' ← lift (f df);
  modify (set_raw_preds_df df').

Definition get_classes : M class_labels :=
  gets classes ≫= fun o => lift (getattr o).

Definition get_n_splits_ : M Z :=
  o ← gets n_splits_;
  match o with
  | Some n => mret n
  | None => raise TypeError
  end.

(** The items [self.ps.target[i]] ranges over: the keys of a list, the
    characters of a [str]. *)
Definition target_items (t : str_or_list) : list string :=
  match t with
  | PStr s => chars s
  | PList l => l
  end.

(** The five parts of [_add_raw_preds], in the order of the source. *)

(** [fold] and [repeat] of the column names. *)
Definition fold_and_repeat (fold_ind : fold_index) : M (string * string) :=
  match fold_ind with
  | FoldTest => mret ("test", "")
  | FoldNum i =>
      n ← get_n_splits_;
      f ← lift (py_mod i n);
      r ← lift (py_floordiv i n);
      mret (pretty (f + 1)%Z, pretty (r + 1)%Z)
  end.

(** [self.classes], with the catch of a single class in [y_test]. *)
Definition set_fold_classes (y_test : loc) : M unit :=
  ya ← read_arr y_test;
  modify (set_classes (FloatLabels (np_unique ya)));;
  cs ← get_classes;
  if decide (labels_len cs = 1)
  then modify (set_classes (IntLabels [0%Z; 1%Z]))
  else mret tt.

(** The [try] block: the class probabilities, when the estimator has
    [predict_proba]. *)
Definition add_prob_preds (X_test : loc) (subjects : list subject)
           (eval_type repeat : string) : M unit :=
  try_except_AttributeError
    (m ← gets Model ≫= fun o => lift (getattr o);
     raw_prob_preds ← call_on X_test (predict_proba m);
     let pred_col := eval_type +:+ repeat +:+ "_prob" in
     match raw_prob_preds with
     | Arr3 blocks =>
         for_range (length blocks) (fun i =>
           cs ← get_classes;
           label ← lift (label_str cs i);
           let p_col := pred_col +:+ "_class_" +:+ label in
           block ← lift (py_index blocks i);
           class_preds ← lift (mapM (fun val => py_index val 1) block);
           assign (fun df => loc_assign df subjects p_col
                                        (CNum <$> class_preds)))
     | Arr2 rows =>
         for_range (ncols rows) (fun i =>
           cs ← get_classes;
           label ← lift (label_str cs i);
           let p_col := pred_col +:+ "_class_" +:+ label in
           class_preds ← lift (column rows i);
           assign (fun df => loc_assign df subjects p_col
                                        (CNum <$> class_preds)))
     | Arr1 _ =>
         assign (fun df => loc_assign_array df subjects pred_col
                                            raw_prob_preds)
     end).

(** The point predictions and, last, the fold tag. *)
Definition add_point_preds (X_test : loc) (subjects : list subject)
           (eval_type repeat fold : string) : M unit :=
  m ← gets Model ≫= fun o => lift (getattr o);
  raw_preds ← call_on X_test (predict m);
  let pred_col := eval_type +:+ repeat in
  match raw_preds with
  | Arr2 rows =>
      for_range (ncols rows) (fun i =>
        cs ← get_classes;
        label ← lift (label_str cs i);
        let p_col := pred_col +:+ "_class_" +:+ label in
        class_preds ← lift (column rows i);
        assign (fun df => loc_assign df subjects p_col
                                     (CNum <$> class_preds)))
  | _ => assign (fun df => loc_assign_array df subjects pred_col raw_preds)
  end;;
  assign (fun df => loc_assign_scalar df subjects (pred_col +:+ "_fold")
                                      (CStr fold)).

(** The copy of the true values. *)
Definition add_true_values (y_test : loc) (subjects : list subject)
  : M unit :=
  ya ← read_arr y_test;
  match ya with
  | Arr1 _ =>
      match target (ps self) with
      | PList l =>
          t0 ← lift (py_index l 0);
          let t_base_key :=
            join_underscore (drop_last (split_underscore t0)) in
          assign (fun df => loc_assign_array df subjects
                              ("multiclass_" +:+ t_base_key) ya)
      | PStr t => assign (fun df => loc_assign_array df subjects t ya)
      end
  | Arr2 rows =>
      let items := target_items (target (ps self)) in
      for_range (length items) (fun i =>
        t ← lift (py_index items i);
        col ← lift (column rows i);
        assign (fun df => loc_assign df subjects t (CNum <$> col)))
  | Arr3 _ =>
      let items := target_items (target (ps self)) in
      for_range (length items) (fun i => raise ValueError)
  end.

Definition _add_raw_preds (X_test y_test : loc) (subjects : list subject)
           (eval_type : string) (fold_ind : fold_index) : M unit :=
  '(fold, repeat) ← fold_and_repeat fold_ind;
  set_fold_classes y_test;;
  add_prob_preds X_test subjects eval_type repeat;;
  add_point_preds X_test subjects eval_type repeat fold;;
  add_true_values y_test subjects.

Definition _get_scores (test_data : loc) (eval_type : string)
           (fold_ind : fold_index) : M (list Z) :=
  '(X_test, y_test) ← _get_X_y test_data false false;
  df ← read_df test_data;
  _add_raw_preds X_test y_test (df_index df) eval_type fold_ind;;
  m ← gets Model ≫= fun o => lift (getattr o);
  mapM (fun metric : scorer => call_on2 X_test y_test (metric m))
       (metrics self).

(** What [Test] returns: four values for ['test'], two for a fold of
    [Evaluate]. *)
Inductive Test_result :=
  | TestFinal (train_scores : scores_val) (scores : list Z)
              (raw_preds_df : Ledger) (feat_importances : list feat_imp)
  | TestFold (train_scores : scores_val) (scores : list Z).

(** The opening of [Test]: the two subject sets are restricted, the
    columns of [self.all_keys] are taken, [raw_preds_df] is made anew
    for ['test'], and the rows of the two sides are taken.  It returns
    [train_data] and [test_data]. *)
Definition Test_slices (data : loc)
           (train_subjects test_subjects : list subject)
           (fold_ind : fold_index) : M (loc * loc) :=
  let train_subjects := _get_subjects_overlap train_subjects in
  let test_subjects := _get_subjects_overlap test_subjects in
  df ← read_df data;
  sliced ← lift (df_getitem_list df (all_keys self));
  data ← alloc (ODataFrame sliced);
  match fold_ind return M unit with
  | FoldTest =>
      if compute_train_score self
      then _init_raw_preds_df (train_subjects ++ test_subjects)
      else _init_raw_preds_df test_subjects
  | FoldNum _ => mret tt
  end;;
  df ← read_df data;
  train_df ← lift (df_loc df train_subjects);
  train_data ← alloc (ODataFrame train_df);
  test_df ← lift (df_loc df test_subjects);
  test_data ← alloc (ODataFrame test_df);
  mret (train_data, test_data).

Definition Test (data : loc) (train_subjects test_subjects : list subject)
           (fold_ind : fold_index) : M Test_result :=
  '(train_data, test_data) ← Test_slices data train_subjects test_subjects
                                         fold_ind;
  m ← _get_final_model train_data;
  modify (set_Model m);;
  _train_model train_data;;
  _proc_feat_importance train_data test_data fold_ind;;
  train_scores ←
    (if compute_train_score self
     then (v ← _get_scores train_data "train_" fold_ind;
           mret (ScoreArray v))
     else mret (ScoreInt 0));
  scores ← _get_scores test_data "" fold_ind;
  match fold_ind with
  | FoldTest =>
      df ← gets raw_preds_df ≫= fun o => lift (getattr o);
      fis ← gets feat_importances;
      mret (TestFinal train_scores scores df fis)
  | FoldNum _ => mret (TestFold train_scores scores)
  end.

(** The loop of [Evaluate] over [subject_splits]. *)
Fixpoint eval_loop (data : loc)
         (subject_splits : list (list subject * list subject))
         (fold_ind : Z) (all_train_scores : list scores_val)
         (all_scores : list (list Z))
  : M (list scores_val * list (list Z)) :=
  match subject_splits with
  | [] => mret (all_train_scores, all_scores)
  | (train_subjects, test_subjects) :: rest =>
      l ← gets n_test_per_fold;
      modify (set_n_test_per_fold (l ++ [length test_subjects]));;
      n ← get_n_splits_;
      _ ← lift (py_floordiv fold_ind n);
      r ← Test data train_subjects test_subjects (FoldNum fold_ind);
      match r with
      | TestFold train_scores scores =>
          eval_loop data rest (fold_ind + 1)%Z
                    (all_train_scores ++ [train_scores])
                    (all_scores ++ [scores])
      | TestFinal _ _ _ _ => raise ValueError
      end
  end.

(** [for feat_imp in self.feat_importances: feat_imp.set_final_local()] *)
Definition set_final_locals : M unit :=
  fis ← gets feat_importances;
  fis' ← lift (mapM set_final_local fis);
  modify (set_feat_importances fis').

Definition Evaluate (data : loc) (train_subjects : list subject)
           (splits : Z) (n_repeats : Z) (splits_vals : option group_vals)
  : M (list scores_val * list (list Z) * Ledger * list feat_imp) :=
  let train_subjects := _get_subjects_overlap train_subjects in
  _init_raw_preds_df train_subjects;;
  subject_splits ← _get_eval_splits train_subjects splits n_repeats
                                    splits_vals;
  modify (set_n_test_per_fold []);;
  '(all_train_scores, all_scores) ← eval_loop data subject_splits 0 [] [];
  set_final_locals;;
  df ← gets raw_preds_df ≫= fun o => lift (getattr o);
  fis ← gets feat_importances;
  mret (all_train_scores, all_scores, df, fis).

(** *** What the statements below are written with *)

(** Every run of [m] takes a state to one related by [R], whether it
    returns or raises. *)
Definition steps {A : Type} (R : relation State) (m : M A) : Prop :=
  ∀ st r st', m st = (r, st') → R st st'.

(** No feature-importance object: all [__init__] ever leaves. *)
Definition no_importances (st : State) : Prop := feat_importances st = [].

(** The object at [l0] is kept. *)
Definition keeps_object (l0 : loc) : relation State := fun st st' =>
  no_importances st → is_Some (store st !! l0) →
  no_importances st' ∧ store st' !! l0 = store st !! l0.

(** The index of [raw_preds_df] is kept. *)
Definition keeps_index : relation State := fun st st' =>
  no_importances st →
  no_importances st' ∧
  ld_index <$> raw_preds_df st' = ld_index <$> raw_preds_df st.

(** [self.classes] is kept. *)
Definition keeps_classes : relation State := fun st st' =>
  classes st' = classes st.

(** The rows of [raw_preds_df] outside [subjects] are kept. *)
Definition rows_kept (subjects : list subject) : relation State :=
  fun st st' =>
    ∀ df, raw_preds_df st = Some df →
          ∃ df', raw_preds_df st' = Some df' ∧
                 ∀ s c, s ∉ subjects → ld_at df' c s = ld_at df c s.

(** The shape of [train_scores]: an array of one score per metric when
    the train side is scored, the int 0 when it is not. *)
Definition train_scores_shape (train_scores : scores_val) : Prop :=
  match train_scores with
  | ScoreArray v =>
      compute_train_score self = true ∧ length v = length (metrics self)
  | ScoreInt z => compute_train_score self = false ∧ z = 0%Z
  end.

(** A run of [Test] from [st] gets as far as [self.Model.fit], which
    raises [e]. *)
Definition fit_raises_in_Test (data : loc)
           (train_subjects test_subjects : list subject)
           (fold_ind : fold_index) (st : State) (e : exn) : Prop :=
  ∃ train_data test_data s1 m s2 X y s3 Xa ya,
    Test_slices data train_subjects test_subjects fold_ind st
    = (Ok (train_data, test_data), s1) ∧
    _get_final_model train_data s1 = (Ok m, s2) ∧
    _get_X_y train_data false false (set_Model m s2)
    = (Ok (X, y), s3) ∧
    store s3 !! X = Some (ONdarray Xa) ∧
    store s3 !! y = Some (ONdarray ya) ∧
    fit m Xa ya = Raise e.

(** The same in the fold of number [k] of the loop of [Evaluate] over
    [subject_splits], the folds before it having returned. *)
Definition fit_raises_in_fold (data : loc)
           (subject_splits : list (list subject * list subject))
           (k : nat) (st : State) (e : exn) : Prop :=
  ∃ train_subjects test_subjects earlier s1 n,
    subject_splits !! k = Some (train_subjects, test_subjects) ∧
    eval_loop data (take k subject_splits) 0 [] [] st
    = (Ok earlier, s1) ∧
    n_splits_ s1 = Some n ∧ n ≠ 0%Z ∧
    fit_raises_in_Test data train_subjects test_subjects
      (FoldNum (Z.of_nat k))
      (set_n_test_per_fold
         (n_test_per_fold s1 ++ [length test_subjects]) s1) e.

(** The splits the generator of the [CV] object yields for a call of
    [Evaluate]. *)
Definition generated_splits (train_subjects : list subject) (splits : Z)
           (n_repeats : Z) (splits_vals : option group_vals)
  : result (list (list subject * list subject)) :=
  match splits_vals with
  | None => repeated_k_fold (CV self) train_subjects n_repeats splits
                            (random_state (ps self))
  | Some vals => repeated_leave_one_group_out (CV self) train_subjects
                                              n_repeats vals
  end.

End Engine.

(** *** What a run keeps *)

Section Frames.
Context {model : Type} `{!Estimator model}.
Context {feat_imp search_cv group_vals : Type}.
(** The attribute read by [f] is kept. *)
Definition keeps {A : Type} (f : @State model feat_imp → A)
  : relation (@State model feat_imp) :=
  fun st st' => f st' = f st.

(** The same through the calls of foreign code, which are not made when
    there is no feature-importance object. *)
Definition keeps_plain {A : Type} (f : @State model feat_imp → A)
  : relation (@State model feat_imp) :=
  fun st st' =>
    no_importances st → no_importances st' ∧ f st' = f st.

(** The object at [l], if there is one, is kept. *)
Definition keeps_at (l : loc) : relation (@State model feat_imp) :=
  fun st st' => is_Some (store st !! l) → store st' !! l = store st !! l.
End Frames.

End Model_Pipeline.

Import Model_Pipeline.

(** [t in x] on two [str], as a proposition: [t] occurs in [x]. *)
Definition occurs_in (t x : string) : Prop :=
  ∃ pre post, x = pre +:+ t +:+ post.

(** ** Data_Helpers.py *)

Module Data_Helpers.

(** What the functions of this module raise: [RuntimeError], [NameError]
    for a name that is bound nowhere, or an exception of a built-in. *)
Inductive raised :=
  | RuntimeError
  | NameError (name : string)
  | Builtin (e : exn).

Inductive outcome (A : Type) :=
  | Returns (a : A)
  | Raises (e : raised).
Arguments Returns {A} a.
Arguments Raises {A} e.

(** *** [proc_datatypes] and [proc_args] *)

(** [col_names] on return: as passed, or the one-element list
    [[col_names]] made for a multilabel type. *)
Inductive col_names_val :=
  | Cols (col_names : str_or_list)
  | Group (col_names : str_or_list).

(** [len(x)]: the number of items of a list, of characters of a [str]. *)
Definition py_len (x : str_or_list) : nat :=
  match x with
  | PStr s => String.length s
  | PList l => length l
  end.

Definition col_names_len (c : col_names_val) : nat :=
  match c with
  | Cols x => py_len x
  | Group _ => 1
  end.

Definition proc_datatypes (data_types col_names : str_or_list)
  : outcome (list string * col_names_val) :=
  let col_names :=
    match data_types with
    | PStr "multilabel" | PStr "m" => Group col_names
    | _ => Cols col_names
    end in
  let data_types :=
    match data_types with
    | PStr s => [s]
    | PList l => l
    end in
  if decide (length data_types ≠ col_names_len col_names)
  then Raises RuntimeError
  else Returns (data_types, col_names).

(** An argument that is one value or a list of values. *)
Inductive one_or_list (A : Type) :=
  | One (a : A)
  | Many (l : list A).
Arguments One {A} a.
Arguments Many {A} l.

Definition proc_args {A B : Type} (args : one_or_list A)
           (data_types : list B) : outcome (list A) :=
  let args :=
    match args with
    | One a => [a]
    | Many l => l
    end in
  let args :=
    match args with
    | [a] => map (fun _ => a) (seq 0 (length data_types))
    | _ => args
    end in
  if decide (length args ≠ length data_types)
  then Raises RuntimeError
  else Returns args.

(** *** The common name of the keys of a multilabel *)

(** [s.replace(old, new)]: the occurrences of [old] in [s] are taken
    from the left and do not overlap; [skip] counts the characters of an
    occurrence still to pass.  An empty [old] occurs before every
    character and at the end. *)
Fixpoint replace_from (old new : string) (skip : nat) (s : string)
  : string :=
  match s with
  | EmptyString => EmptyString
  | String c rest =>
      match skip with
      | S k => replace_from old new k rest
      | O =>
          if String.prefix old s
          then new +:+ replace_from old new (String.length old - 1) rest
          else String c (replace_from old new 0 rest)
      end
  end.

Fixpoint replace_empty (new s : string) : string :=
  match s with
  | EmptyString => new
  | String c rest => new +:+ String c (replace_empty new rest)
  end.

Definition str_replace (old new s : string) : string :=
  match old with
  | EmptyString => replace_empty new s
  | _ => replace_from old new 0 s
  end.

(** [{x[i:i+j] for i in range(len(x)) for j in range(len(x) - i + 1)}] *)
Definition substrs (x : string) : gset string :=
  list_to_set
    (i ← seq 0 (String.length x);
     j ← seq 0 (String.length x - i + 1);
     [String.substring i j x]).

(** [max(l, key=len)] over the items in the order [l] yields them: the
    first of the longest; nothing for no item, where Python raises
    [ValueError]. *)
Definition max_by_len (l : list string) : option string :=
  match l with
  | [] => None
  | x :: rest =>
      Some (fold_left (fun best y =>
                         if String.length best <? String.length y
                         then y else best) rest x)
  end.

Definition total_len (keys : list string) : nat :=
  foldr (fun k n => String.length k + n) 0 keys.

Section CommonName.

(** The order in which a set yields its elements. *)
Variable set_iter : gset string -> list string.

Definition find_substr (data : list string) : outcome string :=
  match data with
  | [] => Raises (Builtin IndexError)
  | d0 :: rest =>
      let s := fold_left (fun s val => s ∩ substrs val) rest (substrs d0) in
      match max_by_len (set_iter s) with
      | Some mx => Returns mx
      | None => Returns EmptyString
      end
  end.

(** The loop of [get_top_substrs], [top] being the common substring
    found last.  Every turn shortens the keys; [fuel] bounds the turns,
    and [None] stands for a loop cut short. *)
Fixpoint top_substrs_loop (fuel : nat) (keys : list string) (top : string)
         (found : list string) : option (outcome (list string)) :=
  if decide (1 < String.length top) then
    match fuel with
    | O => None
    | S fuel' =>
        let found := found ++ [top] in
        let keys := map (str_replace top EmptyString) keys in
        match find_substr keys with
        | Returns top' => top_substrs_loop fuel' keys top' found
        | Raises e => Some (Raises e)
        end
    end
  else Some (Returns found).

Definition get_top_substrs (keys : list string)
  : option (outcome (list string)) :=
  match find_substr keys with
  | Returns top => top_substrs_loop (total_len keys) keys top []
  | Raises e => Some (Raises e)
  end.

Definition get_common_name (keys : list string)
  : option (outcome string) :=
  match get_top_substrs keys with
  | None => None
  | Some (Raises e) => Some (Raises e)
  | Some (Returns top_strs) =>
      if decide (length top_strs = 0) then
        match keys with
        | [] => Some (Raises (Builtin IndexError))
        | k :: _ => Some (Returns k)
        end
      else
        match top_strs with
        | [] => Some (Raises (Builtin IndexError))
        | t :: _ => Some (Returns t)
        end
  end.

(** [keys] that is no list makes the first [raise] read [key], a name
    bound nowhere in the module. *)
Definition process_multilabel_input (keys : str_or_list)
  : option (outcome string) :=
  match keys with
  | PStr _ => Some (Raises (NameError "key"))
  | PList l =>
      if decide (length l < 2) then Some (Raises RuntimeError)
      else get_common_name l
  end.

End CommonName.

End Data_Helpers.

(** ** A small pipeline to run the engine on *)

(** The estimator: a flag and the number of fits so far.  A fragile one
    refuses to fit when subject 2 is among the training rows.  The
    prediction is the first feature; the probabilities are one row [1, 0]
    per sample. *)
#[export] Instance demo_estimator : Estimator (bool * nat) := {|
  fit := fun m X y =>
    match X with
    | Arr2 rows =>
        if m.1 && bool_decide (Exists (fun r => r !! 0%nat = Some 2%Z) rows)
        then Raise (ExternalError "fit")
        else Ok ((m.1, S m.2), X, y)
    | _ => Raise ValueError
    end;
  predict := fun m X =>
    match X with
    | Arr2 rows => Ok (Arr1 (map (fun r => default 0%Z (r !! 0%nat)) rows), X)
    | _ => Raise ValueError
    end;
  predict_proba := fun m X =>
    match X with
    | Arr2 rows => Ok (Arr2 (map (fun _ => [1%Z; 0%Z]) rows), X)
    | _ => Raise ValueError
    end
|}.

(** The splitter: fold [j] of [k] holds out the subjects congruent to [j]. *)
Definition demo_fold (k : nat) (subjects : list subject) (j : nat)
  : list subject * list subject :=
  (filter (fun s => s `mod` k ≠ j) subjects,
   filter (fun s => s `mod` k = j) subjects).

Definition demo_cv : @CV_obj unit unit := {|
  repeated_k_fold := fun subjects n_repeats n_splits _ =>
    Ok (concat (replicate (Z.to_nat n_repeats)
                  (map (demo_fold (Z.to_nat n_splits) subjects)
                       (seq 0 (Z.to_nat n_splits)))));
  get_num_groups := fun _ _ => Ok 2%Z;
  repeated_leave_one_group_out := fun _ _ _ => Ok [];
  k_fold := fun _ _ _ => Ok tt;
  leave_one_group_out := fun _ _ => Ok tt
|}.

Definition demo_base (fragile : bool)
  : @Base_Model_Pipeline (bool * nat) unit unit := {|
  is_search := true;
  param_search_metric := PStr "default";
  param_search_weight_metric := false;
  get_search_split_vals := (None, 3%Z);
  get_search_wrapped_pipeline := fun _ _ _ _ => Ok (fragile, 0%nat)
|}.

(** A metric: the length of its name. *)
Definition demo_metric (name : string) : @scorer (bool * nat) :=
  fun _ X y => Ok (Z.of_nat (String.length name), X, y).

#[export] Instance demo_foreign : @Foreign (bool * nat) string := {|
  conv_to_list := Scopes.conv_to_list_std;
  proc_type_dep_str := fun l _ => Ok l;
  get_metric := fun name => Ok (demo_metric name);
  _set_model_flags := mret tt;
  feat_imp_body := fun f _ _ _ => mret f;
  set_final_local := fun f => Ok f
|}.

Definition demo_spec : Problem_Spec :=
  mkProblem_Spec (PStr "t") (PList ["r2"; "mse"]) false "regression" 1%Z
                 (Some {[1; 2; 3; 4; 5]}).

(** A [Data_Scopes] whose [set_all_keys] returns the keys of two features
    and the target. *)
Definition demo_data_scopes : Data_Scopes_obj :=
  mkData_Scopes (fun _ => Ok ["a"; "b"; "t"]).

(** Six subjects; the target [t] is the parity of the subject. *)
Definition demo_table : DataFrame :=
  mkDataFrame [1; 2; 3; 4; 5; 6] ["a"; "b"; "t"; "extra"]
    (fun s k => if decide (k = "t") then Z.of_nat (s `mod` 2)
                else Z.of_nat s).

Definition demo_store : gmap loc obj := {[ 0 := ODataFrame demo_table ]}.

Definition demo_self (compute_train_score fragile : bool)
  : @Config (bool * nat) unit unit :=
  mkConfig demo_spec compute_train_score ["a"; "b"; "t"] demo_cv
           ["r2"; "mse"] [demo_metric "r2"; demo_metric "mse"]
           (demo_base fragile).

(** The same table read as a binary problem, scored by one metric. *)
Definition binary_spec : Problem_Spec :=
  mkProblem_Spec (PStr "t") (PList ["roc_auc"]) false "binary" 1%Z
                 (Some {[1; 2; 3; 4; 5]}).

Definition binary_self : @Config (bool * nat) unit unit :=
  mkConfig binary_spec false ["a"; "b"; "t"] demo_cv
           ["roc_auc"] [demo_metric "roc_auc"] (demo_base false).

Definition demo_state : @State (bool * nat) string :=
  mkState demo_store None None None None [] [].

(** A state in the middle of an evaluation in two splits, at fold index 3: the
    rows of the test subjects 2 and 4, the arrays taken from them, a
    fitted estimator. *)
Definition demo_fold_state : @State (bool * nat) string :=
  mkState {[ 0 := ODataFrame (mkDataFrame [2; 4] ["a"; "b"; "t"]
                                          (df_at demo_table));
             1 := ONdarray (Arr2 [[2%Z; 2%Z]; [4%Z; 4%Z]]);
             2 := ONdarray (Arr1 [0%Z; 0%Z]) ]}
          (Some (false, 1%nat)) None (Some 2%Z)
          (Some (Ledger_new [1; 2; 3; 4; 5])) [] [].

Definition demo_scopes : Scopes.Scopes :=
  Scopes.Scopes_init ["thickness"; "area"] [] ["sex"] ["site"] ["age"; "sex"].

(** A resolver whose one strat key is also listed among the covariates. *)
Definition overlapping_scopes : Scopes.Scopes :=
  Scopes.Scopes_init ["thickness"] [] ["sex"] ["sex"] ["sex"].

(** A pipeline without a parameter search. *)
Definition demo_base_plain
  : @Base_Model_Pipeline (bool * nat) unit unit := {|
  is_search := false;
  param_search_metric := PStr "default";
  param_search_weight_metric := false;
  get_search_split_vals := (None, 3%Z);
  get_search_wrapped_pipeline := fun _ _ _ _ => Ok (false, 0%nat)
|}.

Definition demo_self_plain : @Config (bool * nat) unit unit :=
  mkConfig demo_spec true ["a"; "b"; "t"] demo_cv
           ["r2"; "mse"] [demo_metric "r2"; demo_metric "mse"]
           demo_base_plain.

(** A pipeline whose keys name a column the table does not have. *)
Definition demo_self_missing : @Config (bool * nat) unit unit :=
  mkConfig demo_spec true ["a"; "z"; "t"] demo_cv
           ["r2"; "mse"] [demo_metric "r2"; demo_metric "mse"]
           (demo_base false).

(** The problem of [demo_spec] with no metric named. *)
Definition demo_spec_bare : Problem_Spec :=
  mkProblem_Spec (PStr "t") (PList []) false "regression" 1%Z
                 (Some {[1; 2; 3; 4; 5]}).

(** An estimator given by its number of classes: its probabilities have
    one column per class, and it has no [predict_proba] at 0. *)
#[export] Instance wide_estimator : Estimator nat := {|
  fit := fun m X y => Ok (m, X, y);
  predict := fun m X =>
    match X with
    | Arr2 rows => Ok (Arr1 (map (fun r => default 0%Z (r !! 0%nat)) rows), X)
    | _ => Raise ValueError
    end;
  predict_proba := fun m X =>
    match m, X with
    | O, _ => Raise AttributeError
    | _, Arr2 rows => Ok (Arr2 (map (fun _ => replicate m 0%Z) rows), X)
    | _, _ => Raise ValueError
    end
|}.

Definition wide_self : @Config nat unit unit :=
  mkConfig demo_spec false ["a"; "b"; "t"] demo_cv [] []
           {| is_search := false;
              param_search_metric := PStr "default";
              param_search_weight_metric := false;
              get_search_split_vals := (None, 3%Z);
              get_search_wrapped_pipeline := fun _ _ _ _ => Ok 3%nat |}.

(** The middle of an evaluation in two splits, at fold index 3, with the
    estimator of [m] classes fitted: the arrays of the test subjects 2
    and 4, whose targets are 0 and 1. *)
Definition wide_state (m : nat) : @State nat string :=
  mkState {[ 1 := ONdarray (Arr2 [[2%Z; 2%Z]; [4%Z; 4%Z]]);
             2 := ONdarray (Arr1 [0%Z; 1%Z]) ]}
          (Some m) None (Some 2%Z)
          (Some (Ledger_new [1; 2; 3; 4; 5])) [] [].

(** The resolver [demo_scopes] once [set_all_keys] has run for the scope
    ['all'] and the target [score]. *)
Definition demo_resolved : Scopes.Scopes :=
  Scopes.mkScopes ["thickness"; "area"] [] ["sex"] ["site"] ["age"; "sex"]
    (Some ["site"; "score"])
    (Some ["thickness"; "area"; "age"; "sex"; "site"; "score"])
    (Some 4).

(** One order in which a set of strings yields its elements. *)
Definition demo_set_iter (s : gset string) : list string := elements s.

(** * Properties *)

(** ** The scope resolver *)

Section ScopesFacts.
Import Scopes.
Variable SCOPES : list string.
Variable conv_to_list : str_or_list -> list string.

Lemma list_remove_elem key keys x : x ∈ list_remove key keys → x ∈ keys.
Proof.
  induction keys as [|k rest IH]; simpl; [done|].
  destruct (decide (k = key)); intros Hx.
  - apply elem_of_cons; by right.
  - apply elem_of_cons in Hx as [->|Hx]; apply elem_of_cons; auto.
Qed.

Lemma list_remove_NoDup key keys : NoDup keys → NoDup (list_remove key keys).
Proof.
  induction 1 as [|k rest Hk Hnd IH]; simpl; [constructor|].
  destruct (decide (k = key)); [done|].
  constructor; [|done]. intros Hin. apply Hk. by eapply list_remove_elem.
Qed.

Lemma list_remove_gone key keys : NoDup keys → key ∉ list_remove key keys.
Proof.
  induction 1 as [|k rest Hk Hnd IH]; simpl; [apply not_elem_of_nil|].
  destruct (decide (k = key)) as [->|Hne]; [done|].
  intros [?|?]%elem_of_cons; [congruence|done].
Qed.

Lemma remove_keys_at_end_spec at_end : ∀ keys,
  NoDup keys →
  NoDup (remove_keys_at_end keys at_end) ∧
  (∀ x, x ∈ remove_keys_at_end keys at_end → x ∈ keys) ∧
  (∀ k, k ∈ at_end → k ∉ remove_keys_at_end keys at_end).
Proof.
  unfold remove_keys_at_end.
  induction at_end as [|key rest IH]; intros keys Hnd; simpl.
  - split; [done|]. split; [done|]. intros k Hk. by apply elem_of_nil in Hk.
  - destruct (IH (list_remove key keys) (list_remove_NoDup key keys Hnd))
      as (Hnd' & Hsub & Hout).
    split; [done|]. split.
    + intros x Hx. eapply list_remove_elem; eauto.
    + intros k [->|Hk]%elem_of_cons; [|by apply Hout].
      intros Hin. apply Hsub in Hin. by apply (list_remove_gone key keys).
Qed.

Lemma named_scope_keys_NoDup self scope keys :
  distinct_keys self →
  named_scope_keys self scope = Ok keys → NoDup keys.
Proof.
  intros (Hd & Hf & Hc & Hv & Ha). unfold named_scope_keys.
  repeat case_decide; destruct (all_keys self) as [ak|] eqn:Hak; simpl;
    intros [= <-]; try done; try (apply NoDup_filter); auto.
Qed.

Lemma get_keys_named_spec self scope at_end keys :
  distinct_keys self → keys_at_end self = Some at_end →
  get_keys_named self scope = Ok keys →
  NoDup keys ∧ ∀ k, k ∈ at_end → k ∉ keys.
Proof.
  intros Hdk Hend. unfold get_keys_named. rewrite Hend.
  destruct (named_scope_keys self scope) as [ks|] eqn:Hks; simpl; [|done].
  intros [= <-]. apply named_scope_keys_NoDup in Hks; [|done].
  destruct (remove_keys_at_end_spec at_end ks Hks) as (? & _ & ?). done.
Qed.

Lemma get_keys_listed_spec self scope at_end keys :
  keys_at_end self = Some at_end →
  get_keys_listed SCOPES self scope = Ok keys →
  NoDup keys ∧ ∀ k, k ∈ at_end → k ∉ keys.
Proof.
  intros Hend. unfold get_keys_listed. rewrite Hend.
  destruct (scope_loop SCOPES self scope [] []) as [[ks rs]|]; simpl; [|done].
  case_decide; [destruct (all_keys self); simpl|]; try done;
    intros [= <-];
    match goal with |- context [remove_keys_at_end (list_of_set ?l) _] =>
      destruct (remove_keys_at_end_spec at_end (list_of_set l)
                  (NoDup_elements _)) as (? & _ & ?) end; done.
Qed.

Lemma get_keys_from_scope_spec self scope_obj at_end keys :
  distinct_keys self → keys_at_end self = Some at_end →
  get_keys_from_scope SCOPES conv_to_list self scope_obj = Ok keys →
  NoDup keys ∧ ∀ k, k ∈ at_end → k ∉ keys.
Proof.
  intros Hdk Hend. unfold get_keys_from_scope.
  destruct scope_obj as [[s|l]|[s|l]]; try case_decide;
    eauto using get_keys_named_spec, get_keys_listed_spec.
Qed.

(** X25.  When the data, covariate, strat and target keys of the
    resolver are pairwise distinct and neither the categorical nor the
    data-file keys hold a key twice, [set_all_keys] leaves [all_keys] equal
    to the scoped feature keys, which are what [get_keys_from_scope]
    returns for the scope on the resolver with every key in [all_keys],
    followed by the strat keys followed by the target keys, without a
    repeated key and with no strat or target key among the feature keys;
    and from then on [get_keys_from_scope] returns, for every scope, a
    list without repetition that holds no strat or target key. *)
Theorem set_all_keys_layout self scope targets_key self' :
  NoDup (data_keys self ++ covars_keys self ++ strat_keys self
         ++ conv_to_list targets_key) →
  NoDup (data_file_keys self) → NoDup (cat_keys self) →
  set_all_keys SCOPES conv_to_list self scope targets_key = Ok self' →
  let at_end := strat_keys self ++ conv_to_list targets_key in
  ∃ scoped_keys,
    get_keys_from_scope SCOPES conv_to_list
      (mkScopes (data_keys self) (data_file_keys self) (cat_keys self)
                (strat_keys self) (covars_keys self) (Some at_end)
                (Some (data_keys self ++ covars_keys self ++ at_end))
                (num_feat_keys self)) scope = Ok scoped_keys ∧
    all_keys self' = Some (scoped_keys ++ at_end) ∧
    keys_at_end self' = Some at_end ∧
    NoDup (scoped_keys ++ at_end) ∧
    (∀ k, k ∈ at_end → k ∉ scoped_keys) ∧
    (∀ scope' keys,
       get_keys_from_scope SCOPES conv_to_list self' scope' = Ok keys →
       NoDup keys ∧ ∀ k, k ∈ at_end → k ∉ keys).
Proof.
  intros Hall Hfile Hcat Hset at_end. unfold set_all_keys in Hset.
  fold at_end in Hset.
  match type of Hset with
  | context [get_keys_from_scope _ _ ?s1 _] => set (self1 := s1) in Hset
  end.
  destruct (get_keys_from_scope SCOPES conv_to_list self1 scope)
    as [scoped|] eqn:Hscoped; simpl in Hset; [|done].
  injection Hset as <-.
  assert (Hdata : NoDup (data_keys self) ∧ NoDup (covars_keys self)
                  ∧ NoDup at_end).
  { apply NoDup_app in Hall as (? & _ & Hrest).
    apply NoDup_app in Hrest as (? & _ & ?). done. }
  destruct Hdata as (Hd & Hv & Hend).
  assert (Hdk1 : distinct_keys self1).
  { repeat split; try done. intros ak [= <-]. done. }
  destruct (get_keys_from_scope_spec self1 scope at_end scoped Hdk1 eq_refl
              Hscoped) as [Hnd Hout].
  assert (Hnd' : NoDup (scoped ++ at_end)).
  { apply NoDup_app. repeat split; [done| |done].
    intros x Hx Hx'. by apply (Hout x). }
  exists scoped. do 5 (split; [done|]).
  intros scope' keys Hkeys.
  match type of Hkeys with
  | get_keys_from_scope _ _ ?s _ = _ =>
      apply (get_keys_from_scope_spec s scope' at_end keys);
        [|reflexivity|exact Hkeys]
  end.
  split; [done|]. split; [done|]. split; [done|]. split; [done|].
  simpl. intros ak Hak. by simplify_eq.
Qed.
End ScopesFacts.

(** ** The engine *)

Section EngineFacts.
Context {model : Type} `{!Estimator model}.
Context {feat_imp search_cv group_vals : Type}.
#[local] Abbreviation State := (@State model feat_imp).
#[local] Abbreviation M := (@M model feat_imp).
#[local] Abbreviation steps := (@steps model feat_imp _).
#[local] Abbreviation no_importances := (@no_importances model feat_imp).
#[local] Abbreviation keeps_object := (@keeps_object model feat_imp).
#[local] Abbreviation keeps_index := (@keeps_index model feat_imp).
#[local] Abbreviation keeps_classes := (@keeps_classes model feat_imp).
#[local] Abbreviation rows_kept := (@rows_kept model feat_imp).

Lemma bind_inv {A B : Type} (m : M A) (f : A → M B) st r st' :
  (m ≫= f) st = (r, st') →
  (∃ a st1, m st = (Ok a, st1) ∧ f a st1 = (r, st')) ∨
  (∃ e, m st = (Raise e, st') ∧ r = Raise e).
Proof.
  unfold mbind, M_bind. destruct (m st) as [[a|e] st1] eqn:Hm; intros H.
  - left. eauto.
  - right. exists e. by simplify_eq.
Qed.

Lemma bind_Ok_inv {A B : Type} (m : M A) (f : A → M B) st b st' :
  (m ≫= f) st = (Ok b, st') →
  ∃ a st1, m st = (Ok a, st1) ∧ f a st1 = (Ok b, st').
Proof.
  intros [(a & st1 & ? & ?)|(e & ? & ?)]%bind_inv; [eauto|done].
Qed.

Lemma bind_Raise {A B : Type} (m : M A) (f : A → M B) st e st' :
  m st = (Raise e, st') → (m ≫= f) st = (Raise e, st').
Proof. unfold mbind, M_bind. by intros ->. Qed.

Lemma bind_Ok {A B : Type} (m : M A) (f : A → M B) st a st1 :
  m st = (Ok a, st1) → (m ≫= f) st = f a st1.
Proof. unfold mbind, M_bind. by intros ->. Qed.

Section Rules.
Context (R : relation State) `{!PreOrder R}.

Lemma steps_ret {A : Type} (a : A) : steps R (mret a).
Proof. intros st r st' [= _ <-]. reflexivity. Qed.

Lemma steps_lift {A : Type} (r : result A) : steps R (lift r).
Proof. intros st r' st' [= _ <-]. reflexivity. Qed.

Lemma steps_raise {A : Type} (e : exn) : steps R (raise (A:=A) e).
Proof. apply steps_lift. Qed.

Lemma steps_gets {A : Type} (f : State → A) : steps R (gets f).
Proof. intros st r' st' [= _ <-]. reflexivity. Qed.

Lemma steps_modify (f : State → State) :
  (∀ st, R st (f st)) → steps R (modify f).
Proof. intros Hf st r' st' [= _ <-]. apply Hf. Qed.

Lemma steps_bind {A B : Type} (m : M A) (f : A → M B) :
  steps R m → (∀ a, steps R (f a)) → steps R (m ≫= f).
Proof.
  intros Hm Hf st r st' [(a & st1 & H1 & H2)|(e & H1 & _)]%bind_inv.
  - etrans; [eapply Hm|eapply Hf]; eauto.
  - eapply Hm; eauto.
Qed.

Lemma steps_try (body : M unit) :
  steps R body → steps R (try_except_AttributeError body).
Proof.
  intros Hb st r st'. unfold try_except_AttributeError.
  destruct (body st) as [[[]|e] st1] eqn:Hbody.
  - intros [= _ <-]. eapply Hb; eauto.
  - destruct e; intros [= _ <-]; eapply Hb; eauto.
Qed.

Lemma steps_for_range n (body : nat → M unit) :
  (∀ i, steps R (body i)) → steps R (for_range n body).
Proof.
  intros Hb. induction n as [|n IH]; simpl.
  - apply steps_ret.
  - apply steps_bind; [done|]. intros _. apply Hb.
Qed.

Lemma steps_mapM {A B : Type} (f : A → M B) (l : list A) :
  (∀ a, steps R (f a)) → steps R (mapM f l).
Proof.
  intros Hf. induction l as [|a l IH]; simpl.
  - apply steps_ret.
  - apply steps_bind; [done|]. intros b.
    apply steps_bind; [done|]. intros bs. apply steps_ret.
Qed.

Lemma steps_read_df l : steps R (read_df l).
Proof.
  intros st r st'. unfold read_df.
  destruct (store st !! l) as [[]|]; intros [= _ <-]; reflexivity.
Qed.

Lemma steps_read_arr l : steps R (read_arr l).
Proof.
  intros st r st'. unfold read_arr.
  destruct (store st !! l) as [[]|]; intros [= _ <-]; reflexivity.
Qed.
End Rules.

#[local] Instance keeps_object_preorder l0 : PreOrder (keeps_object l0).
Proof.
  split.
  - intros st ? ?. done.
  - intros st1 st2 st3 H12 H23 Hn Hs.
    destruct (H12 Hn Hs) as [Hn2 E2].
    destruct (H23 Hn2) as [Hn3 E3]; [by rewrite E2|].
    split; [done|]. by rewrite E3.
Qed.

#[local] Instance keeps_index_preorder : PreOrder keeps_index.
Proof.
  split.
  - intros st ?. done.
  - intros st1 st2 st3 H12 H23 Hn.
    destruct (H12 Hn) as [Hn2 E2]. destruct (H23 Hn2) as [Hn3 E3].
    split; [done|]. by rewrite E3.
Qed.

#[local] Instance keeps_classes_preorder : PreOrder keeps_classes.
Proof.
  split; [by intros st|]. intros st1 st2 st3 H12 H23.
  unfold keeps_classes in *. congruence.
Qed.

Lemma steps_alloc_object l0 o : steps (keeps_object l0) (alloc o).
Proof.
  intros st r st' [= _ <-] Hn Hs. split; [done|]. simpl.
  apply lookup_insert_ne. intros Heq.
  apply (is_fresh (dom (store st))). rewrite Heq. by apply elem_of_dom.
Qed.

Lemma steps_alloc_index o : steps keeps_index (alloc o).
Proof. by intros st r st' [= _ <-] Hn. Qed.

Lemma steps_alloc_classes o : steps keeps_classes (alloc o).
Proof. by intros st r st' [= _ <-]. Qed.

Lemma steps_write_arr_object l0 X a :
  X ≠ l0 → steps (keeps_object l0) (write_arr X a).
Proof.
  intros Hne st r st' [= _ <-] Hn Hs. split; [done|]. simpl.
  by apply lookup_insert_ne.
Qed.

Lemma steps_write_arr_index X a : steps keeps_index (write_arr X a).
Proof. by intros st r st' [= _ <-] Hn. Qed.

Lemma steps_write_arr_classes X a : steps keeps_classes (write_arr X a).
Proof. by intros st r st' [= _ <-]. Qed.


Context {foreign : @Foreign model feat_imp}.
Variable self : @Config model search_cv group_vals.

Lemma loc_assign_index df subjects col values df' :
  loc_assign df subjects col values = Ok df' → ld_index df' = ld_index df.
Proof. unfold loc_assign. repeat case_decide; by intros [= <-]. Qed.

Lemma loc_assign_scalar_index df subjects col value df' :
  loc_assign_scalar df subjects col value = Ok df' →
  ld_index df' = ld_index df.
Proof. apply loc_assign_index. Qed.

Lemma loc_assign_array_index df subjects col a df' :
  loc_assign_array df subjects col a = Ok df' → ld_index df' = ld_index df.
Proof. destruct a; simpl; [apply loc_assign_index|done..]. Qed.

Lemma steps_assign_index (f : Ledger → result Ledger) :
  (∀ df df', f df = Ok df' → ld_index df' = ld_index df) →
  steps keeps_index (assign f).
Proof.
  intros Hf st r st'. unfold assign, gets, lift, modify, mbind, M_bind.
  destruct (raw_preds_df st) as [df|] eqn:Hdf; simpl; [|by intros [= _ <-]].
  destruct (f df) as [df'|e] eqn:Hfdf; intros [= _ <-]; [|done].
  intros Hn. split; [done|]. simpl. rewrite Hdf. simpl. f_equal. eauto.
Qed.

(** **** Rows of [raw_preds_df] outside [subjects] *)

Lemma set_cells_other (cells : list (subject * cell)) :
  ∀ (c : gmap subject cell) s,
    s ∉ cells.*1 → set_cells c cells !! s = c !! s.
Proof.
  unfold set_cells.
  induction cells as [|[s0 v0] rest IH]; intros c s Hs; simpl; [done|].
  simpl in Hs. apply not_elem_of_cons in Hs as [Hne Hs].
  rewrite IH by done. by apply lookup_insert_ne.
Qed.

Lemma set_cells_const (cells : list (subject * cell)) v :
  Forall (fun p => p.2 = v) cells →
  ∀ (c : gmap subject cell) s,
    s ∈ cells.*1 → set_cells c cells !! s = Some v.
Proof.
  unfold set_cells.
  induction 1 as [|[s0 v0] rest Hv Hrest IH]; intros c s Hs; simpl.
  - by apply elem_of_nil in Hs.
  - simpl in *. subst v0.
    destruct (decide (s ∈ rest.*1)) as [Hin|Hout]; [by apply IH|].
    apply elem_of_cons in Hs as [->|Hs]; [|done].
    pose proof (set_cells_other rest (<[s0:=v]> c) s0 Hout) as E.
    unfold set_cells in E. rewrite E. apply lookup_insert_eq.
Qed.

Lemma loc_assign_rows df subjects col values df' :
  loc_assign df subjects col values = Ok df' →
  ∀ s c, s ∉ subjects → ld_at df' c s = ld_at df c s.
Proof.
  unfold loc_assign. repeat case_decide; intros [= <-]; try done.
  intros s c Hs. unfold ld_at. simpl.
  destruct (decide (c = col)) as [->|Hne].
  - rewrite lookup_insert_eq. simpl. rewrite set_cells_other.
    + by destruct (ld_cols df !! col).
    + rewrite fst_zip by lia. done.
  - by rewrite lookup_insert_ne.
Qed.

Lemma loc_assign_scalar_rows df subjects col value df' :
  loc_assign_scalar df subjects col value = Ok df' →
  ∀ s c, s ∉ subjects → ld_at df' c s = ld_at df c s.
Proof. apply loc_assign_rows. Qed.

Lemma loc_assign_array_rows df subjects col a df' :
  loc_assign_array df subjects col a = Ok df' →
  ∀ s c, s ∉ subjects → ld_at df' c s = ld_at df c s.
Proof. destruct a; simpl; [apply loc_assign_rows|done..]. Qed.

Lemma loc_assign_scalar_tag df subjects col value df' :
  loc_assign_scalar df subjects col value = Ok df' →
  ∀ s, s ∈ subjects → ld_at df' col s = Some value.
Proof.
  unfold loc_assign_scalar, loc_assign.
  repeat case_decide; intros [= <-]; try done.
  intros s Hs. unfold ld_at. simpl. rewrite lookup_insert_eq. simpl.
  apply set_cells_const.
  - apply Forall_forall. intros [s0 v0] Hin. simpl.
    apply elem_of_zip_r in Hin. simpl in Hin.
    by apply elem_of_replicate in Hin as [-> _].
  - rewrite fst_zip; [done|]. by rewrite length_replicate.
Qed.

#[local] Instance rows_kept_preorder subjects : PreOrder (rows_kept subjects).
Proof.
  split.
  - intros st df Hdf. eauto.
  - intros st1 st2 st3 H12 H23 df Hdf.
    destruct (H12 df Hdf) as (df2 & Hdf2 & E2).
    destruct (H23 df2 Hdf2) as (df3 & Hdf3 & E3).
    exists df3. split; [done|]. intros s c Hs.
    rewrite E3 by done. by apply E2.
Qed.

Lemma steps_assign_rows subjects (f : Ledger → result Ledger) :
  (∀ df df', f df = Ok df' →
             ∀ s c, s ∉ subjects → ld_at df' c s = ld_at df c s) →
  steps (rows_kept subjects) (assign f).
Proof.
  intros Hf st r st'. unfold assign, gets, lift, modify, mbind, M_bind.
  destruct (raw_preds_df st) as [df|] eqn:Hdf; simpl;
    [|intros [= _ <-] ? ?; simplify_eq].
  destruct (f df) as [df'|e] eqn:Hfdf; intros [= _ <-] df0 Hdf0.
  - simpl. exists df'. split; [done|]. simplify_eq. eauto.
  - eauto.
Qed.

Lemma steps_alloc_rows subjects o : steps (rows_kept subjects) (alloc o).
Proof. intros st r st' [= _ <-] df Hdf. simpl. eauto. Qed.

Lemma steps_write_arr_rows subjects X a :
  steps (rows_kept subjects) (write_arr X a).
Proof. intros st r st' [= _ <-] df Hdf. simpl. eauto. Qed.

Ltac solve_rel :=
  hnf; simpl; first [ done | by intros | by (intros; split) | by eauto ].

Ltac steps_step :=
  lazymatch goal with
  | |- PreOrder _ => apply _
  | |- ∀ _, _ => intros ?
  | |- steps _ (mret _) => apply steps_ret
  | |- steps _ (lift _) => apply steps_lift
  | |- steps _ (raise _) => apply steps_raise
  | |- steps _ (gets _) => apply steps_gets
  | |- steps _ (read_df _) => apply steps_read_df
  | |- steps _ (read_arr _) => apply steps_read_arr
  | |- steps _ (modify _) => apply steps_modify; intros ?; solve_rel
  | |- steps _ (try_except_AttributeError _) => apply steps_try
  | |- steps _ (for_range _ _) => apply steps_for_range
  | |- steps _ (mapM _ _) => apply steps_mapM
  | |- steps (keeps_object _) (write_arr _ _) =>
      apply steps_write_arr_object; assumption
  | |- steps (rows_kept _) (assign _) =>
      apply steps_assign_rows;
      eauto using loc_assign_rows, loc_assign_scalar_rows,
                  loc_assign_array_rows
  | |- steps keeps_index (assign _) =>
      apply steps_assign_index;
      eauto using loc_assign_index, loc_assign_scalar_index,
                  loc_assign_array_index
  | |- steps _ (assign _) => unfold assign
  | |- steps _ get_classes => unfold get_classes
  | |- steps _ get_n_splits_ => unfold get_n_splits_
  | |- steps _ (call_on _ _) => unfold call_on
  | |- steps _ (call_on2 _ _ _) => unfold call_on2
  | |- steps _ (_ ≫= _) => apply steps_bind
  | |- steps _ (match ?x with _ => _ end) => destruct x
  | |- steps _ _ => solve [eauto with steps]
  end.
Ltac solve_steps := repeat steps_step.

Create HintDb steps.
Hint Resolve steps_alloc_index steps_alloc_classes steps_alloc_object
     steps_write_arr_index steps_write_arr_classes
     steps_alloc_rows steps_write_arr_rows : steps.

Lemma add_true_values_classes y_test subjects :
  steps keeps_classes (add_true_values self y_test subjects).
Proof. unfold add_true_values. solve_steps. Qed.

Lemma add_point_preds_classes X_test subjects eval_type repeat fold :
  steps keeps_classes
        (add_point_preds X_test subjects eval_type repeat fold).
Proof. unfold add_point_preds. solve_steps. Qed.

Lemma add_prob_preds_classes X_test subjects eval_type repeat :
  steps keeps_classes (add_prob_preds X_test subjects eval_type repeat).
Proof. unfold add_prob_preds. solve_steps. Qed.

Lemma add_true_values_index y_test subjects :
  steps keeps_index (add_true_values self y_test subjects).
Proof. unfold add_true_values. solve_steps. Qed.

Lemma add_point_preds_index X_test subjects eval_type repeat fold :
  steps keeps_index
        (add_point_preds X_test subjects eval_type repeat fold).
Proof. unfold add_point_preds. solve_steps. Qed.

Lemma add_prob_preds_index X_test subjects eval_type repeat :
  steps keeps_index (add_prob_preds X_test subjects eval_type repeat).
Proof. unfold add_prob_preds. solve_steps. Qed.


(** *** Frames of the methods *)

Lemma proc_feat_importance_skip train_data test_data fold_ind st :
  no_importances st →
  _proc_feat_importance train_data test_data fold_ind st = (Ok tt, st).
Proof.
  intros Hn. unfold _proc_feat_importance, gets, mbind, M_bind.
  rewrite Hn. reflexivity.
Qed.

Lemma proc_feat_importance_index train_data test_data fold_ind :
  steps keeps_index (_proc_feat_importance train_data test_data fold_ind).
Proof.
  intros st r st' H Hn. rewrite proc_feat_importance_skip in H by done.
  by simplify_eq.
Qed.

Lemma proc_feat_importance_object l0 train_data test_data fold_ind :
  steps (keeps_object l0)
        (_proc_feat_importance train_data test_data fold_ind).
Proof.
  intros st r st' H Hn Hs. rewrite proc_feat_importance_skip in H by done.
  by simplify_eq.
Qed.

Lemma get_X_y_index data X_as_df copy :
  steps keeps_index (_get_X_y self data X_as_df copy).
Proof. unfold _get_X_y. solve_steps. Qed.

Lemma get_X_y_object l0 data X_as_df copy :
  steps (keeps_object l0) (_get_X_y self data X_as_df copy).
Proof. unfold _get_X_y. solve_steps. Qed.

Lemma get_X_y_classes data X_as_df copy :
  steps keeps_classes (_get_X_y self data X_as_df copy).
Proof. unfold _get_X_y. solve_steps. Qed.

(** What [_get_X_y] returns: two new objects, holding the features
    without the target and the target. *)
Lemma get_X_y_Ok data X_as_df copy (st : State) X y (st1 : State) :
  _get_X_y self data X_as_df copy st = (Ok (X, y), st1) →
  ∃ df Xdf ya,
    store st !! data = Some (ODataFrame df) ∧
    df_drop df (labels_of (target (ps self))) = Ok Xdf ∧
    df_target_array df (target (ps self)) = Ok ya ∧
    (X ∉ dom (store st)) ∧ (y ∉ dom (store st)) ∧ X ≠ y ∧
    (∃ Xo, (if X_as_df then Ok (ODataFrame Xdf)
            else Xa ← df_to_array Xdf; Ok (ONdarray Xa)) = Ok Xo ∧
           store st1 !! X = Some Xo) ∧
    store st1 !! y = Some (ONdarray ya).
Proof.
  unfold _get_X_y. intros H.
  apply bind_Ok_inv in H as (df & st2 & Hdf & H).
  apply bind_Ok_inv in H as (Xdf & st3 & HX & H).
  apply bind_Ok_inv in H as (ya & st4 & Hy & H).
  apply bind_Ok_inv in H as (oX & st4' & HXo & H).
  apply bind_Ok_inv in H as (X' & st5 & HaX & H).
  apply bind_Ok_inv in H as (y' & st6 & Hay & H).
  unfold read_df in Hdf.
  destruct (store st !! data) as [[df'|]|] eqn:Hdata; simplify_eq.
  unfold lift in HX, Hy, HXo.
  injection HX as HX <-. injection Hy as Hy <-. injection HXo as HXo <-.
  unfold alloc in HaX, Hay. simplify_eq.
  unfold mret, M_ret in H. simplify_eq. simpl.
  match goal with
  | |- context [fresh (dom (store ?s))] => rename s into st4
  end.
  set (X := fresh (dom (store st4))).
  pose proof (is_fresh (dom (store st4))) as Hf1. fold X in Hf1.
  pose proof (is_fresh (dom (<[X := oX]> (store st4)))) as Hf2.
  set (y := fresh (dom (<[X := oX]> (store st4)))) in *.
  rewrite dom_insert_L in Hf2.
  exists df, Xdf, ya. split; [done|]. split; [done|]. split; [done|].
  split; [done|]. split; [set_solver|].
  assert (X ≠ y) by set_solver. split; [done|].
  split; [|by rewrite lookup_insert_eq].
  exists oX. split; [done|].
  rewrite lookup_insert_ne by done. by rewrite lookup_insert_eq.
Qed.

Lemma steps_get_X_y_then_object {B : Type} l0 data X_as_df copy
      (k : loc * loc → M B) :
  (∀ X y, X ≠ l0 → y ≠ l0 → steps (keeps_object l0) (k (X, y))) →
  steps (keeps_object l0) (_get_X_y self data X_as_df copy ≫= k).
Proof.
  intros Hk st r st' H Hn Hs.
  apply bind_inv in H as [([X y] & st1 & H1 & H2)|(e & H1 & _)].
  - destruct (get_X_y_object l0 _ _ _ _ _ _ H1 Hn Hs) as [Hn1 E1].
    apply get_X_y_Ok in H1 as (_ & _ & _ & _ & _ & _ & HX & Hy & _).
    assert (X ≠ l0) by (intros ->; apply HX; by apply elem_of_dom).
    assert (y ≠ l0) by (intros ->; apply Hy; by apply elem_of_dom).
    destruct (Hk X y ltac:(done) ltac:(done) _ _ _ H2 Hn1) as [Hn2 E2];
      [by rewrite E1|].
    split; [done|]. by rewrite E2.
  - eapply get_X_y_object; eauto.
Qed.

Lemma train_model_index train_data :
  steps keeps_index (_train_model self train_data).
Proof.
  unfold _train_model. pose proof get_X_y_index. solve_steps.
Qed.

Lemma train_model_object l0 train_data :
  steps (keeps_object l0) (_train_model self train_data).
Proof.
  unfold _train_model. apply steps_get_X_y_then_object.
  intros X y HX Hy. solve_steps.
Qed.


Lemma get_final_model_index train_data :
  steps keeps_index (_get_final_model self train_data).
Proof.
  unfold _get_final_model, _get_search_cv, _get_score_metric. solve_steps.
Qed.

Lemma get_final_model_object l0 train_data :
  steps (keeps_object l0) (_get_final_model self train_data).
Proof.
  unfold _get_final_model, _get_search_cv, _get_score_metric. solve_steps.
Qed.

(** Without a hyper-parameter search no model is built: the last statement
    of [_get_final_model] reads [weight_search_metric], assigned in the
    other branch only. *)
Lemma get_final_model_without_search train_data (st : State) :
  is_search (base_model_pipeline self) = false →
  _get_final_model self train_data st = (Raise UnboundLocalError, st).
Proof. unfold _get_final_model. by intros ->. Qed.

Lemma fold_and_repeat_any (R : relation State) `{!PreOrder R} fold_ind :
  steps R (fold_and_repeat fold_ind).
Proof. unfold fold_and_repeat. solve_steps. Qed.

Lemma add_raw_preds_index X_test y_test subjects eval_type fold_ind :
  steps keeps_index
        (_add_raw_preds self X_test y_test subjects eval_type fold_ind).
Proof.
  unfold _add_raw_preds, set_fold_classes.
  pose proof add_prob_preds_index. pose proof add_point_preds_index.
  pose proof add_true_values_index.
  pose proof (fold_and_repeat_any keeps_index). solve_steps.
Qed.

Lemma add_raw_preds_object l0 X_test y_test subjects eval_type fold_ind :
  X_test ≠ l0 →
  steps (keeps_object l0)
        (_add_raw_preds self X_test y_test subjects eval_type fold_ind).
Proof.
  intros HX.
  unfold _add_raw_preds, set_fold_classes, add_prob_preds, add_point_preds,
    add_true_values.
  pose proof (fold_and_repeat_any (keeps_object l0)). solve_steps.
Qed.

Lemma get_scores_index test_data eval_type fold_ind :
  steps keeps_index (_get_scores self test_data eval_type fold_ind).
Proof.
  unfold _get_scores.
  pose proof get_X_y_index. pose proof add_raw_preds_index. solve_steps.
Qed.

Lemma get_scores_object l0 test_data eval_type fold_ind :
  steps (keeps_object l0) (_get_scores self test_data eval_type fold_ind).
Proof.
  unfold _get_scores. apply steps_get_X_y_then_object. intros X y HX Hy.
  pose proof (add_raw_preds_object l0 X y). solve_steps.
Qed.

Lemma init_raw_preds_df_object l0 subjects :
  steps (keeps_object l0) (_init_raw_preds_df subjects).
Proof. unfold _init_raw_preds_df. solve_steps. Qed.

Lemma Test_object l0 data train_subjects test_subjects fold_ind :
  steps (keeps_object l0)
        (Test self data train_subjects test_subjects fold_ind).
Proof.
  unfold Test, Test_slices.
  pose proof (get_final_model_object l0). pose proof (train_model_object l0).
  pose proof (proc_feat_importance_object l0).
  pose proof (get_scores_object l0). pose proof (init_raw_preds_df_object l0).
  solve_steps.
Qed.

Lemma Test_fold_index data train_subjects test_subjects i :
  steps keeps_index
        (Test self data train_subjects test_subjects (FoldNum i)).
Proof.
  unfold Test, Test_slices.
  pose proof get_final_model_index. pose proof train_model_index.
  pose proof proc_feat_importance_index. pose proof get_scores_index.
  solve_steps.
Qed.

Lemma eval_loop_object l0 data splits : ∀ fold_ind all_train all_scores,
  steps (keeps_object l0)
        (eval_loop self data splits fold_ind all_train all_scores).
Proof.
  induction splits as [|[tr te] rest IH]; intros; simpl.
  - solve_steps.
  - pose proof (Test_object l0). solve_steps.
Qed.

Lemma eval_loop_index data splits : ∀ fold_ind all_train all_scores,
  steps keeps_index
        (eval_loop self data splits fold_ind all_train all_scores).
Proof.
  induction splits as [|[tr te] rest IH]; intros; simpl.
  - solve_steps.
  - pose proof Test_fold_index. solve_steps.
Qed.


(** *** Inversion of runs *)

Tactic Notation "binv" hyp(H) "as" simple_intropattern(a) ident(st)
       ident(Hs) :=
  apply bind_Ok_inv in H as (a & st & Hs & H); cbv beta in H.

Lemma ret_inv {A : Type} (a : A) st r st' :
  (mret a : M A) st = (r, st') → r = Ok a ∧ st' = st.
Proof. by intros [= <- <-]. Qed.

Lemma gets_inv {A : Type} (f : State → A) st r st' :
  gets f st = (r, st') → r = Ok (f st) ∧ st' = st.
Proof. by intros [= <- <-]. Qed.

Lemma lift_inv {A : Type} (x : result A) (st : State) r st' :
  lift x st = (r, st') → r = x ∧ st' = st.
Proof. by intros [= <- <-]. Qed.

Lemma modify_inv (f : State → State) st r st' :
  modify f st = (r, st') → r = Ok tt ∧ st' = f st.
Proof. by intros [= <- <-]. Qed.

Lemma alloc_inv o (st : State) r st' :
  alloc o st = (r, st') →
  let l := fresh (dom (store st)) in
  r = Ok l ∧ st' = set_store (<[l := o]> (store st)) st ∧
  l ∉ dom (store st).
Proof. intros [= <- <-]. repeat split. apply is_fresh. Qed.

Lemma read_df_inv l (st : State) df st' :
  read_df l st = (Ok df, st') →
  store st !! l = Some (ODataFrame df) ∧ st' = st.
Proof.
  unfold read_df. destruct (store st !! l) as [[]|]; by intros [= <- <-].
Qed.

Lemma getattr_inv {A : Type} (f : State → option A) st a st' :
  (gets f ≫= fun o => lift (getattr o)) st = (Ok a, st') →
  f st = Some a ∧ st' = st.
Proof.
  unfold gets, lift, mbind, M_bind. destruct (f st); by intros [= <- <-].
Qed.

(** *** The restriction of the subjects *)



Lemma Test_slices_Ok data train_subjects test_subjects fold_ind
      (st : State) train_data test_data (st1 : State) :
  Test_slices self data train_subjects test_subjects fold_ind st
  = (Ok (train_data, test_data), st1) →
  ∃ df,
    store st !! data = Some (ODataFrame df) ∧
    Forall (fun k => k ∈ df_columns df) (all_keys self) ∧
    store st1 !! train_data
    = Some (ODataFrame (mkDataFrame
              (_get_subjects_overlap self train_subjects)
              (all_keys self) (df_at df))) ∧
    store st1 !! test_data
    = Some (ODataFrame (mkDataFrame
              (_get_subjects_overlap self test_subjects)
              (all_keys self) (df_at df))) ∧
    Model st1 = Model st ∧ n_splits_ st1 = n_splits_ st ∧
    feat_importances st1 = feat_importances st ∧
    raw_preds_df st1 =
      match fold_ind with
      | FoldTest =>
          Some (Ledger_new
                  (if compute_train_score self
                   then _get_subjects_overlap self train_subjects
                        ++ _get_subjects_overlap self test_subjects
                   else _get_subjects_overlap self test_subjects))
      | FoldNum _ => raw_preds_df st
      end.
Proof.
  unfold Test_slices. intros H.
  binv H as df s1 H1. apply read_df_inv in H1 as [Hdata ->].
  binv H as sliced s2 H2. apply lift_inv in H2 as [Hsl ->].
  binv H as data' s3 H3. apply alloc_inv in H3 as (? & -> & Hf1).
  simplify_eq.
  binv H as [] s4 H4.
  binv H as df' s5 H5. apply read_df_inv in H5 as [Hd2 ->].
  binv H as train_df s6 H6. apply lift_inv in H6 as [Htr ->].
  binv H as td s7 H7. apply alloc_inv in H7 as (? & -> & Hf2). simplify_eq.
  binv H as test_df s8 H8. apply lift_inv in H8 as [Hte ->].
  binv H as ted s9 H9. apply alloc_inv in H9 as (? & -> & Hf3). simplify_eq.
  apply ret_inv in H as [? ->]. simplify_eq.
  unfold df_getitem_list in Hsl. case_decide as Hcols; [|done].
  simplify_eq.
  assert (Hst : store s4 = <[fresh (dom (store st)) :=
            ODataFrame (mkDataFrame (df_index df) (all_keys self)
                                    (df_at df))]>
            (store st) ∧ Model s4 = Model st ∧ n_splits_ s4 = n_splits_ st
            ∧ feat_importances s4 = feat_importances st
            ∧ raw_preds_df s4 =
                match fold_ind with
                | FoldTest =>
                    Some (Ledger_new
                      (if compute_train_score self
                       then _get_subjects_overlap self train_subjects
                            ++ _get_subjects_overlap self test_subjects
                       else _get_subjects_overlap self test_subjects))
                | FoldNum _ => raw_preds_df st
                end).
  { destruct fold_ind; [by apply ret_inv in H4 as [_ ->]|].
    destruct (compute_train_score self);
      by apply modify_inv in H4 as [_ ->]. }
  destruct Hst as (Hst & HM & Hn & Hfi & Hld).
  rewrite Hst, lookup_insert_eq in Hd2. simplify_eq.
  unfold df_loc in Htr, Hte. simpl in *. repeat case_decide; simplify_eq.
  exists df. simpl. split; [done|]. split; [done|].
  split; [|split; [by rewrite lookup_insert_eq|done]].
  rewrite lookup_insert_ne; [by rewrite lookup_insert_eq|].
  intros Heq. apply Hf3. rewrite <- Heq. simpl.
  rewrite dom_insert_L. set_solver.
Qed.


(** What a returning [Test] went through. *)
Lemma Test_Ok data train_subjects test_subjects fold_ind (st : State) r st' :
  Test self data train_subjects test_subjects fold_ind st = (Ok r, st') →
  ∃ train_data test_data st1 m st2 st3 st4 st5 train_scores scores,
    Test_slices self data train_subjects test_subjects fold_ind st
    = (Ok (train_data, test_data), st1) ∧
    _get_final_model self train_data st1 = (Ok m, st2) ∧
    _train_model self train_data (set_Model m st2) = (Ok tt, st3) ∧
    _proc_feat_importance train_data test_data fold_ind st3
    = (Ok tt, st4) ∧
    (if compute_train_score self
     then ∃ v, _get_scores self train_data "train_" fold_ind st4
               = (Ok v, st5) ∧ train_scores = ScoreArray v
     else st5 = st4 ∧ train_scores = ScoreInt 0) ∧
    _get_scores self test_data "" fold_ind st5 = (Ok scores, st') ∧
    match fold_ind with
    | FoldTest =>
        ∃ df, raw_preds_df st' = Some df ∧
              r = TestFinal train_scores scores df (feat_importances st')
    | FoldNum _ => r = TestFold train_scores scores
    end.
Proof.
  unfold Test. intros H.
  binv H as [td ted] s1 H1. binv H as m s2 H2.
  binv H as [] s3 H3. apply modify_inv in H3 as [_ ->].
  binv H as [] s4 H4. binv H as [] s5 H5.
  binv H as train_scores s6 H6. binv H as scores s7 H7.
  exists td, ted, s1, m, s2, s4, s5, s6, train_scores, scores.
  do 4 (split; [done|]). split.
  { destruct (compute_train_score self).
    - binv H6 as v s8 H8. apply ret_inv in H6 as [? ->]. simplify_eq.
      eauto.
    - apply ret_inv in H6 as [? ->]. by simplify_eq. }
  destruct fold_ind.
  - apply ret_inv in H as [? ->]. by simplify_eq.
  - binv H as df s8 H8. apply getattr_inv in H8 as [Hdf ->].
    binv H as fis s9 H9. apply gets_inv in H9 as [? ->].
    apply ret_inv in H as [? ->]. simplify_eq. eauto.
Qed.

Lemma set_final_locals_skip (st : State) :
  no_importances st → set_final_locals st = (Ok tt, st).
Proof.
  unfold no_importances. intros Hn.
  unfold set_final_locals, gets, lift, modify, mbind, M_bind.
  rewrite Hn. simpl. unfold set_feat_importances.
  destruct st. simpl in *. by subst.
Qed.

(** What a returning [Evaluate] went through. *)
Lemma Evaluate_Ok data train_subjects splits n_repeats splits_vals
      (st : State) all_train_scores all_scores df fis st' :
  Evaluate self data train_subjects splits n_repeats splits_vals st
  = (Ok (all_train_scores, all_scores, df, fis), st') →
  ∃ subject_splits st1 st2,
    _get_eval_splits self (_get_subjects_overlap self train_subjects)
      splits n_repeats splits_vals
      (set_raw_preds_df
         (Ledger_new (_get_subjects_overlap self train_subjects)) st)
    = (Ok subject_splits, st1) ∧
    eval_loop self data subject_splits 0 [] [] (set_n_test_per_fold [] st1)
    = (Ok (all_train_scores, all_scores), st2) ∧
    set_final_locals st2 = (Ok tt, st') ∧
    raw_preds_df st' = Some df ∧ fis = feat_importances st'.
Proof.
  unfold Evaluate. intros H.
  binv H as [] s1 H1. apply modify_inv in H1 as [_ ->].
  binv H as L s2 H2. binv H as [] s3 H3. apply modify_inv in H3 as [_ ->].
  binv H as [a b] s4 H4. binv H as [] s5 H5.
  binv H as df' s6 H6. apply getattr_inv in H6 as [Hdf ->].
  binv H as fis' s7 H7. apply gets_inv in H7 as [? ->].
  apply ret_inv in H as [? ->]. simplify_eq.
  exists L, s2, s4. done.
Qed.

Lemma get_eval_splits_index train_subjects splits n_repeats splits_vals :
  steps keeps_index
        (_get_eval_splits self train_subjects splits n_repeats splits_vals).
Proof. unfold _get_eval_splits. solve_steps. Qed.

Lemma get_eval_splits_object l0 train_subjects splits n_repeats splits_vals :
  steps (keeps_object l0)
        (_get_eval_splits self train_subjects splits n_repeats splits_vals).
Proof. unfold _get_eval_splits. solve_steps. Qed.

Lemma set_final_locals_index : steps keeps_index set_final_locals.
Proof.
  intros st r st' H Hn. rewrite set_final_locals_skip in H by done.
  by simplify_eq.
Qed.

Lemma set_final_locals_object l0 : steps (keeps_object l0) set_final_locals.
Proof.
  intros st r st' H Hn Hs. rewrite set_final_locals_skip in H by done.
  by simplify_eq.
Qed.

Lemma Evaluate_object l0 data train_subjects splits n_repeats splits_vals :
  steps (keeps_object l0)
        (Evaluate self data train_subjects splits n_repeats splits_vals).
Proof.
  unfold Evaluate.
  pose proof (init_raw_preds_df_object l0).
  pose proof (get_eval_splits_object l0).
  pose proof (eval_loop_object l0). pose proof (set_final_locals_object l0).
  solve_steps.
Qed.


(** *** The claims on [Test] and [Evaluate] as wholes *)

(** C9.  A call of [Test] or of [Evaluate] leaves every object that was in
    the store when it was made as it was, whether the call returns or
    raises; the data table passed is one of them.  The estimator and the
    metrics may change the arrays they are handed: these are copies. *)
Theorem data_table_read_only data (st : State) :
  no_importances st →
  (∀ train_subjects test_subjects fold_ind r st' l,
     Test self data train_subjects test_subjects fold_ind st = (r, st') →
     is_Some (store st !! l) → store st' !! l = store st !! l) ∧
  (∀ train_subjects splits n_repeats splits_vals r st' l,
     Evaluate self data train_subjects splits n_repeats splits_vals st
     = (r, st') →
     is_Some (store st !! l) → store st' !! l = store st !! l).
Proof.
  intros Hn. split.
  - intros tr te fi r st' l H Hs.
    by destruct (Test_object l _ _ _ _ _ _ _ H Hn Hs).
  - intros tr sp nr sv r st' l H Hs.
    by destruct (Evaluate_object l _ _ _ _ _ _ _ _ H Hn Hs).
Qed.

Lemma Test_no_importances data train_subjects test_subjects fold_ind
      (st : State) r st' :
  no_importances st →
  Test self data train_subjects test_subjects fold_ind st = (Ok r, st') →
  no_importances st'.
Proof.
  intros Hn H. pose proof H as H'.
  apply Test_Ok in H' as (td & ted & s1 & _ & _ & _ & _ & _ & _ & _ & Hsl & _).
  apply Test_slices_Ok in Hsl as (df & Hdata & _).
  by destruct (Test_object data _ _ _ _ _ _ _ H Hn (mk_is_Some _ _ Hdata)).
Qed.

Lemma Test_tail_index train_data test_data fold_ind m
      (s1 s2 s3 s4 s5 st' : State) train_scores scores :
  no_importances s1 →
  _get_final_model self train_data s1 = (Ok m, s2) →
  _train_model self train_data (set_Model m s2) = (Ok tt, s3) →
  _proc_feat_importance train_data test_data fold_ind s3 = (Ok tt, s4) →
  (if compute_train_score self
   then ∃ v, _get_scores self train_data "train_" fold_ind s4
             = (Ok v, s5) ∧ train_scores = ScoreArray v
   else s5 = s4 ∧ train_scores = ScoreInt 0) →
  _get_scores self test_data "" fold_ind s5 = (Ok scores, st') →
  no_importances st' ∧
  ld_index <$> raw_preds_df st' = ld_index <$> raw_preds_df s1.
Proof.
  intros Hn H2 H3 H4 H5 H6.
  destruct (get_final_model_index _ _ _ _ H2 Hn) as [Hn2 E2].
  destruct (train_model_index _ _ _ _ H3 Hn2) as [Hn3 E3]. simpl in E3.
  destruct (proc_feat_importance_index _ _ _ _ _ _ H4 Hn3) as [Hn4 E4].
  assert (no_importances s5 ∧
          ld_index <$> raw_preds_df s5 = ld_index <$> raw_preds_df s4)
    as [Hn5 E5].
  { destruct (compute_train_score self).
    - destruct H5 as (v & H5 & _).
      by destruct (get_scores_index _ _ _ _ _ _ H5 Hn4).
    - by destruct H5 as [-> _]. }
  destruct (get_scores_index _ _ _ _ _ _ H6 Hn5) as [Hn6 E6].
  split; [done|]. congruence.
Qed.

(** C4.  The [raw_preds_df] that [Test] returns for ['test'] is indexed by
    the restricted train subjects followed by the restricted test
    subjects, hence by their union, when the train side is scored, and by
    the restricted test subjects otherwise; the one [Evaluate] returns is
    indexed by the restricted train subjects. *)
Theorem ledger_index data train_subjects (st : State) :
  no_importances st →
  (∀ test_subjects train_scores scores df fis st',
     Test self data train_subjects test_subjects FoldTest st
     = (Ok (TestFinal train_scores scores df fis), st') →
     ld_index df
     = (if compute_train_score self
        then _get_subjects_overlap self train_subjects
             ++ _get_subjects_overlap self test_subjects
        else _get_subjects_overlap self test_subjects) ∧
     (∀ s, s ∈ ld_index df ↔
           (compute_train_score self = true ∧
            s ∈ _get_subjects_overlap self train_subjects) ∨
           s ∈ _get_subjects_overlap self test_subjects)) ∧
  (∀ splits n_repeats splits_vals all_train_scores all_scores df fis st',
     Evaluate self data train_subjects splits n_repeats splits_vals st
     = (Ok (all_train_scores, all_scores, df, fis), st') →
     ld_index df = _get_subjects_overlap self train_subjects).
Proof.
  intros Hn. split.
  - intros te ts sc df fis st' H.
    apply Test_Ok in H
      as (td & ted & s1 & m & s2 & s3 & s4 & s5 & ts' & sc' & Hsl & H2 & H3
          & H4 & H5 & H6 & df' & Hdf & Hr).
    apply Test_slices_Ok in Hsl
      as (d & _ & _ & _ & _ & _ & _ & Hfi & Hld).
    destruct (Test_tail_index td ted FoldTest m s1 s2 s3 s4 s5 st' ts' sc')
      as [_ E]; try done.
    { unfold no_importances. by rewrite Hfi. }
    rewrite Hdf, Hld in E. simpl in E. injection E as E.
    injection Hr as -> -> -> ->.
    split; [done|]. intros s. rewrite E.
    destruct (compute_train_score self); [rewrite elem_of_app|];
      intuition congruence.
  - intros sp nr sv a b df fis st' H.
    apply Evaluate_Ok in H as (L & s1 & s2 & H1 & H2 & H3 & Hdf & _).
    assert (Hn0 : no_importances
              (set_raw_preds_df
                 (Ledger_new (_get_subjects_overlap self train_subjects))
                 st)) by done.
    destruct (get_eval_splits_index _ _ _ _ _ _ _ H1 Hn0) as [Hn1 E1].
    assert (Hn1' : no_importances (set_n_test_per_fold [] s1)) by done.
    destruct (eval_loop_index _ _ _ _ _ _ _ _ H2 Hn1') as [Hn2 E2].
    destruct (set_final_locals_index _ _ _ H3 Hn2) as [Hn3 E3].
    rewrite Hdf, E2 in E3. simpl in E3. rewrite E1 in E3. simpl in E3.
    by simplify_eq.
Qed.

Lemma init_no_importances fobj spec cv ds cts base h (st0 : State) :
  init fobj spec cv ds cts base h = Ok (self, st0) → no_importances st0.
Proof.
  unfold init. destruct (Data_Scopes_set_all_keys ds spec); simpl; [|done].
  destruct (_process_metrics spec (metric spec))
    as [[[? ?] ?]|]; simpl; [|done].
  destruct base; simpl; [|done].
  intros [= _ <-]. unfold no_importances. simpl.
  unfold _process_feat_importances. by destruct (conv_to_list <$> fobj).
Qed.

(** C10.  Whatever is passed for the feature importances, [__init__]
    leaves [self.feat_importances] empty, it stays empty, and the list of
    importance records returned by [Test] and by [Evaluate] is empty. *)
Theorem importance_records_empty fobj spec cv ds cts base h
        (st0 : State) :
  init fobj spec cv ds cts base h = Ok (self, st0) →
  no_importances st0 ∧
  (∀ st data train_subjects test_subjects train_scores scores df fis st',
     no_importances st →
     Test self data train_subjects test_subjects FoldTest st
     = (Ok (TestFinal train_scores scores df fis), st') →
     fis = [] ∧ no_importances st') ∧
  (∀ st data train_subjects splits n_repeats splits_vals
     all_train_scores all_scores df fis st',
     no_importances st →
     Evaluate self data train_subjects splits n_repeats splits_vals st
     = (Ok (all_train_scores, all_scores, df, fis), st') →
     fis = [] ∧ no_importances st').
Proof.
  intros Hinit. split; [by eapply init_no_importances|]. split.
  - intros st data tr te ts sc df fis st' Hn H.
    pose proof (Test_no_importances _ _ _ _ _ _ _ Hn H) as Hn'.
    apply Test_Ok in H as (? & ? & ? & ? & ? & ? & ? & ? & ? & ? & _ & _ & _
                           & _ & _ & _ & df' & _ & Hr).
    by simplify_eq.
  - intros st data tr sp nr sv a b df fis st' Hn H.
    apply Evaluate_Ok in H as (L & s1 & s2 & H1 & H2 & H3 & Hdf & ->).
    assert (Hn0 : no_importances
              (set_raw_preds_df
                 (Ledger_new (_get_subjects_overlap self tr)) st)) by done.
    destruct (get_eval_splits_index _ _ _ _ _ _ _ H1 Hn0) as [Hn1 E1].
    assert (Hn1' : no_importances (set_n_test_per_fold [] s1)) by done.
    destruct (eval_loop_index _ _ _ _ _ _ _ _ H2 Hn1') as [Hn2 E2].
    by destruct (set_final_locals_index _ _ _ H3 Hn2) as [Hn3 E3].
Qed.


(** *** Score vectors *)

Lemma read_arr_inv l (st : State) a st' :
  read_arr l st = (Ok a, st') →
  store st !! l = Some (ONdarray a) ∧ st' = st.
Proof.
  unfold read_arr. destruct (store st !! l) as [[]|]; by intros [= <- <-].
Qed.

Lemma call_on2_Ok {R : Type} X y
      (f : ndarray → ndarray → result (R * ndarray * ndarray))
      (st : State) r st' :
  call_on2 X y f st = (Ok r, st') →
  ∃ Xa ya Xa' ya',
    store st !! X = Some (ONdarray Xa) ∧
    store st !! y = Some (ONdarray ya) ∧
    f Xa ya = Ok (r, Xa', ya').
Proof.
  unfold call_on2. intros H.
  binv H as Xa s1 H1. apply read_arr_inv in H1 as [HX ->].
  binv H as ya s2 H2. apply read_arr_inv in H2 as [Hy ->].
  binv H as [[r' Xa'] ya'] s3 H3. apply lift_inv in H3 as [Hf ->].
  binv H as [] s4 H4. binv H as [] s5 H5.
  apply ret_inv in H as [? _]. simplify_eq. eauto 10.
Qed.

Lemma mapM_Ok {A B : Type} (f : A → M B) l : ∀ (st : State) v st',
  mapM f l st = (Ok v, st') →
  Forall2 (fun a b => ∃ s s', f a s = (Ok b, s')) l v.
Proof.
  induction l as [|a l IH]; simpl; intros st v st' H.
  - apply ret_inv in H as [? _]. simplify_eq. constructor.
  - binv H as b s1 H1. binv H as bs s2 H2.
    apply ret_inv in H as [? _]. simplify_eq.
    constructor; eauto.
Qed.

Lemma get_scores_Ok test_data eval_type fold_ind (st : State) v st' :
  _get_scores self test_data eval_type fold_ind st = (Ok v, st') →
  ∃ X_test y_test s1 df s2 m,
    _get_X_y self test_data false false st = (Ok (X_test, y_test), s1) ∧
    store s1 !! test_data = Some (ODataFrame df) ∧
    _add_raw_preds self X_test y_test (df_index df) eval_type fold_ind s1
    = (Ok tt, s2) ∧
    Model s2 = Some m ∧
    mapM (fun metric : scorer => call_on2 X_test y_test (metric m))
         (metrics self) s2 = (Ok v, st').
Proof.
  unfold _get_scores. intros H.
  binv H as [X y] s1 H1. binv H as df s2 H2.
  apply read_df_inv in H2 as [Hdf ->].
  binv H as [] s3 H3. binv H as m s4 H4.
  apply getattr_inv in H4 as [Hm ->].
  exists X, y, s1, df, s3, m. done.
Qed.

Lemma get_scores_length test_data eval_type fold_ind (st : State) v st' :
  _get_scores self test_data eval_type fold_ind st = (Ok v, st') →
  length v = length (metrics self).
Proof.
  intros H. apply get_scores_Ok in H as (? & ? & ? & ? & ? & ? & _ & _ & _
                                         & _ & H).
  apply mapM_Ok in H. symmetry. by eapply Forall2_length.
Qed.

Lemma Test_shape data train_subjects test_subjects fold_ind (st : State)
      r st' :
  Test self data train_subjects test_subjects fold_ind st = (Ok r, st') →
  ∃ train_scores scores,
    match fold_ind with
    | FoldTest => ∃ df, r = TestFinal train_scores scores df
                                      (feat_importances st')
    | FoldNum _ => r = TestFold train_scores scores
    end ∧
    length scores = length (metrics self) ∧
    train_scores_shape self train_scores.
Proof.
  intros H.
  apply Test_Ok in H
    as (td & ted & s1 & m & s2 & s3 & s4 & s5 & ts & sc & _ & _ & _ & _
        & H5 & H6 & Hr).
  exists ts, sc. split.
  { destruct fold_ind; [done|]. destruct Hr as (df & _ & ->). eauto. }
  split; [by eapply get_scores_length|].
  unfold train_scores_shape.
  destruct (compute_train_score self).
  - destruct H5 as (v & H5 & ->). split; [done|].
    by eapply get_scores_length.
  - by destruct H5 as [_ ->].
Qed.

Lemma eval_loop_shape data splits :
  ∀ fold_ind all_train all_scores (st : State) a b st',
    eval_loop self data splits fold_ind all_train all_scores st
    = (Ok (a, b), st') →
    ∃ new_train new_scores,
      a = all_train ++ new_train ∧ b = all_scores ++ new_scores ∧
      length new_train = length splits ∧
      length new_scores = length splits ∧
      Forall (train_scores_shape self) new_train ∧
      Forall (fun v => length v = length (metrics self)) new_scores.
Proof.
  induction splits as [|[tr te] rest IH]; simpl;
    intros fold_ind all_train all_scores st a b st' H.
  - apply ret_inv in H as [? _]. simplify_eq.
    exists [], []. by rewrite !app_nil_r.
  - binv H as l s1 H1. binv H as [] s2 H2. binv H as n s3 H3.
    binv H as q s4 H4. binv H as r s5 H5.
    apply Test_shape in H5 as (ts & sc & Hr & Hsc & Hts). subst r.
    apply IH in H as (nt & ns & -> & -> & Hlt & Hls & Ht & Hs).
    exists (ts :: nt), (sc :: ns).
    rewrite <- !app_assoc. simpl. repeat split; auto.
Qed.


(** *** The fold tag and the class labels *)

Lemma fold_and_repeat_Ok fold_ind (st : State) fold repeat st' :
  fold_and_repeat fold_ind st = (Ok (fold, repeat), st') →
  st' = st ∧
  match fold_ind with
  | FoldTest => fold = "test" ∧ repeat = ""
  | FoldNum i =>
      ∃ n, n_splits_ st = Some n ∧ n ≠ 0%Z ∧
           fold = pretty (i `mod` n + 1)%Z ∧
           repeat = pretty (i `div` n + 1)%Z
  end.
Proof.
  unfold fold_and_repeat. destruct fold_ind as [i|]; intros H.
  - binv H as n s1 H1. unfold get_n_splits_ in H1.
    binv H1 as o s0 H0. apply gets_inv in H0 as [? ->]. simplify_eq.
    destruct (n_splits_ st) as [n'|] eqn:Hn; [|by apply lift_inv in H1 as [? _]].
    apply ret_inv in H1 as [? ->]. simplify_eq.
    binv H as f s2 H2. apply lift_inv in H2 as [Hf ->].
    binv H as r s3 H3. apply lift_inv in H3 as [Hr ->].
    apply ret_inv in H as [? ->]. simplify_eq. split; [done|].
    unfold py_mod in Hf. unfold py_floordiv in Hr.
    repeat case_decide; simplify_eq. eauto.
  - apply ret_inv in H as [? ->]. by simplify_eq.
Qed.

Lemma set_fold_classes_rows subjects y_test :
  steps (rows_kept subjects) (set_fold_classes y_test).
Proof. unfold set_fold_classes. solve_steps. Qed.

Lemma add_prob_preds_rows subjects X_test eval_type repeat :
  steps (rows_kept subjects)
        (add_prob_preds X_test subjects eval_type repeat).
Proof. unfold add_prob_preds. solve_steps. Qed.

Lemma add_true_values_rows subjects y_test :
  steps (rows_kept subjects) (add_true_values self y_test subjects).
Proof. unfold add_true_values. solve_steps. Qed.

Lemma add_point_preds_Ok X_test subjects eval_type repeat fold
      (st : State) st' df :
  raw_preds_df st = Some df →
  add_point_preds X_test subjects eval_type repeat fold st = (Ok tt, st') →
  ∃ df', raw_preds_df st' = Some df' ∧
    (∀ s, s ∈ subjects →
          ld_at df' ((eval_type +:+ repeat) +:+ "_fold") s
          = Some (CStr fold)) ∧
    (∀ s c, s ∉ subjects → ld_at df' c s = ld_at df c s).
Proof.
  unfold add_point_preds. intros Hdf H.
  binv H as m s1 H1. apply getattr_inv in H1 as [_ ->].
  binv H as raw_preds s2 H2. binv H as [] s3 H3.
  assert (Hrows : rows_kept subjects st s3).
  { etrans.
    - assert (Hc : steps (rows_kept subjects)
                     (call_on X_test (predict m))).
      { unfold call_on. solve_steps. }
      eapply Hc; eauto.
    - match type of H3 with
      | ?body _ = _ =>
          assert (Hc : steps (rows_kept subjects) body) by solve_steps
      end.
      eapply Hc; eauto. }
  destruct (Hrows df Hdf) as (df3 & Hdf3 & E3).
  unfold assign in H. binv H as df3' s4 H4.
  apply getattr_inv in H4 as [Hdf3' ->]. simplify_eq.
  binv H as df' s5 H5. apply lift_inv in H5 as [Ha ->].
  apply modify_inv in H as [_ ->]. simpl.
  exists df'. split; [done|]. symmetry in Ha. split.
  - by apply (loc_assign_scalar_tag _ _ _ _ _ Ha).
  - intros s c Hs. rewrite (loc_assign_scalar_rows _ _ _ _ _ Ha) by done.
    by apply E3.
Qed.

(** C6.  In a returning [_add_raw_preds], once the point predictions are
    recorded, the column [<eval_type><repeat>_fold] of [raw_preds_df]
    holds, for each of the subjects of the call, the fold: ['test'] for
    the final test, [(fold_ind mod n_splits) + 1] otherwise, the repeat
    being [(fold_ind div n_splits) + 1]; no cell of any other subject is
    changed, neither then nor by the copy of the true values that
    follows. *)
Theorem fold_tag_recorded X_test y_test subjects eval_type fold_ind
        (st : State) st' df :
  raw_preds_df st = Some df →
  _add_raw_preds self X_test y_test subjects eval_type fold_ind st
  = (Ok tt, st') →
  ∃ fold repeat st_tag df_tag,
    match fold_ind with
    | FoldTest => fold = "test" ∧ repeat = ""
    | FoldNum i =>
        ∃ n, n_splits_ st = Some n ∧ n ≠ 0%Z ∧
             fold = pretty (i `mod` n + 1)%Z ∧
             repeat = pretty (i `div` n + 1)%Z
    end ∧
    add_true_values self y_test subjects st_tag = (Ok tt, st') ∧
    raw_preds_df st_tag = Some df_tag ∧
    (∀ s, s ∈ subjects →
          ld_at df_tag ((eval_type +:+ repeat) +:+ "_fold") s
          = Some (CStr fold)) ∧
    (∀ s c, s ∉ subjects → ld_at df_tag c s = ld_at df c s) ∧
    (∃ df', raw_preds_df st' = Some df' ∧
            ∀ s c, s ∉ subjects → ld_at df' c s = ld_at df c s).
Proof.
  unfold _add_raw_preds. intros Hdf H.
  binv H as [fold repeat] s1 H1.
  apply fold_and_repeat_Ok in H1 as [-> Hfr].
  binv H as [] s2 H2. binv H as [] s3 H3. binv H as [] s4 H4.
  destruct (set_fold_classes_rows subjects _ _ _ _ H2 df Hdf)
    as (df2 & Hdf2 & E2).
  destruct (add_prob_preds_rows subjects _ _ _ _ _ _ H3 df2 Hdf2)
    as (df3 & Hdf3 & E3).
  destruct (add_point_preds_Ok _ _ _ _ _ _ _ _ Hdf3 H4)
    as (df4 & Hdf4 & Htag & E4).
  destruct (add_true_values_rows subjects _ _ _ _ H df4 Hdf4)
    as (df5 & Hdf5 & E5).
  exists fold, repeat, s4, df4. split; [done|]. split; [done|].
  split; [done|]. split; [done|]. split.
  - intros s c Hs. rewrite E4, E3 by done. by apply E2.
  - exists df5. split; [done|]. intros s c Hs.
    rewrite E5, E4, E3 by done. by apply E2.
Qed.

Lemma set_fold_classes_Ok y_test (st : State) st' :
  set_fold_classes y_test st = (Ok tt, st') →
  ∃ ya, store st !! y_test = Some (ONdarray ya) ∧
        store st' = store st ∧ Model st' = Model st ∧
        classes st' = Some (if decide (length (np_unique ya) = 1)
                            then IntLabels [0%Z; 1%Z]
                            else FloatLabels (np_unique ya)).
Proof.
  unfold set_fold_classes. intros H.
  binv H as ya s1 H1. apply read_arr_inv in H1 as [Hy ->].
  binv H as [] s2 H2. apply modify_inv in H2 as [_ ->].
  binv H as cs s3 H3. unfold get_classes in H3.
  apply getattr_inv in H3 as [Hcs ->]. simpl in Hcs. simplify_eq.
  exists ya. split; [done|]. simpl in H.
  destruct (decide (length (np_unique ya) = 1)).
  - by apply modify_inv in H as [_ ->].
  - by apply ret_inv in H as [_ ->].
Qed.

Lemma add_raw_preds_classes X_test y_test subjects eval_type fold_ind
      (st : State) st' ya :
  store st !! y_test = Some (ONdarray ya) →
  _add_raw_preds self X_test y_test subjects eval_type fold_ind st
  = (Ok tt, st') →
  classes st' = Some (if decide (length (np_unique ya) = 1)
                      then IntLabels [0%Z; 1%Z]
                      else FloatLabels (np_unique ya)).
Proof.
  unfold _add_raw_preds. intros Hy H.
  binv H as [fold repeat] s1 H1.
  apply fold_and_repeat_Ok in H1 as [-> _].
  binv H as [] s2 H2. binv H as [] s3 H3. binv H as [] s4 H4.
  apply set_fold_classes_Ok in H2 as (ya' & Hy' & _ & _ & Hc).
  simplify_eq.
  rewrite (add_true_values_classes _ _ _ _ _ H).
  rewrite (add_point_preds_classes _ _ _ _ _ _ _ _ H4).
  by rewrite (add_prob_preds_classes _ _ _ _ _ _ _ H3).
Qed.

(** When the target of the rows scored holds one observed class,
    [_get_scores] leaves in [self.classes] the two labels 0 and 1 of
    [np.array([0, 1])], which name the class columns ["..._class_0"] and
    ["..._class_1"]. *)
Lemma single_class_labels test_data eval_type fold_ind (st : State)
        test_df ya scores st' :
  store st !! test_data = Some (ODataFrame test_df) →
  df_target_array test_df (target (ps self)) = Ok ya →
  length (np_unique ya) = 1 →
  _get_scores self test_data eval_type fold_ind st = (Ok scores, st') →
  classes st' = Some (IntLabels [0%Z; 1%Z]) ∧
  label_str (IntLabels [0%Z; 1%Z]) 0 = Ok "0" ∧
  label_str (IntLabels [0%Z; 1%Z]) 1 = Ok "1" ∧
  labels_len (IntLabels [0%Z; 1%Z]) = 2.
Proof.
  intros Hdata Hya Hone H.
  apply get_scores_Ok in H
    as (X & y & s1 & df & s2 & m & HXy & Hdf & Hadd & Hm & Hmap).
  apply get_X_y_Ok in HXy
    as (df0 & Xdf & ya0 & Hdata0 & _ & Hya0 & _ & _ & _ & _ & Hy).
  rewrite Hdata in Hdata0. injection Hdata0 as <-.
  rewrite Hya in Hya0. injection Hya0 as <-.
  apply (add_raw_preds_classes _ _ _ _ _ _ _ _ Hy) in Hadd.
  destruct (decide (length (np_unique ya) = 1)); [|done].
  assert (Hc : steps keeps_classes
                 (mapM (fun metric : scorer => call_on2 X y (metric m))
                       (metrics self))).
  { solve_steps. }
  rewrite (Hc _ _ _ Hmap). done.
Qed.


(** *** A failing fit *)

Lemma train_model_fit_raises train_data (st : State) m X y s1 Xa ya e :
  Model st = Some m →
  _get_X_y self train_data false false st = (Ok (X, y), s1) →
  store s1 !! X = Some (ONdarray Xa) →
  store s1 !! y = Some (ONdarray ya) →
  fit m Xa ya = Raise e →
  _train_model self train_data st = (Raise e, s1).
Proof.
  intros Hm HXy HX Hy Hfit. unfold _train_model.
  rewrite (bind_Ok _ _ _ _ _ HXy). cbv beta iota.
  assert (HM : Model s1 = Some m).
  { assert (Hc : steps (fun a b : State => Model b = Model a)
                       (_get_X_y self train_data false false)).
    { unfold _get_X_y.
      assert (PreOrder (fun a b : State => Model b = Model a)).
      { split; [done|]. intros ? ? ? ? ?. congruence. }
      assert (∀ o, steps (fun a b : State => Model b = Model a) (alloc o))
        by (by intros o ? ? ? [= _ <-]).
      solve_steps. }
    rewrite (Hc _ _ _ HXy). done. }
  unfold call_on2, gets, lift, read_arr, mbind, M_bind.
  rewrite HM. simpl. rewrite HX, Hy, Hfit. done.
Qed.

Lemma Test_fit_raises data train_subjects test_subjects fold_ind
      (st : State) e :
  fit_raises_in_Test self data train_subjects test_subjects fold_ind st e →
  ∃ st', Test self data train_subjects test_subjects fold_ind st
         = (Raise e, st').
Proof.
  intros (td & ted & s1 & m & s2 & X & y & s3 & Xa & ya & Hsl & Hfm & HXy
          & HX & Hy & Hfit).
  exists s3. unfold Test.
  rewrite (bind_Ok _ _ _ _ _ Hsl). cbv beta iota.
  rewrite (bind_Ok _ _ _ _ _ Hfm).
  rewrite (bind_Ok _ _ s2 tt (set_Model m s2)) by done.
  apply bind_Raise. by eapply train_model_fit_raises.
Qed.

Lemma eval_loop_app data L1 L2 : ∀ fold_ind all_train all_scores (st : State),
  eval_loop self data (L1 ++ L2) fold_ind all_train all_scores st
  = match eval_loop self data L1 fold_ind all_train all_scores st with
    | (Ok (a, b), s1) =>
        eval_loop self data L2 (fold_ind + Z.of_nat (length L1))%Z a b s1
    | (Raise e, s1) => (Raise e, s1)
    end.
Proof.
  induction L1 as [|[tr te] rest IH]; intros i a b st; simpl.
  - unfold mret, M_ret. by rewrite Z.add_0_r.
  - unfold mbind, M_bind.
    destruct (gets n_test_per_fold st) as [[l|e] s1]; [|done].
    destruct (modify _ s1) as [[[]|e] s2]; [|done].
    destruct (get_n_splits_ s2) as [[n|e] s3]; [|done].
    destruct (lift _ s3) as [[q|e] s4]; [|done].
    destruct (Test self data tr te (FoldNum i) s4) as [[r|e] s5]; [|done].
    destruct r; [done|]. rewrite IH.
    replace (i + 1 + Z.of_nat (length rest))%Z
      with (i + Z.of_nat (S (length rest)))%Z by lia.
    done.
Qed.

Lemma get_n_splits_Some (st : State) n :
  n_splits_ st = Some n → get_n_splits_ st = (Ok n, st).
Proof.
  intros Hn. unfold get_n_splits_, gets, mbind, M_bind. by rewrite Hn.
Qed.

Lemma eval_loop_cons_raises data tr te rest i a b (st : State) n e st' :
  n_splits_ st = Some n → n ≠ 0%Z →
  Test self data tr te (FoldNum i)
       (set_n_test_per_fold (n_test_per_fold st ++ [length te]) st)
  = (Raise e, st') →
  eval_loop self data ((tr, te) :: rest) i a b st = (Raise e, st').
Proof.
  intros Hn Hn0 HT. simpl.
  rewrite (bind_Ok _ _ st (n_test_per_fold st) st) by done.
  rewrite (bind_Ok _ _ st tt
             (set_n_test_per_fold (n_test_per_fold st ++ [length te]) st))
    by done.
  set (st1 := set_n_test_per_fold (n_test_per_fold st ++ [length te]) st)
    in *.
  rewrite (bind_Ok _ _ st1 n st1) by (by apply get_n_splits_Some).
  rewrite (bind_Ok _ _ st1 (i `div` n)%Z st1).
  - by apply bind_Raise.
  - unfold lift, py_floordiv. by rewrite decide_False.
Qed.

Lemma eval_loop_fit_raises data subject_splits k (st : State) e :
  fit_raises_in_fold self data subject_splits k st e →
  ∃ st', eval_loop self data subject_splits 0 [] [] st = (Raise e, st').
Proof.
  intros (tr & te & [a b] & s1 & n & Hk & Hloop & Hn & Hn0 & Hfit).
  apply Test_fit_raises in Hfit as [st' Hfit]. exists st'.
  rewrite <- (take_drop_middle _ _ _ Hk), eval_loop_app.
  rewrite Hloop. rewrite length_take_le
    by (apply lookup_lt_Some in Hk; lia).
  rewrite Z.add_0_l. by eapply eval_loop_cons_raises.
Qed.

(** C8.  When a run of [Test] reaches [fit] and [fit] raises, [Test]
    raises that exception; when this happens in some fold of [Evaluate],
    the folds before it having returned, [Evaluate] raises that exception
    and returns no scores. *)
Theorem fit_error_aborts data e :
  (∀ train_subjects test_subjects fold_ind (st : State),
     fit_raises_in_Test self data train_subjects test_subjects fold_ind st e →
     ∃ st', Test self data train_subjects test_subjects fold_ind st
            = (Raise e, st')) ∧
  (∀ train_subjects splits n_repeats splits_vals (st : State)
     subject_splits s0 k,
     _get_eval_splits self (_get_subjects_overlap self train_subjects)
       splits n_repeats splits_vals
       (set_raw_preds_df
          (Ledger_new (_get_subjects_overlap self train_subjects)) st)
     = (Ok subject_splits, s0) →
     fit_raises_in_fold self data subject_splits k
                        (set_n_test_per_fold [] s0) e →
     ∃ st', Evaluate self data train_subjects splits n_repeats
                     splits_vals st = (Raise e, st')).
Proof.
  split; [intros; by apply Test_fit_raises|].
  intros tr sp nr sv st L s0 k Hsplits Hfit.
  apply eval_loop_fit_raises in Hfit as [st' Hloop]. exists st'.
  unfold Evaluate.
  rewrite (bind_Ok _ _ st tt
             (set_raw_preds_df
                (Ledger_new (_get_subjects_overlap self tr)) st)) by done.
  rewrite (bind_Ok _ _ _ _ _ Hsplits).
  rewrite (bind_Ok _ _ s0 tt (set_n_test_per_fold [] s0)) by done.
  by apply bind_Raise.
Qed.


(** *** The three remaining claims *)


Lemma get_eval_splits_Ok train_subjects splits n_repeats splits_vals
      (st : State) L s1 :
  _get_eval_splits self train_subjects splits n_repeats splits_vals st
  = (Ok L, s1) →
  generated_splits self train_subjects splits n_repeats splits_vals = Ok L.
Proof.
  unfold _get_eval_splits, generated_splits.
  destruct splits_vals as [vals|]; intros H.
  - binv H as n s2 H2. binv H as [] s3 H3.
    by apply lift_inv in H as [-> _].
  - binv H as [] s2 H2. by apply lift_inv in H as [-> _].
Qed.

(** C2, as amended.  [Test] returns one test score per metric, and
    [Evaluate] one such row per split the generator yields.  The train
    side has these shapes when the train side is scored; when it is not,
    [Test] returns the int 0 for it and [Evaluate] one 0 per split. *)
Theorem score_array_shapes data (st : State) :
  (∀ train_subjects test_subjects fold_ind r st',
     Test self data train_subjects test_subjects fold_ind st
     = (Ok r, st') →
     ∃ train_scores scores,
       match fold_ind with
       | FoldTest => ∃ df, r = TestFinal train_scores scores df
                                         (feat_importances st')
       | FoldNum _ => r = TestFold train_scores scores
       end ∧
       length scores = length (metrics self) ∧
       train_scores_shape self train_scores) ∧
  (∀ train_subjects splits n_repeats splits_vals
     all_train_scores all_scores df fis st',
     Evaluate self data train_subjects splits n_repeats splits_vals st
     = (Ok (all_train_scores, all_scores, df, fis), st') →
     ∃ subject_splits,
       generated_splits self (_get_subjects_overlap self train_subjects)
                        splits n_repeats splits_vals = Ok subject_splits ∧
       length all_scores = length subject_splits ∧
       Forall (fun v => length v = length (metrics self)) all_scores ∧
       length all_train_scores = length subject_splits ∧
       Forall (train_scores_shape self) all_train_scores).
Proof.
  split; [intros; by eapply Test_shape|].
  intros tr sp nr sv a b df fis st' H.
  apply Evaluate_Ok in H as (L & s1 & s2 & H1 & H2 & _).
  apply get_eval_splits_Ok in H1.
  apply eval_loop_shape in H2 as (nt & ns & -> & -> & ? & ? & ? & ?).
  exists L. simpl. done.
Qed.

Lemma mapM_result_Forall2 {A B : Type} (f : A → result B) l : ∀ k,
  mapM f l = Ok k → Forall2 (fun a b => f a = Ok b) l k.
Proof.
  induction l as [|a l IH]; simpl; intros k H.
  - injection H as <-. constructor.
  - destruct (f a) as [b|] eqn:Hb; simpl in H; [|done].
    destruct (mapM f l) as [bs|]; simpl in H; [|done].
    injection H as <-. constructor; auto.
Qed.

Lemma init_metrics fobj spec cv ds cts base h (st0 : State) :
  init fobj spec cv ds cts base h = Ok (self, st0) →
  ps self = spec ∧
  proc_type_dep_str (conv_to_list (metric spec)) (problem_type spec)
  = Ok (metric_strs self) ∧
  Forall2 (fun s metric => get_metric s = Ok metric)
          (metric_strs self) (metrics self) ∧
  (0 < length (metrics self))%nat.
Proof.
  unfold init, _process_metrics.
  destruct (Data_Scopes_set_all_keys ds spec) as [keys|]; simpl; [|done].
  destruct (proc_type_dep_str _ _) as [strs|]; simpl; [|done].
  destruct (mapM get_metric strs) as [ms|] eqn:Hms; simpl; [|done].
  destruct (py_index ms 0) as [m0|] eqn:Hm0; simpl; [|done].
  destruct base; simpl; [|done].
  intros [= <- _]. simpl. split; [done|]. split; [done|].
  split; [by apply mapM_result_Forall2|].
  unfold py_index in Hm0. destruct ms; simpl in *; [done|lia].
Qed.

Lemma Forall2_chain {A B C : Type} (P : A → B → Prop) (Q : B → C → Prop)
      (l : list A) (k : list B) (v : list C) :
  Forall2 P l k → Forall2 Q k v →
  Forall2 (fun a c => ∃ b, P a b ∧ Q b c) l v.
Proof.
  intros HP. revert v. induction HP as [|a b l k Hab HP IH]; intros v HQ.
  - apply Forall2_nil_inv_l in HQ as ->. constructor.
  - apply Forall2_cons_inv_l in HQ as (c & v' & Hbc & HQ & ->).
    constructor; eauto.
Qed.

(** C5.  [_get_scores], run once per fold and side, returns as many scores
    as [self.metrics] has metrics, the score at each place being what the
    metric at that place returned on the fitted model; so do both sides of
    [Test] when the train side is scored.  In a pipeline that [__init__]
    made, the metrics are those of the metrics configured in
    [problem_spec.metric]: the names [proc_type_dep_str] makes of the
    configured names are looked up one by one with [get_metric], and the
    score at each place is what the metric of the name at that place
    returned; the scores are as many as the configured names when
    [proc_type_dep_str] keeps their number. *)
Theorem score_vector_per_metric :
  (∀ test_data eval_type fold_ind (st : State) v st',
     _get_scores self test_data eval_type fold_ind st = (Ok v, st') →
     length v = length (metrics self) ∧
     ∃ m, Forall2 (fun (metric : scorer) z =>
                     ∃ Xa ya Xa' ya', metric m Xa ya = Ok (z, Xa', ya'))
                  (metrics self) v) ∧
  (∀ data train_subjects test_subjects fold_ind (st : State) r st',
     Test self data train_subjects test_subjects fold_ind st
     = (Ok r, st') →
     ∃ train_scores scores,
       match fold_ind with
       | FoldTest => ∃ df, r = TestFinal train_scores scores df
                                         (feat_importances st')
       | FoldNum _ => r = TestFold train_scores scores
       end ∧
       length scores = length (metrics self) ∧
       (compute_train_score self = true →
        ∃ v, train_scores = ScoreArray v ∧
             length v = length (metrics self))) ∧
  (∀ fobj spec cv ds cts base h (st0 : State),
     init fobj spec cv ds cts base h = Ok (self, st0) →
     let configured := conv_to_list (metric spec) in
     ∃ names,
       proc_type_dep_str configured (problem_type spec) = Ok names ∧
       metric_strs self = names ∧
       length (metrics self) = length names ∧
       Forall2 (fun s metric => get_metric s = Ok metric)
               names (metrics self) ∧
       ∀ test_data eval_type fold_ind (st : State) v st',
         _get_scores self test_data eval_type fold_ind st = (Ok v, st') →
         length v = length names ∧
         (length names = length configured →
          length v = length configured) ∧
         ∃ m, Forall2 (fun name z =>
                         ∃ metric : scorer,
                           get_metric name = Ok metric ∧
                           ∃ Xa ya Xa' ya',
                             metric m Xa ya = Ok (z, Xa', ya'))
                      names v).
Proof.
  assert (Hrun : ∀ test_data eval_type fold_ind (st : State) v st',
     _get_scores self test_data eval_type fold_ind st = (Ok v, st') →
     length v = length (metrics self) ∧
     ∃ m, Forall2 (fun (metric : scorer) z =>
                     ∃ Xa ya Xa' ya', metric m Xa ya = Ok (z, Xa', ya'))
                  (metrics self) v).
  { intros td et fi st v st' H. split; [by eapply get_scores_length|].
    apply get_scores_Ok in H as (X & y & s1 & df & s2 & m & _ & _ & _ & _
                                 & H).
    exists m. apply mapM_Ok in H.
    eapply Forall2_impl; [exact H|]. simpl.
    intros metric z (s & s' & Hc).
    apply call_on2_Ok in Hc as (Xa & ya & Xa' & ya' & _ & _ & Hm). eauto. }
  split; [exact Hrun|]. split.
  - intros data tr te fi st r st' H.
    apply Test_shape in H as (ts & sc & Hr & Hsc & Hts).
    exists ts, sc. split; [done|]. split; [done|]. intros Hcts.
    unfold train_scores_shape in Hts. destruct ts as [v|z].
    + destruct Hts. eauto.
    + destruct Hts. congruence.
  - intros fobj spec cv ds cts base h st0 Hinit configured.
    apply init_metrics in Hinit as (_ & Hnames & HF & _).
    exists (metric_strs self). split; [done|]. split; [done|].
    pose proof (Forall2_length _ _ _ HF) as Hlen.
    split; [done|]. split; [done|].
    intros td et fi st v st' H.
    destruct (Hrun _ _ _ _ _ _ H) as (Hv & m & Hm).
    split; [congruence|]. split; [congruence|].
    exists m. exact (Forall2_chain _ _ _ _ _ HF Hm).
Qed.

Lemma np_unique_one_class a c :
  flatten a ≠ [] → (∀ z, z ∈ flatten a → z = c) → np_unique a = [c].
Proof.
  intros Hne Hall. unfold np_unique.
  assert (Hd : remove_dups (flatten a) = [c]).
  { pose proof (NoDup_remove_dups (flatten a)) as Hnd.
    assert (Hin : ∀ z, z ∈ remove_dups (flatten a) → z = c).
    { intros z Hz. apply Hall. by apply elem_of_remove_dups. }
    assert (Hc : c ∈ remove_dups (flatten a)).
    { apply elem_of_remove_dups. destruct (flatten a) as [|z l]; [done|].
      rewrite <- (Hall z) by apply list_elem_of_here.
      apply list_elem_of_here. }
    destruct (remove_dups (flatten a)) as [|z [|z' l]].
    - by apply elem_of_nil in Hc.
    - f_equal. apply Hin, list_elem_of_here.
    - exfalso. apply NoDup_cons in Hnd as [Hz _]. apply Hz.
      rewrite (Hin z) by apply list_elem_of_here.
      rewrite <- (Hin z'); [apply list_elem_of_here|].
      apply elem_of_cons; right; apply list_elem_of_here. }
  rewrite Hd. reflexivity.
Qed.

End EngineFacts.

Lemma demo_init_ok cts fragile :
  init (Some (PList ["shap"])) demo_spec demo_cv demo_data_scopes cts
       (Ok (demo_base fragile)) demo_store
  = Ok (demo_self cts fragile, demo_state).
Proof. reflexivity. Qed.


(** ** The claims on the small pipeline *)

(** C3.  One repeat of [Evaluate] in three splits on a binary target.
    The first fold tests subject 3 alone, of class 1: the labels
    recorded are the integers of [np.array([0, 1])], and the
    probabilities go to the columns ["1_prob_class_0"] and
    ["1_prob_class_1"].  The second fold tests subjects 4 and 1, of the
    two classes: the labels recorded are the floats of [np.unique], and
    the probabilities go to the columns ["1_prob_class_0.0"] and
    ["1_prob_class_1.0"].  The class columns of the repeat are not named
    alike across its folds. *)
Theorem one_class_fold_column_names :
  ∃ all_train_scores all_scores df fis st',
    Evaluate binary_self 0 [1; 2; 3; 4; 5; 6; 7] 3 1 None demo_state
    = (Ok (all_train_scores, all_scores, df, fis), st') ∧
    (ld_at df "1_fold" 3 = Some (CStr "1") ∧
     ld_at df "t" 3 = Some (CNum 1) ∧
     ld_at df "1_prob_class_0" 3 = Some (CNum 1) ∧
     ld_at df "1_prob_class_1" 3 = Some (CNum 0) ∧
     ld_at df "1_prob_class_0.0" 3 = None ∧
     ld_at df "1_prob_class_1.0" 3 = None) ∧
    (ld_at df "1_fold" 4 = Some (CStr "2") ∧
     ld_at df "1_fold" 1 = Some (CStr "2") ∧
     ld_at df "t" 4 = Some (CNum 0) ∧
     ld_at df "t" 1 = Some (CNum 1) ∧
     ld_at df "1_prob_class_0.0" 4 = Some (CNum 1) ∧
     ld_at df "1_prob_class_1.0" 4 = Some (CNum 0) ∧
     ld_at df "1_prob_class_0" 4 = None ∧
     ld_at df "1_prob_class_1" 4 = None).
Proof.
  eexists _, _, _, _, _.
  split; [vm_compute; reflexivity|].
  split; repeat split; vm_compute; reflexivity.
Qed.


Lemma score_array_shapes_witness :
  ∃ all_train_scores all_scores df fis st' subject_splits,
    Evaluate (demo_self true false) 0 [1; 2; 3; 4; 5; 6; 7] 2 2 None
             demo_state
    = (Ok (all_train_scores, all_scores, df, fis), st') ∧
    generated_splits (demo_self true false)
      (_get_subjects_overlap (demo_self true false) [1; 2; 3; 4; 5; 6; 7])
      2 2 None = Ok subject_splits ∧
    length subject_splits = 4 ∧
    length all_scores = length subject_splits ∧
    Forall (fun v => length v = 2) all_scores ∧
    length all_train_scores = length subject_splits ∧
    Forall (train_scores_shape (demo_self true false)) all_train_scores.
Proof.
  eexists _, _, _, _, _.
  assert (H : Evaluate (demo_self true false) 0 [1; 2; 3; 4; 5; 6; 7] 2 2
                None demo_state = (Ok (_, _, _, _), _))
    by (vm_compute; reflexivity).
  destruct (proj2 (score_array_shapes (demo_self true false) 0 demo_state)
              _ _ _ _ _ _ _ _ _ H)
    as (L & HL & H1 & H2 & H3 & H4).
  exists L. split; [exact H|]. split; [exact HL|].
  split; [|by repeat split].
  vm_compute in HL. injection HL as <-. reflexivity.
Defined.

Lemma train_scores_not_an_array :
  ∃ scores df fis st',
    Test (demo_self false false) 0 [1; 2; 3] [4; 5; 6] FoldTest demo_state
    = (Ok (TestFinal (ScoreInt 0) scores df fis), st') ∧
    length (metrics (demo_self false false)) = 2 ∧
    ¬ (∃ v, ScoreInt 0 = ScoreArray v ∧
            length v = length (metrics (demo_self false false))).
Proof.
  eexists _, _, _, _. split; [vm_compute; reflexivity|].
  split; [reflexivity|]. intros (v & Hv & _). discriminate Hv.
Qed.

Lemma single_class_labels_witness :
  ∃ scores st',
    _get_scores (demo_self false false) 0 "" (FoldNum 3) demo_fold_state
    = (Ok scores, st') ∧
    np_unique (Arr1 [0%Z; 0%Z]) = [0%Z] ∧
    classes st' = Some (IntLabels [0%Z; 1%Z]).
Proof.
  eexists _, _.
  assert (H : _get_scores (demo_self false false) 0 "" (FoldNum 3)
                demo_fold_state = (Ok _, _))
    by (vm_compute; reflexivity).
  split; [exact H|]. split; [reflexivity|].
  exact (proj1 (single_class_labels (demo_self false false) 0 ""
                  (FoldNum 3) demo_fold_state
                  (mkDataFrame [2; 4] ["a"; "b"; "t"] (df_at demo_table))
                  (Arr1 [0%Z; 0%Z]) _ _ eq_refl eq_refl eq_refl H)).
Defined.

Lemma ledger_index_witness :
  ∃ train_scores scores df fis st',
    Test (demo_self true false) 0 [1; 2; 3; 7] [4; 5; 6] FoldTest demo_state
    = (Ok (TestFinal train_scores scores df fis), st') ∧
    ld_index df = [2; 3; 1; 4; 5].
Proof.
  eexists _, _, _, _, _.
  assert (H : Test (demo_self true false) 0 [1; 2; 3; 7] [4; 5; 6] FoldTest
                demo_state = (Ok (TestFinal _ _ _ _), _))
    by (vm_compute; reflexivity).
  split; [exact H|].
  exact (proj1 (proj1 (ledger_index (demo_self true false) 0 [1; 2; 3; 7]
                         demo_state eq_refl) _ _ _ _ _ _ H)).
Defined.

Lemma score_vector_per_metric_witness :
  ∃ scores st',
    init (Some (PList ["shap"])) demo_spec demo_cv demo_data_scopes false
         (Ok (demo_base false)) demo_store
    = Ok (demo_self false false, demo_state) ∧
    conv_to_list (metric demo_spec) = ["r2"; "mse"] ∧
    _get_scores (demo_self false false) 0 "" (FoldNum 3) demo_fold_state
    = (Ok scores, st') ∧
    length scores = length (conv_to_list (metric demo_spec)).
Proof.
  eexists _, _.
  assert (Hinit : init (Some (PList ["shap"])) demo_spec demo_cv
                       demo_data_scopes false (Ok (demo_base false))
                       demo_store
                  = Ok (demo_self false false, demo_state))
    by reflexivity.
  assert (H : _get_scores (demo_self false false) 0 "" (FoldNum 3)
                demo_fold_state = (Ok _, _))
    by (vm_compute; reflexivity).
  split; [exact Hinit|]. split; [reflexivity|]. split; [exact H|].
  destruct (proj2 (proj2 (score_vector_per_metric (demo_self false false)))
              _ _ _ _ _ _ _ _ Hinit)
    as (names & Hnames & _ & _ & _ & Hrun).
  injection Hnames as <-.
  exact (proj1 (proj2 (Hrun _ _ _ _ _ _ H)) eq_refl).
Defined.

Lemma fold_tag_recorded_witness :
  ∃ st' (st_tag : @State (bool * nat) string) df_tag,
    _add_raw_preds (demo_self false false) 1 2 [2; 4] "" (FoldNum 3)
                   demo_fold_state = (Ok tt, st') ∧
    raw_preds_df st_tag = Some df_tag ∧
    (∀ s, s ∈ [2; 4] → ld_at df_tag "2_fold" s = Some (CStr "2")) ∧
    (∀ s c, s ∉ [2; 4] → ld_at df_tag c s = None).
Proof.
  eexists _.
  assert (H : _add_raw_preds (demo_self false false) 1 2 [2; 4] ""
                (FoldNum 3) demo_fold_state = (Ok tt, _))
    by (vm_compute; reflexivity).
  destruct (fold_tag_recorded (demo_self false false) 1 2 [2; 4] ""
              (FoldNum 3) demo_fold_state _ (Ledger_new [1; 2; 3; 4; 5])
              eq_refl H)
    as (fold & repeat & st_tag & df_tag & (n & Hn & _ & -> & ->) & _ & Hdf
        & Htag & Hrows & _).
  injection Hn as <-.
  exists st_tag, df_tag. split; [exact H|]. split; [exact Hdf|].
  split; [exact Htag|]. intros s c Hs. by rewrite (Hrows s c Hs).
Defined.

Lemma fit_error_aborts_witness :
  ∃ st', Evaluate (demo_self false true) 0 [1; 2; 3; 4; 5; 6; 7] 2 2 None
                  demo_state = (Raise (ExternalError "fit"), st').
Proof.
  eapply (proj2 (fit_error_aborts (demo_self false true) 0
                   (ExternalError "fit")) _ _ _ _ _ _ _ 1%nat).
  - vm_compute. reflexivity.
  - unfold fit_raises_in_fold. eexists _, _, _, _, _.
    split; [vm_compute; reflexivity|]. split; [vm_compute; reflexivity|].
    split; [vm_compute; reflexivity|]. split; [done|].
    unfold fit_raises_in_Test. eexists _, _, _, _, _, _, _, _, _, _.
    split; [vm_compute; reflexivity|]. split; [vm_compute; reflexivity|].
    split; [vm_compute; reflexivity|]. split; [vm_compute; reflexivity|].
    split; [vm_compute; reflexivity|]. vm_compute. reflexivity.
Defined.

Lemma data_table_read_only_witness :
  ∃ r st',
    Evaluate (demo_self true false) 0 [1; 2; 3; 4; 5; 6; 7] 2 2 None
             demo_state = (r, st') ∧
    store st' !! 0%nat = Some (ODataFrame demo_table).
Proof.
  eexists _, _.
  assert (H : Evaluate (demo_self true false) 0 [1; 2; 3; 4; 5; 6; 7] 2 2
                None demo_state = (_, _))
    by (vm_compute; reflexivity).
  split; [exact H|].
  exact (proj2 (data_table_read_only (demo_self true false) 0 demo_state
                  eq_refl) _ _ _ _ _ _ 0%nat H
               (mk_is_Some _ (ODataFrame demo_table) eq_refl)).
Defined.

Lemma importance_records_empty_witness :
  ∃ train_scores scores df fis st',
    Test (demo_self true false) 0 [1; 2; 3; 7] [4; 5; 6] FoldTest demo_state
    = (Ok (TestFinal train_scores scores df fis), st') ∧
    fis = [].
Proof.
  eexists _, _, _, _, _.
  assert (H : Test (demo_self true false) 0 [1; 2; 3; 7] [4; 5; 6] FoldTest
                demo_state = (Ok (TestFinal _ _ _ _), _))
    by (vm_compute; reflexivity).
  split; [exact H|].
  exact (proj1 (proj1 (proj2 (importance_records_empty
                  (demo_self true false) (Some (PList ["shap"])) demo_spec
                  demo_cv demo_data_scopes true (Ok (demo_base false))
                  demo_store
                  demo_state eq_refl))
               demo_state 0 _ _ _ _ _ _ _ eq_refl H)).
Defined.

Section ScopesRuns.
Import Scopes.

Lemma set_all_keys_layout_witness :
∃ self' scoped_keys,
  set_all_keys SCOPES_std conv_to_list_std demo_scopes
               (ScopeRaw (PList ["covars"; "thick"])) (PStr "score")
  = Ok self' ∧
  Scopes.all_keys self' = Some (scoped_keys ++ ["site"; "score"]) ∧
  NoDup (scoped_keys ++ ["site"; "score"]) ∧
  (∀ k, k ∈ ["site"; "score"] → k ∉ scoped_keys).
Proof.
eexists _.
assert (H : set_all_keys SCOPES_std conv_to_list_std demo_scopes
              (ScopeRaw (PList ["covars"; "thick"])) (PStr "score")
            = Ok _) by (vm_compute; reflexivity).
assert (H1 : NoDup (data_keys demo_scopes ++ covars_keys demo_scopes
                    ++ strat_keys demo_scopes
                    ++ conv_to_list_std (PStr "score")))
  by (refine (bool_decide_unpack _ _); vm_compute; exact I).
assert (H2 : NoDup (data_file_keys demo_scopes)) by constructor.
assert (H3 : NoDup (cat_keys demo_scopes))
  by (refine (bool_decide_unpack _ _); vm_compute; exact I).
destruct (set_all_keys_layout SCOPES_std conv_to_list_std demo_scopes _ _ _
            H1 H2 H3 H)
  as (scoped & _ & Hall & _ & Hnd & Hout & _).
exists scoped. split; [exact H|]. split; [exact Hall|].
split; [exact Hnd|exact Hout].
Defined.

(** C7.  On a resolver whose strat key is also a covariate key,
    [set_all_keys] for the scope ['all'] leaves that key twice in
    [all_keys], once among the feature keys, and [get_keys_from_scope]
    returns it among the feature keys: [keys.remove(key)] takes out one
    occurrence only, and the keys of a named scope are not
    deduplicated. *)
Lemma strat_key_among_features :
let self := overlapping_scopes in
let self' := mkScopes ["thickness"] [] ["sex"] ["sex"] ["sex"]
                      (Some ["sex"; "target"])
                      (Some ["thickness"; "sex"; "sex"; "target"])
                      (Some 2) in
set_all_keys SCOPES_std conv_to_list_std self
             (ScopeRaw (PStr "all")) (PStr "target") = Ok self' ∧
get_keys_from_scope SCOPES_std conv_to_list_std self'
                    (ScopeRaw (PStr "all")) = Ok ["thickness"; "sex"] ∧
"sex" ∈ strat_keys self' ∧
¬ NoDup ["thickness"; "sex"; "sex"; "target"] ∧
¬ (∀ keys k, get_keys_from_scope SCOPES_std conv_to_list_std self'
               (ScopeRaw (PStr "all")) = Ok keys →
             k ∈ strat_keys self' → k ∉ keys).
Proof.
intros self self'.
assert (Hkeys : get_keys_from_scope SCOPES_std conv_to_list_std self'
                  (ScopeRaw (PStr "all")) = Ok ["thickness"; "sex"])
  by (vm_compute; reflexivity).
split; [vm_compute; reflexivity|]. split; [exact Hkeys|].
split; [apply list_elem_of_here|].
split.
{ intros Hnd. apply NoDup_cons in Hnd as [_ Hnd].
  apply NoDup_cons in Hnd as [Hsex _]. apply Hsex, list_elem_of_here. }
intros Hall. apply (Hall _ "sex" Hkeys); [apply list_elem_of_here|].
apply elem_of_cons; right. apply list_elem_of_here.
Qed.

End ScopesRuns.

(** * Further properties *)

(** ** Strings *)

Section StringFacts.

Lemma string_app_cons c (s t : string) :
  String c s +:+ t = String c (s +:+ t).
Proof. reflexivity. Qed.

Lemma string_app_nil_l (s : string) : "" +:+ s = s.
Proof. reflexivity. Qed.

Lemma string_app_length (s t : string) :
  String.length (s +:+ t) = String.length s + String.length t.
Proof.
  induction s as [|c s IH]; [done|].
  rewrite string_app_cons. simpl. by rewrite IH.
Qed.

Lemma string_app_assoc (s t u : string) :
  (s +:+ t) +:+ u = s +:+ (t +:+ u).
Proof.
  induction s as [|c s IH]; [done|]. by rewrite !string_app_cons, IH.
Qed.

Lemma string_app_nil_r (s : string) : s +:+ "" = s.
Proof.
  induction s as [|c s IH]; [done|]. by rewrite string_app_cons, IH.
Qed.

Lemma string_length_0 (s : string) : String.length s = 0 → s = "".
Proof. by destruct s. Qed.

Lemma substring_prefix (t post : string) :
  String.substring 0 (String.length t) (t +:+ post) = t.
Proof.
  induction t as [|c t IH].
  - rewrite string_app_nil_l. by destruct post.
  - rewrite string_app_cons. simpl. by rewrite IH.
Qed.

Lemma substring_skip (pre s : string) m :
  String.substring (String.length pre) m (pre +:+ s)
  = String.substring 0 m s.
Proof.
  induction pre as [|c pre IH]; [done|].
  rewrite string_app_cons. simpl. apply IH.
Qed.

Lemma substring_split (x : string) : ∀ i j,
  i + j ≤ String.length x →
  ∃ pre post, x = pre +:+ String.substring i j x +:+ post ∧
              String.length pre = i.
Proof.
  induction x as [|c x IH]; intros i j Hij; simpl in Hij.
  - assert (i = 0) as -> by lia. assert (j = 0) as -> by lia.
    by exists "", "".
  - destruct i as [|i].
    + destruct j as [|j].
      * by exists "", (String c x).
      * destruct (IH 0 j) as (pre & post & Hx & Hpre); [lia|].
        apply string_length_0 in Hpre as ->.
        rewrite string_app_nil_l in Hx.
        exists "", post. split; [|done]. simpl String.substring.
        by rewrite string_app_nil_l, string_app_cons, <- Hx.
    + destruct (IH i j) as (pre & post & Hx & Hpre); [lia|].
      exists (String c pre), post. split; [|simpl; by rewrite Hpre].
      simpl String.substring. by rewrite string_app_cons, <- Hx.
Qed.

Lemma substring_length (x : string) : ∀ i j,
  String.length (String.substring i j x) ≤ j ∧
  (String.length (String.substring i j x) = j → 0 < j →
   i + j ≤ String.length x).
Proof.
  induction x as [|c x IH]; intros i j.
  - destruct i, j; simpl; lia.
  - destruct i as [|i].
    + destruct j as [|j]; simpl; [lia|].
      destruct (IH 0 j). destruct j; simpl in *; lia.
    + simpl. destruct (IH i j). lia.
Qed.

Lemma occurs_in_empty (x : string) : occurs_in "" x.
Proof. by exists "", x. Qed.

Lemma occurs_in_of_empty (t : string) : occurs_in t "" → t = "".
Proof.
  intros (pre & post & H). apply (f_equal String.length) in H.
  rewrite !string_app_length in H. simpl in H.
  apply string_length_0. lia.
Qed.

Lemma occurs_in_length (t x : string) :
  occurs_in t x → String.length t ≤ String.length x.
Proof.
  intros (pre & post & ->). rewrite !string_app_length. lia.
Qed.

(** [str_in] decides [occurs_in]. *)
Lemma str_in_occurs (r a : string) :
  Scopes.str_in r a = true ↔ occurs_in r a.
Proof.
  unfold Scopes.str_in.
  destruct (String.index 0 r a) as [m|] eqn:Hidx; split; try done.
  - intros _. destruct (decide (r = "")) as [->|Hr];
      [apply occurs_in_empty|].
    apply String.index_correct1 in Hidx.
    destruct (substring_length a m (String.length r)) as [_ Hlen].
    destruct (substring_split a m (String.length r)) as (pre & post & Ha & _).
    { apply Hlen; [by rewrite Hidx|]. destruct r; [done|simpl; lia]. }
    rewrite Hidx in Ha. by exists pre, post.
  - intros (pre & post & ->). exfalso.
    destruct (decide (r = "")) as [->|Hr].
    + apply String.index_correct4 in Hidx. lia.
    + apply (String.index_correct3 0 (String.length pre) _ _ Hidx Hr);
        [lia|].
      by rewrite substring_skip, substring_prefix.
Qed.

End StringFacts.

(** ** The scope resolver: indices and listed scopes *)

Section ScopesIndices.
Import Scopes.
Variable SCOPES : list string.
Variable conv_to_list : str_or_list -> list string.

Lemma list_index_Ok l k i :
  list_index l k = Ok i ↔
  l !! i = Some k ∧ ∀ j, j < i → l !! j ≠ Some k.
Proof.
  unfold list_index.
  destruct (list_find (λ x, x = k) l) as [[i' x]|] eqn:Hf.
  - apply list_find_Some in Hf as (Hi & -> & Hfirst). split.
    + intros [= <-]. split; [done|]. intros j Hj Hl. by eapply Hfirst.
    + intros [Hl Hmin]. f_equal.
      destruct (Nat.lt_trichotomy i i') as [Hlt|[->|Hgt]]; [|done|].
      * exfalso. by eapply Hfirst.
      * exfalso. by eapply Hmin.
  - split; [done|]. intros [Hl _].
    apply list_find_None in Hf. rewrite Forall_forall in Hf.
    exfalso. eapply Hf; [|reflexivity]. by eapply list_elem_of_lookup_2.
Qed.

Lemma list_index_elem l k : k ∈ l → ∃ i, list_index l k = Ok i.
Proof.
  intros Hk. unfold list_index.
  destruct (list_find_elem_of (λ x, x = k) l k Hk eq_refl) as [[i x] ->].
  eauto.
Qed.

Lemma list_index_NoDup l k i :
  NoDup l → l !! i = Some k → list_index l k = Ok i.
Proof.
  intros Hnd Hi. apply list_index_Ok. split; [done|].
  intros j Hj Hl. pose proof (NoDup_lookup _ _ _ _ Hnd Hi Hl). lia.
Qed.

(** What [get_train_inds_from_keys] returns once [all_keys] is set. *)
Lemma get_train_inds_Ok self ak : ∀ keys,
  all_keys self = Some ak →
  ∃ inds,
    get_train_inds_from_keys self keys = Ok inds ∧
    Forall2 (λ i k, list_index ak k = Ok i) inds
            (filter (λ k, k ∈ ak) keys).
Proof.
  intros keys Hak. induction keys as [|k rest (inds & IH & HF)]; simpl.
  - exists []. split; [done|]. constructor.
  - rewrite Hak. simpl. rewrite filter_cons.
    destruct (decide (k ∈ ak)) as [Hin|Hout].
    + destruct (list_index_elem ak k Hin) as [i Hi].
      rewrite Hi, IH. simpl. exists (i :: inds). split; [done|].
      by constructor.
    + exists inds. done.
Qed.

(** X1.  The indices [get_train_inds_from_keys] returns are those of the
    keys passed that [all_keys] holds, in the order passed: each index is
    the first place of its key; a key that [all_keys] does not hold is
    left out without an error. *)
Theorem train_inds_round_trip self ak keys :
  all_keys self = Some ak →
  ∃ inds,
    get_train_inds_from_keys self keys = Ok inds ∧
    (λ i, ak !! i) <$> inds = Some <$> filter (λ k, k ∈ ak) keys ∧
    Forall (λ i, i < length ak ∧ ∀ j, j < i → ak !! j ≠ ak !! i) inds.
Proof.
  intros Hak. destruct (get_train_inds_Ok self ak keys Hak) as (inds & H & HF).
  exists inds. split; [done|]. clear H.
  induction HF as [|i k inds ks Hi HF IH]; [by split|].
  apply list_index_Ok in Hi as [Hl Hmin]. destruct IH as [IH1 IH2].
  split; [by rewrite !fmap_cons, Hl, IH1|].
  constructor; [|done]. split; [by eapply lookup_lt_Some|].
  intros j Hj. rewrite Hl. by apply Hmin.
Qed.


(** *** After [set_all_keys] *)

Lemma set_all_keys_Ok self scope targets_key self' :
  set_all_keys SCOPES conv_to_list self scope targets_key = Ok self' →
  let at_end := strat_keys self ++ conv_to_list targets_key in
  ∃ scoped,
    get_keys_from_scope SCOPES conv_to_list
      (mkScopes (data_keys self) (data_file_keys self) (cat_keys self)
                (strat_keys self) (covars_keys self) (Some at_end)
                (Some (data_keys self ++ covars_keys self ++ at_end))
                (num_feat_keys self)) scope = Ok scoped ∧
    self' = mkScopes (data_keys self) (data_file_keys self) (cat_keys self)
                     (strat_keys self) (covars_keys self) (Some at_end)
                     (Some (scoped ++ at_end))
                     (Some (length (scoped ++ at_end) - length at_end)).
Proof.
  intros H at_end. unfold set_all_keys in H. fold at_end in H.
  match type of H with
  | context [get_keys_from_scope _ _ ?s1 _] =>
      destruct (get_keys_from_scope SCOPES conv_to_list s1 scope)
        as [scoped|] eqn:Hscoped
  end; simpl in H; [|done].
  injection H as <-. eauto.
Qed.

(** The layout [set_all_keys] leaves when the keys are distinct. *)
Lemma set_all_keys_distinct self scope targets_key self' :
  NoDup (data_keys self ++ covars_keys self ++ strat_keys self
         ++ conv_to_list targets_key) →
  NoDup (data_file_keys self) → NoDup (cat_keys self) →
  set_all_keys SCOPES conv_to_list self scope targets_key = Ok self' →
  let at_end := strat_keys self ++ conv_to_list targets_key in
  ∃ scoped,
    all_keys self' = Some (scoped ++ at_end) ∧
    keys_at_end self' = Some at_end ∧
    num_feat_keys self' = Some (length scoped) ∧
    strat_keys self' = strat_keys self ∧
    NoDup (scoped ++ at_end) ∧
    distinct_keys self'.
Proof.
  intros Hall Hfile Hcat Hset at_end.
  apply set_all_keys_Ok in Hset as (scoped & Hscoped & ->). fold at_end in Hscoped |- *.
  pose proof Hall as Hall'. fold at_end in Hall'.
  apply NoDup_app in Hall as (Hd & _ & Hrest).
  apply NoDup_app in Hrest as (Hv & _ & Hend). fold at_end in Hend.
  match type of Hscoped with
  | get_keys_from_scope _ _ ?s1 _ = _ =>
      destruct (get_keys_from_scope_spec SCOPES conv_to_list s1 scope at_end
                  scoped) as [Hnd Hout]
  end; [|done|done|].
  { repeat split; try done. intros ak [= <-]. done. }
  assert (Hnd' : NoDup (scoped ++ at_end)).
  { apply NoDup_app. repeat split; [done| |done].
    intros x Hx Hx'. by apply (Hout x). }
  exists scoped. simpl. split; [done|]. split; [done|]. split.
  { f_equal. rewrite length_app. lia. }
  split; [done|]. split; [done|].
  repeat split; try done. simpl. intros ak [= <-]. done.
Qed.

(** X2.  Once [set_all_keys] has run on distinct keys, the indices
    [get_inds_from_scope] returns for any scope are indices of feature
    columns: each is below [num_feat_keys], so none is the place of a
    strat or target key. *)
Theorem scope_inds_are_feature_inds self scope targets_key self' scope' inds :
  NoDup (data_keys self ++ covars_keys self ++ strat_keys self
         ++ conv_to_list targets_key) →
  NoDup (data_file_keys self) → NoDup (cat_keys self) →
  set_all_keys SCOPES conv_to_list self scope targets_key = Ok self' →
  get_inds_from_scope SCOPES conv_to_list self' scope' = Ok inds →
  ∃ n ak,
    num_feat_keys self' = Some n ∧ all_keys self' = Some ak ∧
    length ak = n + length (strat_keys self ++ conv_to_list targets_key) ∧
    Forall (λ i, i < n) inds.
Proof.
  intros Hall Hfile Hcat Hset Hinds.
  destruct (set_all_keys_distinct _ _ _ _ Hall Hfile Hcat Hset)
    as (scoped & Hak & Hend & Hn & _ & Hnd & Hdk).
  set (at_end := strat_keys self ++ conv_to_list targets_key) in *.
  exists (length scoped), (scoped ++ at_end).
  split; [done|]. split; [done|]. split; [by rewrite length_app|].
  unfold get_inds_from_scope in Hinds.
  destruct (get_keys_from_scope SCOPES conv_to_list self' scope')
    as [keys|] eqn:Hkeys; simpl in Hinds; [|done].
  destruct (get_keys_from_scope_spec _ _ _ _ _ _ Hdk Hend Hkeys)
    as [_ Hout].
  destruct (get_train_inds_Ok self' _ keys Hak) as (inds' & Hinds' & HF).
  rewrite Hinds in Hinds'. injection Hinds' as <-.
  apply Forall_lookup. intros p i Hp.
  destruct (Forall2_lookup_l _ _ _ _ _ HF Hp) as (k & Hk & Hi).
  apply list_elem_of_lookup_2, list_elem_of_filter in Hk as [Hin Hk].
  apply list_index_Ok in Hi as [Hi Hmin].
  apply elem_of_app in Hin as [Hin|Hin]; [|by destruct (Hout k)].
  apply list_elem_of_lookup in Hin as [j Hj].
  pose proof (lookup_lt_Some _ _ _ Hj) as Hlt.
  destruct (decide (i ≤ j)); [lia|]. exfalso.
  apply (Hmin j); [lia|]. by rewrite lookup_app_l.
Qed.

Lemma get_train_inds_segment self : ∀ keys pre post,
  all_keys self = Some (pre ++ keys ++ post) →
  NoDup (pre ++ keys ++ post) →
  get_train_inds_from_keys self keys
  = Ok (seq (length pre) (length keys)).
Proof.
  induction keys as [|k rest IH]; intros pre post Hak Hnd; simpl; [done|].
  rewrite Hak. simpl. rewrite decide_True by set_solver.
  rewrite (list_index_NoDup _ k (length pre)); [|done|].
  - simpl. rewrite (IH (pre ++ [k]) post).
    + simpl. rewrite length_app. simpl.
      by replace (length pre + 1) with (S (length pre)) by lia.
    + by rewrite <- app_assoc.
    + by rewrite <- app_assoc.
  - by rewrite lookup_app_r, Nat.sub_diag by lia.
Qed.

(** X3.  Once [set_all_keys] has run on distinct keys, [get_strat_inds]
    returns the places that follow the feature columns: [num_feat_keys],
    [num_feat_keys + 1], ..., one per strat key, in the order of
    [strat_keys]. *)
Theorem strat_inds_follow_features self scope targets_key self' :
  NoDup (data_keys self ++ covars_keys self ++ strat_keys self
         ++ conv_to_list targets_key) →
  NoDup (data_file_keys self) → NoDup (cat_keys self) →
  set_all_keys SCOPES conv_to_list self scope targets_key = Ok self' →
  ∃ n, num_feat_keys self' = Some n ∧
       get_strat_inds self' = Ok (seq n (length (strat_keys self))).
Proof.
  intros Hall Hfile Hcat Hset.
  destruct (set_all_keys_distinct _ _ _ _ Hall Hfile Hcat Hset)
    as (scoped & Hak & Hend & Hn & Hstrat & Hnd & Hdk).
  exists (length scoped). split; [done|].
  unfold get_strat_inds. rewrite Hstrat.
  by apply (get_train_inds_segment self' _ scoped
              (conv_to_list targets_key)).
Qed.

(** *** Before [set_all_keys] *)

Lemma named_scope_keys_unset self s :
  all_keys self = None → s ∈ SCOPES_std →
  named_scope_keys self s = Raise AttributeError ∨
  ∃ keys, named_scope_keys self s = Ok keys.
Proof.
  intros Hak Hs. unfold named_scope_keys. rewrite Hak.
  unfold SCOPES_std in Hs.
  repeat (apply elem_of_cons in Hs as [->|Hs]; [simpl; eauto|]).
  by apply elem_of_nil in Hs.
Qed.

Lemma get_keys_named_unset self s :
  keys_at_end self = None → all_keys self = None → s ∈ SCOPES_std →
  get_keys_named self s = Raise AttributeError.
Proof.
  intros Hend Hak Hs. unfold get_keys_named. rewrite Hend.
  by destruct (named_scope_keys_unset self s Hak Hs) as [->|[keys ->]].
Qed.

Lemma get_keys_listed_unset self scope :
  keys_at_end self = None → all_keys self = None → SCOPES ⊆ SCOPES_std →
  get_keys_listed SCOPES self scope = Raise AttributeError.
Proof.
  intros Hend Hak Hsub. unfold get_keys_listed.
  destruct scope as [|key rest]; simpl.
  - by rewrite Hend.
  - case_decide as Hkey.
    + rewrite get_keys_named_unset by auto. done.
    + by rewrite Hak.
Qed.

(** X4.  A resolver on which [set_all_keys] has not run yet has neither
    [all_keys] nor [keys_at_end]; [get_keys_from_scope] and
    [get_inds_from_scope] then raise [AttributeError] for every scope,
    named or listed, even the empty list ([SCOPES] holding the names the
    method has a case for). *)
Theorem resolver_needs_set_all_keys self scope :
  keys_at_end self = None → all_keys self = None → SCOPES ⊆ SCOPES_std →
  get_keys_from_scope SCOPES conv_to_list self scope = Raise AttributeError ∧
  get_inds_from_scope SCOPES conv_to_list self scope = Raise AttributeError.
Proof.
  intros Hend Hak Hsub.
  assert (H : get_keys_from_scope SCOPES conv_to_list self scope
              = Raise AttributeError).
  { unfold get_keys_from_scope.
    destruct scope as [[s|l]|[s|l]]; try case_decide;
      auto using get_keys_named_unset, get_keys_listed_unset. }
  split; [done|]. unfold get_inds_from_scope. by rewrite H.
Qed.

(** *** [set_all_keys] called again *)

Lemma get_keys_named_same a b s :
  same_keys a b → get_keys_named a s = get_keys_named b s.
Proof.
  intros (Hd & Hf & Hc & Hs & Hv & He & Ha).
  unfold get_keys_named, named_scope_keys.
  by rewrite Hd, Hf, Hc, Hv, He, Ha.
Qed.

Lemma scope_loop_same a b : ∀ scope keys restrict_keys,
  same_keys a b →
  scope_loop SCOPES a scope keys restrict_keys
  = scope_loop SCOPES b scope keys restrict_keys.
Proof.
  induction scope as [|key rest IH]; intros keys rs Hab; simpl; [done|].
  rewrite (get_keys_named_same a b key Hab).
  destruct Hab as (Hd & Hf & Hc & Hs & Hv & He & Ha). rewrite Ha.
  assert (Hab : same_keys a b) by done.
  case_decide.
  - destruct (get_keys_named b key); simpl; auto.
  - destruct (all_keys b); simpl; [|done]. case_decide; auto.
Qed.

Lemma get_keys_from_scope_same a b scope :
  same_keys a b →
  get_keys_from_scope SCOPES conv_to_list a scope
  = get_keys_from_scope SCOPES conv_to_list b scope.
Proof.
  intros Hab.
  assert (Hl : ∀ l, get_keys_listed SCOPES a l = get_keys_listed SCOPES b l).
  { intros l. unfold get_keys_listed. rewrite (scope_loop_same a b) by done.
    destruct Hab as (Hd & Hf & Hc & Hs & Hv & He & Ha). by rewrite He, Ha. }
  unfold get_keys_from_scope.
  destruct scope as [[s|l]|[s|l]]; try case_decide;
    auto using get_keys_named_same.
Qed.

(** X5.  [set_all_keys] starts anew from the five key lists: what an
    earlier call left in [all_keys], [keys_at_end] and [num_feat_keys]
    has no part in a later one, and the call repeated with its own
    arguments changes nothing. *)
Theorem set_all_keys_starts_anew self scope targets_key self' :
  set_all_keys SCOPES conv_to_list self scope targets_key = Ok self' →
  (∀ scope2 targets_key2,
     set_all_keys SCOPES conv_to_list self' scope2 targets_key2
     = set_all_keys SCOPES conv_to_list self scope2 targets_key2) ∧
  set_all_keys SCOPES conv_to_list self' scope targets_key = Ok self'.
Proof.
  intros Hset.
  assert (Hagain : ∀ scope2 targets_key2,
     set_all_keys SCOPES conv_to_list self' scope2 targets_key2
     = set_all_keys SCOPES conv_to_list self scope2 targets_key2).
  { intros scope2 t2.
    apply set_all_keys_Ok in Hset as (scoped & _ & ->).
    unfold set_all_keys. simpl.
    match goal with
    | |- context [get_keys_from_scope _ _ ?a scope2 ≫= _] =>
        match goal with
        | |- _ = (get_keys_from_scope _ _ ?b scope2 ≫= _) =>
            rewrite (get_keys_from_scope_same a b scope2) by done
        end
    end.
    done. }
  split; [done|]. by rewrite Hagain.
Qed.

(** *** Listed scopes *)

Lemma list_remove_other key keys x :
  x ≠ key → x ∈ keys → x ∈ list_remove key keys.
Proof.
  intros Hne. induction keys as [|k rest IH]; simpl; [done|].
  destruct (decide (k = key)) as [->|Hk].
  - intros [?|?]%elem_of_cons; [congruence|done].
  - intros [->|?]%elem_of_cons; apply elem_of_cons; auto.
Qed.

Lemma remove_keys_at_end_other at_end : ∀ keys x,
  x ∉ at_end → x ∈ keys → x ∈ remove_keys_at_end keys at_end.
Proof.
  unfold remove_keys_at_end.
  induction at_end as [|key rest IH]; intros keys x Hx Hin; simpl; [done|].
  apply not_elem_of_cons in Hx as [Hne Hx].
  apply IH; [done|]. by apply list_remove_other.
Qed.

Lemma from_names_cons self key rest k :
  from_names SCOPES self (key :: rest) k ↔
  (key ∈ SCOPES ∧ ∃ ks, get_keys_named self key = Ok ks ∧ k ∈ ks) ∨
  from_names SCOPES self rest k.
Proof.
  unfold from_names. split.
  - intros (name & ks & [->|Hin]%elem_of_cons & ? & ? & ?); eauto 10.
  - intros [(? & ks & ? & ?)|(name & ks & ? & ? & ? & ?)].
    + exists key, ks. split; [apply list_elem_of_here|done].
    + exists name, ks. split; [by apply list_elem_of_further|done].
Qed.

Lemma from_keys_cons ak key rest k :
  from_keys SCOPES ak (key :: rest) k ↔
  (k = key ∧ (key ∉ SCOPES) ∧ key ∈ ak) ∨ from_keys SCOPES ak rest k.
Proof.
  unfold from_keys. rewrite elem_of_cons. split.
  - intros ([->|?] & ? & ?); auto.
  - intros [(-> & ? & ?)|(? & ? & ?)]; auto.
Qed.

Lemma scope_loop_spec self ak :
  all_keys self = Some ak →
  ∀ scope keys0 rs0 keys rs,
    scope_loop SCOPES self scope keys0 rs0 = Ok (keys, rs) →
    rs = rs0 ++ filter (λ key, (key ∉ SCOPES) ∧ (key ∉ ak)) scope ∧
    ∀ k, k ∈ keys ↔
         k ∈ keys0 ∨ from_names SCOPES self scope k ∨
         from_keys SCOPES ak scope k.
Proof.
  intros Hak. induction scope as [|key rest IH]; intros keys0 rs0 keys rs;
    simpl.
  - intros [= <- <-]. rewrite app_nil_r. split; [done|]. intros k.
    split; [auto|]. unfold from_names, from_keys.
    intros [?|[(? & ? & []%elem_of_nil & _)|[[]%elem_of_nil _]]]. done.
  - rewrite Hak. simpl. rewrite filter_cons.
    destruct (decide (key ∈ SCOPES)) as [Hs|Hs].
    + destruct (get_keys_named self key) as [ks0|] eqn:Hks0; simpl; [|done].
      intros H. apply IH in H as [-> Hk].
      rewrite decide_False by tauto. split; [done|].
      intros k. rewrite Hk, elem_of_app, from_names_cons, from_keys_cons.
      assert (E : (∃ ks, get_keys_named self key = Ok ks ∧ k ∈ ks)
                  ↔ k ∈ ks0).
      { rewrite Hks0. split; [by intros (ks & [= <-] & ?)|eauto]. }
      rewrite E. tauto.
    + destruct (decide (key ∈ ak)) as [Ha|Ha].
      * intros H. apply IH in H as [-> Hk].
        rewrite decide_False by tauto. split; [done|].
        intros k. rewrite Hk, elem_of_app, list_elem_of_singleton,
          from_names_cons, from_keys_cons.
        intuition congruence.
      * intros H. apply IH in H as [-> Hk].
        rewrite decide_True by tauto. split; [by rewrite <- app_assoc|].
        intros k. rewrite Hk, from_names_cons, from_keys_cons.
        tauto.
Qed.

(** X6.  What a listed scope selects.  Each entry of the list is the name
    of a scope, a key of [all_keys], or else a stub.  The keys returned
    are, without repetition and without the strat and target keys, those of
    the named scopes, the keys listed, and, when there is a stub, the keys
    of [all_keys] in which every stub occurs: the stubs add keys that hold
    all of them, they do not narrow what the names and keys select. *)
Theorem listed_scope_keys self scope ak at_end keys :
  conv_to_list (PList scope) = scope →
  all_keys self = Some ak → keys_at_end self = Some at_end →
  get_keys_from_scope SCOPES conv_to_list self (ScopeRaw (PList scope))
  = Ok keys →
  let stubs := filter (λ key, (key ∉ SCOPES) ∧ (key ∉ ak)) scope in
  NoDup keys ∧
  ∀ k, k ∈ keys ↔
       (k ∉ at_end) ∧
       (from_names SCOPES self scope k ∨ from_keys SCOPES ak scope k ∨
        (stubs ≠ [] ∧ k ∈ ak ∧ ∀ r, r ∈ stubs → occurs_in r k)).
Proof.
  intros Hconv Hak Hend H stubs. unfold get_keys_from_scope in H.
  rewrite Hconv in H.
  unfold get_keys_listed in H. rewrite Hend, Hak in H.
  destruct (scope_loop SCOPES self scope [] []) as [[ks rs]|] eqn:Hloop;
    simpl in H; [|done].
  apply (scope_loop_spec self ak Hak) in Hloop as [-> Hks].
  simpl in H. fold stubs in H.
  set (sel := filter (λ a, forallb (λ r, str_in r a) stubs = true) ak) in H.
  assert (Hsel : ∀ k, k ∈ sel ↔ k ∈ ak ∧ ∀ r, r ∈ stubs → occurs_in r k).
  { intros k. unfold sel. rewrite list_elem_of_filter, forallb_forall.
    setoid_rewrite <- list_elem_of_In. setoid_rewrite str_in_occurs.
    tauto. }
  assert (Hfin : ∀ l, NoDup (remove_keys_at_end (list_of_set l) at_end) ∧
            ∀ k, k ∈ remove_keys_at_end (list_of_set l) at_end
                 ↔ (k ∉ at_end) ∧ k ∈ l).
  { intros l.
    destruct (remove_keys_at_end_spec at_end (list_of_set l)
                (NoDup_elements _)) as (Hnd & Hsub & Hout).
    split; [done|]. intros k. split.
    - intros Hk. split; [intros ?; by eapply Hout|].
      apply Hsub in Hk. unfold list_of_set in Hk.
      by apply elem_of_elements, elem_of_list_to_set in Hk.
    - intros [Hk Hl]. apply remove_keys_at_end_other; [done|].
      unfold list_of_set. by apply elem_of_elements, elem_of_list_to_set. }
  case_decide as Hrs; simpl in H; injection H as <-.
  - destruct (Hfin (ks ++ sel)) as [Hnd Hin]. split; [done|].
    intros k. rewrite Hin, elem_of_app, Hks, Hsel.
    assert (stubs ≠ []) by (destruct stubs; simpl in *; [lia|done]).
    split; [|intros [? [?|[?|(_ & ? & ?)]]]; auto].
    intros [? [[[]%elem_of_nil|[?|?]]|[? ?]]]; auto 10.
  - destruct (Hfin ks) as [Hnd Hin]. split; [done|].
    intros k. rewrite Hin, Hks.
    assert (stubs = []) by (destruct stubs; simpl in *; [done|lia]).
    split; [|intros [? [?|[?|(? & _)]]]; auto; done].
    intros [? [[]%elem_of_nil|[?|?]]]; auto.
Qed.
End ScopesIndices.

(** ** The engine: further runs *)

Section EngineRuns.
Context {model : Type} `{!Estimator model}.
Context {feat_imp search_cv group_vals : Type}.
Context {foreign : @Foreign model feat_imp}.
Variable self : @Config model search_cv group_vals.
#[local] Abbreviation State := (@State model feat_imp).
#[local] Abbreviation M := (@M model feat_imp).
#[local] Abbreviation steps := (@steps model feat_imp _).
#[local] Abbreviation no_importances := (@no_importances model feat_imp).
#[local] Abbreviation keeps := (@keeps model feat_imp _).
#[local] Abbreviation keeps_plain := (@keeps_plain model feat_imp _).
#[local] Abbreviation keeps_at := (@keeps_at model feat_imp).
#[local] Abbreviation rows_kept := (@rows_kept model feat_imp).

#[local] Instance keeps_preorder {A : Type} (f : State → A) :
  PreOrder (keeps f).
Proof.
  split; [by intros st|]. intros st1 st2 st3 H12 H23.
  unfold keeps, Model_Pipeline.keeps in *. congruence.
Qed.

Ltac frame_step :=
  lazymatch goal with
  | |- PreOrder _ => apply _
  | |- ∀ _, _ => intros ?
  | |- steps _ (mret _) => apply steps_ret
  | |- steps _ (lift _) => apply steps_lift
  | |- steps _ (raise _) => apply steps_raise
  | |- steps _ (gets _) => apply steps_gets
  | |- steps _ (read_df _) => apply steps_read_df
  | |- steps _ (read_arr _) => apply steps_read_arr
  | |- steps _ (modify _) =>
      apply steps_modify; intros ?; hnf; simpl;
      first [ done | by intros | by eauto ]
  | |- steps _ (try_except_AttributeError _) => apply steps_try
  | |- steps _ (for_range _ _) => apply steps_for_range
  | |- steps _ (mapM _ _) => apply steps_mapM
  | |- steps (rows_kept _) (assign _) =>
      apply steps_assign_rows;
      eauto using loc_assign_rows, loc_assign_scalar_rows,
                  loc_assign_array_rows
  | |- steps _ (alloc _) =>
      first [ solve [eauto] | by (intros ? ? ? [= _ <-]; hnf; simpl) ]
  | |- steps _ (write_arr _ _) => first [ solve [eauto] | unfold write_arr ]
  | |- steps _ (assign _) => unfold assign
  | |- steps _ get_classes => unfold get_classes
  | |- steps _ get_n_splits_ => unfold get_n_splits_
  | |- steps _ (call_on _ _) => unfold call_on
  | |- steps _ (call_on2 _ _ _) => unfold call_on2
  | |- steps _ (_ ≫= _) => apply steps_bind
  | |- steps _ (match ?x with _ => _ end) => destruct x
  | |- steps _ _ => solve [eauto]
  end.
Ltac solve_frame := repeat frame_step.

(** *** Frames of the methods that run before the scoring *)

Lemma Test_slices_keeps_Model data train_subjects test_subjects fold_ind :
  steps (keeps Model)
        (Test_slices self data train_subjects test_subjects fold_ind).
Proof. unfold Test_slices, _init_raw_preds_df. solve_frame. Qed.

Lemma get_X_y_keeps {A : Type} (f : State → A) data X_as_df copy :
  (∀ h st, f (set_store h st) = f st) →
  steps (keeps f) (_get_X_y self data X_as_df copy).
Proof.
  intros Hf. unfold _get_X_y.
  assert (∀ o, steps (keeps f) (alloc o))
    by (intros o ? ? ? [= _ <-]; apply Hf).
  solve_frame.
Qed.

Lemma get_final_model_keeps {A : Type} (f : State → A) train_data :
  steps (keeps f) (_get_final_model self train_data).
Proof.
  unfold _get_final_model, _get_search_cv, _get_score_metric. solve_frame.
Qed.

(** X7.  A pipeline without a parameter search builds no model.  The last
    statement of [_get_final_model] reads [weight_search_metric], which
    only the search branch assigns: [Test] raises [UnboundLocalError] as
    soon as the rows are taken, it never returns, [self.Model] is left as
    it was, and [Evaluate] returns only when there is no split to run. *)
Theorem no_search_no_model data (st : State) :
  is_search (base_model_pipeline self) = false →
  (∀ train_subjects test_subjects fold_ind train_data test_data s1,
     Test_slices self data train_subjects test_subjects fold_ind st
     = (Ok (train_data, test_data), s1) →
     Test self data train_subjects test_subjects fold_ind st
     = (Raise UnboundLocalError, s1)) ∧
  (∀ train_subjects test_subjects fold_ind r st',
     Test self data train_subjects test_subjects fold_ind st = (r, st') →
     (∃ e, r = Raise e) ∧ Model st' = Model st) ∧
  (∀ train_subjects splits n_repeats splits_vals
     all_train_scores all_scores df fis st',
     Evaluate self data train_subjects splits n_repeats splits_vals st
     = (Ok (all_train_scores, all_scores, df, fis), st') →
     all_train_scores = [] ∧ all_scores = []).
Proof.
  intros Hsearch.
  assert (HT : ∀ train_subjects test_subjects fold_ind (s0 : State) r st',
     Test self data train_subjects test_subjects fold_ind s0 = (r, st') →
     (∃ e, r = Raise e) ∧ Model st' = Model s0).
  { intros tr te fi s0 r st' H. unfold Test in H.
    apply bind_inv in H as [([td ted] & s1 & H1 & H)|(e & H1 & ->)].
    - rewrite (bind_Raise _ _ s1 UnboundLocalError s1) in H
        by (by apply get_final_model_without_search).
      injection H as <- <-. split; [eauto|].
      apply (Test_slices_keeps_Model _ _ _ _ _ _ _ H1).
    - split; [eauto|]. apply (Test_slices_keeps_Model _ _ _ _ _ _ _ H1). }
  split; [|split; [intros; by eapply HT|]].
  - intros tr te fi td ted s1 H. unfold Test.
    rewrite (bind_Ok _ _ _ _ _ H). cbv beta iota.
    apply bind_Raise. by apply get_final_model_without_search.
  - intros tr sp nr sv a b df fis st' H.
    apply Evaluate_Ok in H as (L & s1 & s2 & _ & H & _).
    destruct L as [|[tr' te'] rest]; simpl in H.
    + by injection H as <- <- _.
    + exfalso. apply bind_Ok_inv in H as (l & s3 & _ & H).
      apply bind_Ok_inv in H as ([] & s4 & _ & H).
      apply bind_Ok_inv in H as (n & s5 & _ & H).
      apply bind_Ok_inv in H as (q & s6 & _ & H).
      apply bind_Ok_inv in H as (r & s7 & H & _).
      by destruct (HT _ _ _ _ _ _ H) as [[e ?] _].
Qed.

(** X8.  A table without one of the keys of [self.all_keys] stops [Test] at
    its first step, [data[self.all_keys]], with [KeyError]; [self] is as
    before: no [raw_preds_df] is made, no model built. *)
Theorem missing_key_is_KeyError data train_subjects test_subjects fold_ind
        (st : State) df :
  store st !! data = Some (ODataFrame df) →
  ¬ Forall (λ k, k ∈ df_columns df) (all_keys self) →
  Test self data train_subjects test_subjects fold_ind st
  = (Raise KeyError, st).
Proof.
  intros Hdata Hkeys. unfold Test, Test_slices.
  unfold mbind at 1, M_bind. unfold mbind at 1, M_bind.
  unfold read_df. rewrite Hdata.
  unfold mbind at 1, M_bind. unfold lift, df_getitem_list.
  by rewrite decide_False.
Qed.

(** X9.  The [try] block of [_add_raw_preds] lets pass one exception only.
    When [predict_proba] raises [AttributeError], an estimator without
    class probabilities, nothing is recorded and the method goes on; any
    other exception of [predict_proba] leaves the method. *)
Theorem predict_proba_errors X_test subjects eval_type repeat (st : State)
        m Xa e :
  Model st = Some m → store st !! X_test = Some (ONdarray Xa) →
  predict_proba m Xa = Raise e →
  add_prob_preds X_test subjects eval_type repeat st
  = (match e with
     | AttributeError => Ok tt
     | _ => Raise e
     end, st).
Proof.
  intros Hm HX He.
  unfold add_prob_preds, try_except_AttributeError, call_on, read_arr, gets,
    lift, mbind, M_bind.
  rewrite Hm. simpl. rewrite HX, He. by destruct e.
Qed.


(** X10.  [_process_metrics] needs a metric.  With no metric name left to
    look up, [metrics[0]] raises [IndexError]; so does [__init__] once
    its call of [Data_Scopes.set_all_keys] has returned, and what that
    call raises [__init__] raises before it comes to the metrics: with a
    [Scopes] of helpers/Scopes.py, a [TypeError].  When
    [_process_metrics] returns, the metric returned is the first of the
    list, and the list holds, in order, what [get_metric] gave for each
    name. *)
Theorem process_metrics_first spec in_metrics :
  (proc_type_dep_str (conv_to_list in_metrics) (problem_type spec) = Ok [] →
   _process_metrics spec in_metrics = Raise IndexError ∧
   (in_metrics = metric spec →
    ∀ fobj (cv : @CV_obj search_cv group_vals) ds cts base h keys,
      Data_Scopes_set_all_keys ds spec = Ok keys →
      init fobj spec cv ds cts base h = Raise IndexError)) ∧
  (∀ fobj (cv : @CV_obj search_cv group_vals) ds cts base h,
     (∀ e, Data_Scopes_set_all_keys ds spec = Raise e →
           init fobj spec cv ds cts base h = Raise e) ∧
     ∀ s, init fobj spec cv (Scopes_as_Data_Scopes s) cts base h
          = Raise TypeError) ∧
  (∀ strs ms m,
     _process_metrics spec in_metrics = Ok (strs, ms, m) →
     proc_type_dep_str (conv_to_list in_metrics) (problem_type spec)
     = Ok strs ∧
     Forall2 (λ s metric, get_metric s = Ok metric) strs ms ∧
     ms !! 0 = Some m).
Proof.
  split; [|split].
  - intros Hempty.
    assert (H : _process_metrics spec in_metrics = Raise IndexError).
    { unfold _process_metrics. by rewrite Hempty. }
    split; [done|]. intros -> fobj cv ds cts base h keys Hkeys.
    unfold init. rewrite Hkeys. simpl. by rewrite H.
  - intros fobj cv ds cts base h. split; [|done].
    intros e He. unfold init. by rewrite He.
  - intros strs ms m. unfold _process_metrics.
    destruct (proc_type_dep_str _ _) as [strs'|]; simpl; [|done].
    destruct (mapM get_metric strs') as [ms'|] eqn:Hms; simpl; [|done].
    unfold py_index.
    destruct (ms' !! 0) as [m0|] eqn:Hm0; simpl; [|done].
    intros [= <- <- <-]. split; [done|].
    split; [by apply mapM_result_Forall2|done].
Qed.

(** X11.  The fold and the repeat in the column names of a fold of
    [Evaluate].  With [n_splits_] positive, the fold number lies between
    1 and [n_splits_], the fold index is recovered from the two numbers,
    and no other fold index gets the same two strings. *)
Theorem fold_tags_identify_fold (st : State) n i :
  n_splits_ st = Some n → (0 < n)%Z →
  let f := (i `mod` n + 1)%Z in
  let r := (i `div` n + 1)%Z in
  fold_and_repeat (FoldNum i) st = (Ok (pretty f, pretty r), st) ∧
  (1 ≤ f ≤ n)%Z ∧ i = ((r - 1) * n + (f - 1))%Z ∧
  ∀ j, fold_and_repeat (FoldNum j) st = fold_and_repeat (FoldNum i) st →
       j = i.
Proof.
  intros Hn Hpos f r.
  assert (Hrun : ∀ j, fold_and_repeat (FoldNum j) st
                      = (Ok (pretty (j `mod` n + 1)%Z,
                             pretty (j `div` n + 1)%Z), st)).
  { intros j. unfold fold_and_repeat.
    rewrite (bind_Ok _ _ st n st) by (by apply get_n_splits_Some).
    unfold lift, py_mod, py_floordiv, mbind, M_bind.
    by rewrite !decide_False by lia. }
  split; [apply Hrun|].
  pose proof (Z.mod_pos_bound i n Hpos).
  pose proof (Z.div_mod i n ltac:(lia)).
  split; [unfold f; lia|]. split; [unfold f, r; lia|].
  intros j. rewrite !Hrun. intros [= Hf Hr].
  apply (inj pretty) in Hf. apply (inj pretty) in Hr.
  pose proof (Z.div_mod j n ltac:(lia)). lia.
Qed.

(** *** What the runs of [Test] leave alone *)

#[local] Instance keeps_plain_preorder {A : Type} (f : State → A) :
  PreOrder (keeps_plain f).
Proof.
  split.
  - intros st ?. done.
  - intros st1 st2 st3 H12 H23 Hn.
    destruct (H12 Hn) as [Hn2 E2]. destruct (H23 Hn2) as [Hn3 E3].
    split; [done|]. congruence.
Qed.

Section Frame.
Context {A : Type} (f : State → A).
Hypothesis f_store : ∀ h st, f (set_store h st) = f st.
Hypothesis f_Model : ∀ m st, f (set_Model m st) = f st.
Hypothesis f_classes : ∀ c st, f (set_classes c st) = f st.
Hypothesis f_ledger : ∀ df st, f (set_raw_preds_df df st) = f st.

Ltac plain_step :=
  lazymatch goal with
  | |- PreOrder _ => apply _
  | |- ∀ _, _ => intros ?
  | |- steps _ (mret _) => apply steps_ret
  | |- steps _ (lift _) => apply steps_lift
  | |- steps _ (raise _) => apply steps_raise
  | |- steps _ (gets _) => apply steps_gets
  | |- steps _ (read_df _) => apply steps_read_df
  | |- steps _ (read_arr _) => apply steps_read_arr
  | |- steps _ (modify _) =>
      apply steps_modify; intros ? ?; split; [done|auto]
  | |- steps _ (try_except_AttributeError _) => apply steps_try
  | |- steps _ (for_range _ _) => apply steps_for_range
  | |- steps _ (mapM _ _) => apply steps_mapM
  | |- steps _ (alloc _) => intros ? ? ? [= _ <-] ?; split; [done|auto]
  | |- steps _ (write_arr _ _) => unfold write_arr
  | |- steps _ (assign _) => unfold assign
  | |- steps _ get_classes => unfold get_classes
  | |- steps _ get_n_splits_ => unfold get_n_splits_
  | |- steps _ (call_on _ _) => unfold call_on
  | |- steps _ (call_on2 _ _ _) => unfold call_on2
  | |- steps _ (_ ≫= _) => apply steps_bind
  | |- steps _ (match ?x with _ => _ end) => destruct x
  | |- steps _ _ => solve [eauto]
  end.
Ltac solve_plain := repeat plain_step.

Lemma proc_feat_importance_plain train_data test_data fold_ind :
  steps (keeps_plain f)
        (_proc_feat_importance train_data test_data fold_ind).
Proof.
  intros st r st' H Hn. rewrite proc_feat_importance_skip in H by done.
  by simplify_eq.
Qed.

Lemma get_scores_plain test_data eval_type fold_ind :
  steps (keeps_plain f) (_get_scores self test_data eval_type fold_ind).
Proof.
  unfold _get_scores, _get_X_y, _add_raw_preds, fold_and_repeat,
    set_fold_classes, add_prob_preds, add_point_preds, add_true_values.
  solve_plain.
Qed.

Lemma Test_fold_plain data train_subjects test_subjects i :
  steps (keeps_plain f)
        (Test self data train_subjects test_subjects (FoldNum i)).
Proof.
  unfold Test, Test_slices, _get_final_model, _get_search_cv,
    _get_score_metric, _train_model, _get_X_y.
  pose proof proc_feat_importance_plain. pose proof get_scores_plain.
  solve_plain.
Qed.

Lemma Test_prefix_plain data train_subjects test_subjects fold_ind
      (st s1 s2 s3 s4 : State) train_data test_data m :
  no_importances st →
  Test_slices self data train_subjects test_subjects fold_ind st
  = (Ok (train_data, test_data), s1) →
  _get_final_model self train_data s1 = (Ok m, s2) →
  _train_model self train_data (set_Model m s2) = (Ok tt, s3) →
  _proc_feat_importance train_data test_data fold_ind s3 = (Ok tt, s4) →
  no_importances s4 ∧ f s4 = f st.
Proof.
  intros Hn H1 H2 H3 H4.
  assert (Hs : steps (keeps_plain f)
                 (Test_slices self data train_subjects test_subjects
                              fold_ind)).
  { unfold Test_slices, _init_raw_preds_df. solve_plain. }
  assert (Hm : steps (keeps_plain f) (_get_final_model self train_data)).
  { unfold _get_final_model, _get_search_cv, _get_score_metric.
    solve_plain. }
  assert (Ht : steps (keeps_plain f) (_train_model self train_data)).
  { unfold _train_model, _get_X_y. solve_plain. }
  destruct (Hs _ _ _ H1 Hn) as [Hn1 E1].
  destruct (Hm _ _ _ H2 Hn1) as [Hn2 E2].
  destruct (Ht _ _ _ H3 Hn2) as [Hn3 E3].
  destruct (proc_feat_importance_plain _ _ _ _ _ _ H4 Hn3) as [Hn4 E4].
  split; [done|]. rewrite E4, E3, f_Model, E2, E1. done.
Qed.

End Frame.

(** *** The numbers of test subjects *)

Lemma get_n_splits_inv (st : State) r st' :
  get_n_splits_ st = (r, st') → st' = st.
Proof.
  unfold get_n_splits_, gets, mbind, M_bind.
  destruct (n_splits_ st); by intros [= _ <-].
Qed.

Lemma eval_loop_folds data splits : ∀ fold_ind a b (st : State) r st',
  no_importances st →
  eval_loop self data splits fold_ind a b st = (Ok r, st') →
  no_importances st' ∧
  n_test_per_fold st'
  = n_test_per_fold st ++ ((λ p, length p.2) <$> splits).
Proof.
  induction splits as [|[tr te] rest IH]; simpl;
    intros fold_ind a b st r st' Hn H.
  - injection H as _ <-. by rewrite app_nil_r.
  - apply bind_Ok_inv in H as (l & s1 & H1 & H).
    injection H1 as <- <-.
    apply bind_Ok_inv in H as ([] & s2 & H2 & H). injection H2 as <-.
    apply bind_Ok_inv in H as (n & s3 & H3 & H).
    apply get_n_splits_inv in H3 as ->.
    apply bind_Ok_inv in H as (q & s4 & H4 & H).
    apply lift_inv in H4 as [_ ->].
    apply bind_Ok_inv in H as (t & s5 & H5 & H).
    destruct (Test_fold_plain n_test_per_fold
                ltac:(done) ltac:(done) ltac:(done) ltac:(done)
                _ _ _ _ _ _ _ H5) as [Hn5 E5]; [done|].
    destruct t; [by injection H|].
    apply IH in H as [Hn' E]; [|done]. split; [done|].
    rewrite E, E5. simpl. by rewrite <- app_assoc.
Qed.

(** X12.  [Evaluate] records the size of every test split.  When it
    returns, [n_test_per_fold] holds one number per split the generator
    yielded, in their order: the number of test subjects of the split as
    yielded. *)
Theorem test_counts_recorded data train_subjects splits n_repeats
        splits_vals (st : State) all_train_scores all_scores df fis st' :
  no_importances st →
  Evaluate self data train_subjects splits n_repeats splits_vals st
  = (Ok (all_train_scores, all_scores, df, fis), st') →
  ∃ subject_splits,
    generated_splits self (_get_subjects_overlap self train_subjects)
                     splits n_repeats splits_vals = Ok subject_splits ∧
    n_test_per_fold st' = (λ p, length p.2) <$> subject_splits.
Proof.
  intros Hn H.
  apply Evaluate_Ok in H as (L & s1 & s2 & H1 & H2 & H3 & _).
  exists L. split; [by eapply get_eval_splits_Ok|].
  assert (Hn1 : no_importances s1).
  { assert (Hc : steps (keeps feat_importances)
                   (_get_eval_splits self
                      (_get_subjects_overlap self train_subjects)
                      splits n_repeats splits_vals)).
    { unfold _get_eval_splits. solve_frame. }
    unfold no_importances, Model_Pipeline.no_importances.
    by rewrite (Hc _ _ _ H1). }
  apply eval_loop_folds in H2 as [Hn2 E2]; [|done].
  rewrite set_final_locals_skip in H3 by done. by injection H3 as <-.
Qed.

(** *** A fold number without [n_splits_] *)

Lemma get_scores_needs_n_splits test_data eval_type i (st : State) v st' :
  _get_scores self test_data eval_type (FoldNum i) st = (Ok v, st') →
  ∃ n, n_splits_ st = Some n ∧ n ≠ 0%Z.
Proof.
  intros H.
  apply get_scores_Ok in H as (X & y & s1 & df & s2 & m & HXy & _ & H & _).
  rewrite <- (get_X_y_keeps n_splits_ _ _ _ ltac:(done) _ _ _ HXy).
  unfold _add_raw_preds in H.
  apply bind_Ok_inv in H as ([fold repeat] & s3 & H & _).
  apply fold_and_repeat_Ok in H as [_ (n & ? & ? & _)]. eauto.
Qed.

(** X13.  A fold number needs [n_splits_].  The fold and the repeat are
    computed from it: unset, as [__init__] leaves it, the computation
    raises [TypeError], and at 0 [ZeroDivisionError]; [Test] called with
    a fold number while [n_splits_] is unset never returns. *)
Theorem fold_number_needs_n_splits i (st : State) :
  (n_splits_ st = None →
   fold_and_repeat (FoldNum i) st = (Raise TypeError, st)) ∧
  (n_splits_ st = Some 0%Z →
   fold_and_repeat (FoldNum i) st = (Raise ZeroDivisionError, st)) ∧
  (n_splits_ st = None → no_importances st →
   ∀ data train_subjects test_subjects r st',
     Test self data train_subjects test_subjects (FoldNum i) st = (r, st') →
     ∃ e, r = Raise e).
Proof.
  split; [|split].
  - intros Hn. unfold fold_and_repeat, get_n_splits_, gets, mbind, M_bind.
    by rewrite Hn.
  - intros Hn. unfold fold_and_repeat.
    rewrite (bind_Ok _ _ st 0%Z st) by (by apply get_n_splits_Some).
    done.
  - intros Hnone Hn data tr te r st' H.
    destruct r as [r|e]; [exfalso|eauto].
    apply Test_Ok in H
      as (td & ted & s1 & m & s2 & s3 & s4 & s5 & ts & sc & H1 & H2 & H3
          & H4 & H5 & H6 & _).
    assert (no_importances s4 ∧ n_splits_ s4 = n_splits_ st) as [_ E4].
    { eapply (Test_prefix_plain n_splits_); try done; eassumption. }
    rewrite Hnone in E4.
    destruct (compute_train_score self).
    + destruct H5 as (v & H5 & _).
      apply get_scores_needs_n_splits in H5 as (n & ? & _). congruence.
    + destruct H5 as [-> _].
      apply get_scores_needs_n_splits in H6 as (n & ? & _). congruence.
Qed.

(** X14.  [Evaluate] on no split.  When the generator yields nothing,
    [Evaluate] returns two empty score lists and a [raw_preds_df] without
    a column, indexed by the restricted train subjects; no model is
    built and no object is made or changed. *)
Theorem evaluate_without_splits data train_subjects splits n_repeats
        splits_vals (st s1 : State) :
  no_importances st →
  _get_eval_splits self (_get_subjects_overlap self train_subjects)
    splits n_repeats splits_vals
    (set_raw_preds_df
       (Ledger_new (_get_subjects_overlap self train_subjects)) st)
  = (Ok [], s1) →
  ∃ st',
    Evaluate self data train_subjects splits n_repeats splits_vals st
    = (Ok ([], [],
           Ledger_new (_get_subjects_overlap self train_subjects), []),
       st') ∧
    Model st' = Model st ∧ store st' = store st ∧ n_test_per_fold st' = [].
Proof.
  intros Hn H1.
  assert (Hc : ∀ {A : Type} (f : State → A),
             (∀ n s, f (set_n_splits_ n s) = f s) →
             steps (keeps f)
               (_get_eval_splits self
                  (_get_subjects_overlap self train_subjects)
                  splits n_repeats splits_vals)).
  { intros A f Hf. unfold _get_eval_splits.
    assert (∀ n, steps (keeps f) (modify (set_n_splits_ n)))
      by (intros n ? ? ? [= _ <-]; apply Hf).
    solve_frame. }
  pose proof (Hc _ feat_importances ltac:(done) _ _ _ H1) as Hfi.
  pose proof (Hc _ raw_preds_df ltac:(done) _ _ _ H1) as Hld.
  pose proof (Hc _ Model ltac:(done) _ _ _ H1) as HM.
  pose proof (Hc _ store ltac:(done) _ _ _ H1) as Hst.
  unfold keeps, Model_Pipeline.keeps in *. simpl in *.
  exists (set_n_test_per_fold [] s1).
  split; [|done]. unfold Evaluate.
  rewrite (bind_Ok _ _ st tt
             (set_raw_preds_df
                (Ledger_new (_get_subjects_overlap self train_subjects))
                st)) by done.
  rewrite (bind_Ok _ _ _ _ _ H1).
  rewrite (bind_Ok _ _ s1 tt (set_n_test_per_fold [] s1)) by done.
  simpl.
  rewrite (bind_Ok _ _ (set_n_test_per_fold [] s1) ([], [])
             (set_n_test_per_fold [] s1)) by done.
  rewrite (bind_Ok _ _ _ tt (set_n_test_per_fold [] s1))
    by (apply set_final_locals_skip;
        unfold no_importances, Model_Pipeline.no_importances; simpl;
        by rewrite Hfi).
  unfold gets, lift, mbind, M_bind, mret, M_ret. simpl.
  rewrite Hld, Hfi. simpl. by rewrite Hn.
Qed.


(** *** What [raw_preds_df] holds after the scoring *)

#[local] Instance keeps_at_preorder l : PreOrder (keeps_at l).
Proof.
  split; [by intros st ?|]. intros st1 st2 st3 H12 H23 Hs.
  rewrite H23, H12; [done..|]. by rewrite H12.
Qed.

Lemma steps_alloc_at l o : steps (keeps_at l) (alloc o).
Proof.
  intros st r st' [= _ <-] Hs. simpl. apply lookup_insert_ne.
  intros Heq. apply (is_fresh (dom (store st))). rewrite Heq.
  by apply elem_of_dom.
Qed.

Lemma steps_write_arr_at l X a : X ≠ l → steps (keeps_at l) (write_arr X a).
Proof. intros Hne st r st' [= _ <-] Hs. simpl. by apply lookup_insert_ne. Qed.

Lemma set_cells_cons (c : gmap subject cell) s0 v0 cells :
  set_cells c ((s0, v0) :: cells) = set_cells (<[s0 := v0]> c) cells.
Proof. reflexivity. Qed.

Lemma set_cells_map (g : subject → cell) subjects :
  ∀ (c : gmap subject cell) s,
    s ∈ subjects →
    set_cells c (zip subjects (g <$> subjects)) !! s = Some (g s).
Proof.
  induction subjects as [|s0 rest IH]; intros c s Hs.
  - by apply elem_of_nil in Hs.
  - rewrite fmap_cons. simpl zip. rewrite set_cells_cons.
    destruct (decide (s ∈ rest)) as [Hin|Hout]; [by apply IH|].
    apply elem_of_cons in Hs as [->|Hs]; [|done].
    rewrite set_cells_other; [apply lookup_insert_eq|].
    rewrite fst_zip; [done|]. by rewrite length_fmap.
Qed.

Lemma set_cells_at subjects : ∀ values (c : gmap subject cell) i s v,
  NoDup subjects → length values = length subjects →
  subjects !! i = Some s → values !! i = Some v →
  set_cells c (zip subjects values) !! s = Some v.
Proof.
  induction subjects as [|s0 rest IH]; intros values c i s v Hnd Hlen Hs Hv;
    [done|].
  destruct values as [|v0 vs]; [done|]. simpl zip. rewrite set_cells_cons.
  apply NoDup_cons in Hnd as [Hs0 Hnd]. simpl in Hlen.
  destruct i as [|i]; simpl in Hs, Hv.
  - simplify_eq.
    rewrite set_cells_other; [apply lookup_insert_eq|].
    rewrite fst_zip; [done|]. lia.
  - eapply IH; eauto.
Qed.

Lemma loc_assign_map ld subjects col (g : subject → cell) ld' :
  loc_assign ld subjects col (g <$> subjects) = Ok ld' →
  ∀ s, s ∈ subjects → ld_at ld' col s = Some (g s).
Proof.
  unfold loc_assign. repeat case_decide; intros [= <-]; try done.
  intros s Hs. unfold ld_at. simpl. rewrite lookup_insert_eq. simpl.
  by apply set_cells_map.
Qed.

Lemma loc_assign_at ld subjects col values ld' i s v :
  NoDup subjects →
  loc_assign ld subjects col values = Ok ld' →
  subjects !! i = Some s → values !! i = Some v →
  ld_at ld' col s = Some v.
Proof.
  unfold loc_assign. intros Hnd.
  repeat case_decide; intros [= <-]; try done.
  intros Hs Hv. unfold ld_at. simpl. rewrite lookup_insert_eq. simpl.
  by eapply set_cells_at.
Qed.

Lemma loc_assign_other_col ld subjects col values ld' c s :
  loc_assign ld subjects col values = Ok ld' → c ≠ col →
  ld_at ld' c s = ld_at ld c s.
Proof.
  unfold loc_assign. repeat case_decide; intros [= <-]; try done.
  intros Hne. unfold ld_at. simpl. by rewrite lookup_insert_ne.
Qed.

Lemma assign_Ok (g : Ledger → result Ledger) (st : State) st' :
  assign g st = (Ok tt, st') →
  ∃ ld ld', raw_preds_df st = Some ld ∧ g ld = Ok ld' ∧
            st' = set_raw_preds_df ld' st.
Proof.
  unfold assign. intros H.
  apply bind_Ok_inv in H as (ld & s1 & H1 & H).
  apply getattr_inv in H1 as [Hld ->].
  apply bind_Ok_inv in H as (ld' & s2 & H2 & H).
  apply lift_inv in H2 as [Hg ->].
  apply modify_inv in H as [_ ->]. eauto.
Qed.

Lemma stdlib_map_lookup {A B : Type} (g : A → B) l i x :
  l !! i = Some x → map g l !! i = Some (g x).
Proof.
  revert i. induction l as [|a l IH]; intros [|i]; simpl; try done.
  - by intros [= ->].
  - apply IH.
Qed.

Lemma fmap_stdlib_map {A B C : Type} (g : A → B) (h : B → C) (l : list A) :
  h <$> map g l = (λ a, h (g a)) <$> l.
Proof.
  induction l as [|a l IH]; [done|]. simpl map. rewrite !fmap_cons.
  by f_equal.
Qed.

(** An integer of 53 bits is a float64. *)
Lemma float64_exact (z : Z) : (Z.abs z ≤ 2 ^ 53)%Z → float64 z = z.
Proof.
  intros Hz. unfold float64.
  destruct (decide (Z.abs z = 2 ^ 53)%Z) as [E|Hne].
  - destruct (Z.abs_eq_or_opp z) as [Hp|Hn].
    + rewrite Hp in E. subst z. vm_compute. reflexivity.
    + assert (z = (- 2 ^ 53)%Z) by lia. subst z. vm_compute. reflexivity.
  - rewrite decide_True; [done|].
    destruct (decide (Z.abs z = 0)%Z) as [->|H0]; [simpl; lia|].
    assert (Z.log2 (Z.abs z) < 53)%Z; [|lia].
    apply Z.log2_lt_pow2; lia.
Qed.

(** The columns of an array given by its rows. *)
Lemma column_of_target_rows (g : subject → string → Z) (idx : list subject)
      (l : list string) i t col :
  l !! i = Some t →
  column (map (λ s, map (g s) l) idx) i = Ok col →
  col = map (λ s, g s t) idx.
Proof.
  intros Ht. unfold column. revert col.
  induction idx as [|s rest IH]; intros col; simpl.
  - by intros [= <-].
  - assert (E : py_index (map (g s) l) i = Ok (g s t)).
    { unfold py_index. by rewrite (stdlib_map_lookup _ _ _ _ Ht). }
    rewrite E. simpl.
    destruct (mapM _ _) as [cs|] eqn:Hcs; simpl; [|done].
    intros [= <-]. f_equal. by apply IH.
Qed.

Lemma for_range_truth (g : subject → string → Z) (l : list string)
      subjects ld0 :
  ∀ n (st : State) st',
    raw_preds_df st = Some ld0 → n ≤ length l →
    for_range n (λ i,
      t ← lift (py_index l i);
      col ← lift (column (map (λ s, map (g s) l) subjects) i);
      assign (λ ld, loc_assign ld subjects t (CNum <$> col))) st
    = (Ok tt, st') →
    ∃ ld', raw_preds_df st' = Some ld' ∧
      ∀ i t s, i < n → l !! i = Some t → s ∈ subjects →
               ld_at ld' t s = Some (CNum (g s t)).
Proof.
  induction n as [|n IH]; intros st st' Hld0 Hn H; simpl in H.
  - injection H as <-. exists ld0. split; [done|]. intros; lia.
  - apply bind_Ok_inv in H as ([] & s1 & H1 & H).
    apply bind_Ok_inv in H as (t & s2 & H2 & H).
    apply lift_inv in H2 as [Ht ->].
    apply bind_Ok_inv in H as (col & s3 & H3 & H).
    apply lift_inv in H3 as [Hcol ->].
    apply assign_Ok in H as (ld & ld' & Hld & Ha & ->).
    unfold py_index in Ht.
    destruct (l !! n) as [t'|] eqn:Hln; [|done].
    injection Ht as Ht. subst t'. symmetry in Hcol.
    rewrite (column_of_target_rows g subjects l n t col Hln Hcol),
      fmap_stdlib_map in Ha.
    exists ld'. split; [done|]. intros i t0 s Hi Hli Hs.
    destruct (decide (t0 = t)) as [->|Hne].
    + by rewrite (loc_assign_map _ _ _ _ _ Ha s Hs).
    + rewrite (loc_assign_other_col _ _ _ _ _ _ s Ha Hne).
      assert (i < n).
      { destruct (decide (i = n)) as [->|]; [congruence|lia]. }
      apply IH in H1 as (ld1 & Hld1 & Hall); [|done|lia].
      rewrite Hld in Hld1. injection Hld1 as <-. eauto.
Qed.

(** What the copy of the true values leaves in [raw_preds_df]. *)
Lemma add_true_values_Ok y_test (st : State) st' df ya ld0 :
  store st !! y_test = Some (ONdarray ya) →
  df_target_array df (target (ps self)) = Ok ya →
  raw_preds_df st = Some ld0 →
  add_true_values self y_test (df_index df) st = (Ok tt, st') →
  ∃ ld', raw_preds_df st' = Some ld' ∧
    ∀ t s, t ∈ labels_of (target (ps self)) → s ∈ df_index df →
           ld_at ld' t s = Some (CNum (float_at df s t)).
Proof.
  intros Hy Hya Hld0 H. unfold add_true_values in H.
  apply bind_Ok_inv in H as (ya' & s1 & H1 & H).
  apply read_arr_inv in H1 as [Hy' ->]. simplify_eq.
  unfold df_target_array in Hya.
  destruct (target (ps self)) as [t|l] eqn:Htarget.
  - case_decide; [|done]. case_decide; [|done]. injection Hya as <-.
    apply assign_Ok in H as (ld & ld' & Hld & Ha & ->).
    exists ld'. split; [done|]. simpl. intros t0 s Ht0 Hs.
    apply list_elem_of_singleton in Ht0 as ->. simpl in Ha.
    rewrite fmap_stdlib_map in Ha.
    by rewrite (loc_assign_map _ _ _ _ _ Ha s Hs).
  - unfold df_getitem_list in Hya. case_decide; [|done]. simpl in Hya.
    unfold df_to_array in Hya. case_decide; [|done].
    injection Hya as <-. simpl in H.
    eapply (for_range_truth (float_at df)) in H as (ld' & Hld' & Hall);
      [|done..].
    exists ld'. split; [done|]. simpl. intros t s Ht Hs.
    apply list_elem_of_lookup in Ht as [i Hi].
    eapply Hall; eauto. by eapply lookup_lt_Some.
Qed.

Lemma add_point_preds_ledger X_test subjects eval_type repeat fold
      (st : State) st' :
  add_point_preds X_test subjects eval_type repeat fold st = (Ok tt, st') →
  is_Some (raw_preds_df st').
Proof.
  unfold add_point_preds. intros H.
  apply bind_Ok_inv in H as (m & s1 & _ & H).
  apply bind_Ok_inv in H as (raw & s2 & _ & H).
  apply bind_Ok_inv in H as ([] & s3 & _ & H).
  apply assign_Ok in H as (ld & ld' & _ & _ & ->). by eexists.
Qed.

#[local] Instance rows_kept_order subjects : PreOrder (rows_kept subjects).
Proof. apply rows_kept_preorder. Qed.

Lemma add_raw_preds_rows subjects X_test y_test eval_type fold_ind :
  steps (rows_kept subjects)
        (_add_raw_preds self X_test y_test subjects eval_type fold_ind).
Proof.
  unfold _add_raw_preds, fold_and_repeat, set_fold_classes, add_prob_preds,
    add_point_preds, add_true_values.
  pose proof (steps_write_arr_rows (model:=model) (feat_imp:=feat_imp)
                subjects).
  solve_frame.
Qed.

(** What a returning [_get_scores] leaves in [raw_preds_df]: the true
    values of the rows scored, and the other rows as they were. *)
Lemma get_scores_ledger test_data eval_type fold_ind (st : State) v st' df :
  store st !! test_data = Some (ODataFrame df) →
  _get_scores self test_data eval_type fold_ind st = (Ok v, st') →
  ∃ ld', raw_preds_df st' = Some ld' ∧
    (∀ t s, t ∈ labels_of (target (ps self)) → s ∈ df_index df →
            ld_at ld' t s = Some (CNum (float_at df s t))) ∧
    (∀ ld, raw_preds_df st = Some ld →
           ∀ s c, s ∉ df_index df → ld_at ld' c s = ld_at ld c s).
Proof.
  intros Hdata H.
  apply get_scores_Ok in H
    as (X & y & s1 & df' & s2 & m & HXy & Hdf' & Hadd & Hm & Hmap).
  assert (Hkeep : steps (keeps_at test_data)
                    (_get_X_y self test_data false false)).
  { unfold _get_X_y. pose proof (steps_alloc_at test_data). solve_frame. }
  rewrite (Hkeep _ _ _ HXy), Hdata in Hdf' by done.
  injection Hdf' as <-.
  assert (Hledger1 : raw_preds_df s1 = raw_preds_df st).
  { by apply (get_X_y_keeps raw_preds_df _ _ _ ltac:(done) _ _ _ HXy). }
  apply get_X_y_Ok in HXy
    as (df0 & Xdf & ya & Hdata0 & _ & Hya & _ & _ & HXy & _ & Hy).
  rewrite Hdata in Hdata0. injection Hdata0 as <-.
  pose proof Hadd as Hrows.
  apply add_raw_preds_rows in Hrows.
  unfold _add_raw_preds in Hadd.
  apply bind_Ok_inv in Hadd as ([fold repeat] & s3 & H3 & Hadd).
  apply fold_and_repeat_Ok in H3 as [-> _].
  apply bind_Ok_inv in Hadd as ([] & s4 & H4 & Hadd).
  apply set_fold_classes_Ok in H4 as (_ & _ & Hst4 & _).
  apply bind_Ok_inv in Hadd as ([] & s5 & H5 & Hadd).
  apply bind_Ok_inv in Hadd as ([] & s6 & H6 & Hadd).
  assert (Hy6 : store s6 !! y = Some (ONdarray ya)).
  { assert (Hs4 : store s4 !! y = Some (ONdarray ya)) by (by rewrite Hst4).
    pose proof (steps_write_arr_at y X) as Hw.
    assert (Hc5 : steps (keeps_at y)
                    (add_prob_preds X (df_index df) eval_type repeat)).
    { unfold add_prob_preds. solve_frame. }
    assert (Hc6 : steps (keeps_at y)
                    (add_point_preds X (df_index df) eval_type repeat fold)).
    { unfold add_point_preds. solve_frame. }
    rewrite (Hc6 _ _ _ H6), (Hc5 _ _ _ H5); [done|by rewrite Hs4|].
    rewrite (Hc5 _ _ _ H5); by rewrite Hs4. }
  destruct (add_point_preds_ledger _ _ _ _ _ _ _ H6) as [ld6 Hld6].
  destruct (add_true_values_Ok _ _ _ _ _ _ Hy6 Hya Hld6 Hadd)
    as (ld' & Hld' & Htruth).
  assert (Hc : steps (keeps raw_preds_df)
                 (mapM (λ metric : scorer, call_on2 X y (metric m))
                       (metrics self))).
  { solve_frame. }
  apply Hc in Hmap. unfold keeps, Model_Pipeline.keeps in Hmap.
  exists ld'. split; [congruence|]. split; [done|].
  intros ld Hld s c Hs.
  destruct (Hrows ld) as (ld2 & Hld2 & E); [congruence|].
  rewrite Hld' in Hld2. injection Hld2 as <-. by apply E.
Qed.


Lemma Test_prefix_object l (s1 s2 s3 s4 : State) train_data test_data m
      fold_ind :
  no_importances s1 → is_Some (store s1 !! l) →
  _get_final_model self train_data s1 = (Ok m, s2) →
  _train_model self train_data (set_Model m s2) = (Ok tt, s3) →
  _proc_feat_importance train_data test_data fold_ind s3 = (Ok tt, s4) →
  no_importances s4 ∧ store s4 !! l = store s1 !! l.
Proof.
  intros Hn1 Hs1 H2 H3 H4.
  destruct (get_final_model_object self l _ _ _ _ H2 Hn1 Hs1) as [Hn2 E2].
  destruct (train_model_object self l _ _ _ _ H3) as [Hn3 E3];
    [done|simpl; by rewrite E2|]. simpl in E3.
  destruct (proc_feat_importance_object l _ _ _ _ _ _ H4 Hn3) as [Hn4 E4];
    [by rewrite E3, E2|].
  split; [done|]. by rewrite E4, E3, E2.
Qed.

(** X15.  The true values in [raw_preds_df].  When [Test] returns, the
    column of each target key holds, for every restricted test subject,
    the value the data table has for that subject and key as a float,
    which is the value itself up to 2^53 and the nearest float64 beyond;
    with the train side scored, the same holds for every restricted
    train subject. *)
Theorem true_values_recorded data train_subjects test_subjects fold_ind
        (st : State) r st' df :
  no_importances st → store st !! data = Some (ODataFrame df) →
  Test self data train_subjects test_subjects fold_ind st = (Ok r, st') →
  ∃ ld,
    raw_preds_df st' = Some ld ∧
    (∀ t s, t ∈ labels_of (target (ps self)) →
            s ∈ _get_subjects_overlap self test_subjects →
            ld_at ld t s = Some (CNum (float64 (df_at df s t))) ∧
            ((Z.abs (df_at df s t) ≤ 2 ^ 53)%Z →
             ld_at ld t s = Some (CNum (df_at df s t)))) ∧
    (compute_train_score self = true →
     ∀ t s, t ∈ labels_of (target (ps self)) →
            s ∈ _get_subjects_overlap self train_subjects →
            ld_at ld t s = Some (CNum (float64 (df_at df s t))) ∧
            ((Z.abs (df_at df s t) ≤ 2 ^ 53)%Z →
             ld_at ld t s = Some (CNum (df_at df s t)))) ∧
    (fold_ind = FoldTest → ∃ train_scores scores fis,
       r = TestFinal train_scores scores ld fis).
Proof.
  intros Hn Hdata H.
  apply Test_Ok in H
    as (td & ted & s1 & m & s2 & s3 & s4 & s5 & ts & sc & H1 & H2 & H3
        & H4 & H5 & H6 & Hr).
  apply Test_slices_Ok in H1
    as (df0 & Hdata0 & _ & Htd & Hted & _ & _ & Hfi & _).
  rewrite Hdata in Hdata0. injection Hdata0 as <-.
  assert (Hn1 : no_importances s1).
  { unfold no_importances, Model_Pipeline.no_importances. by rewrite Hfi. }
  destruct (Test_prefix_object td s1 s2 s3 s4 td ted m fold_ind)
    as [Hn4 Etd]; [done|by rewrite Htd|done..|].
  destruct (Test_prefix_object ted s1 s2 s3 s4 td ted m fold_ind)
    as [_ Eted]; [done|by rewrite Hted|done..|].
  rewrite Htd in Etd. rewrite Hted in Eted.
  assert (Hlast : ∀ (ld : Ledger),
    raw_preds_df st' = Some ld →
    match fold_ind with
    | FoldNum _ => True
    | FoldTest => ∃ train_scores scores fis,
                    r = TestFinal train_scores scores ld fis
    end).
  { intros ld Hld. destruct fold_ind; [done|].
    destruct Hr as (ld' & Hld' & ->). rewrite Hld in Hld'.
    injection Hld' as <-. eauto. }
  assert (Hfl : ∀ (ld : Ledger) t s,
    ld_at ld t s = Some (CNum (float_at df s t)) →
    ld_at ld t s = Some (CNum (float64 (df_at df s t))) ∧
    ((Z.abs (df_at df s t) ≤ 2 ^ 53)%Z →
     ld_at ld t s = Some (CNum (df_at df s t)))).
  { intros ld t s E. split; [exact E|]. intros Hz.
    rewrite E. unfold float_at. by rewrite float64_exact. }
  destruct (compute_train_score self) eqn:Hcts.
  - destruct H5 as (v & H5 & _).
    destruct (get_scores_ledger _ _ _ _ _ _ _ Etd H5)
      as (ld5 & Hld5 & Htruth5 & _). simpl in Htruth5.
    destruct (get_scores_object self ted _ _ _ _ _ _ H5 Hn4) as [_ Eted5];
      [by rewrite Eted|].
    rewrite Eted in Eted5.
    destruct (get_scores_ledger _ _ _ _ _ _ _ Eted5 H6)
      as (ld & Hld & Htruth & Hrows). simpl in Htruth, Hrows.
    exists ld. split; [done|]. split; [|split].
    + intros t s Ht Hs. by apply Hfl, Htruth.
    + intros _ t s Ht Hs. apply Hfl.
      destruct (decide (s ∈ _get_subjects_overlap self test_subjects)).
      * by apply Htruth.
      * rewrite (Hrows ld5 Hld5) by done. by apply Htruth5.
    + intros ->. by apply Hlast.
  - destruct H5 as [-> _].
    destruct (get_scores_ledger _ _ _ _ _ _ _ Eted H6)
      as (ld & Hld & Htruth & _). simpl in Htruth.
    exists ld. split; [done|]. split; [|split; [done|]].
    + intros t s Ht Hs. by apply Hfl, Htruth.
    + intros ->. by apply Hlast.
Qed.


(** *** The predictions in [raw_preds_df] *)

Lemma call_on_Ok {R : Type} X (g : ndarray → result (R * ndarray))
      (st : State) r st' :
  call_on X g st = (Ok r, st') →
  ∃ Xa Xa', store st !! X = Some (ONdarray Xa) ∧ g Xa = Ok (r, Xa') ∧
            st' = set_store (<[X := ONdarray Xa']> (store st)) st.
Proof.
  unfold call_on. intros H.
  apply bind_Ok_inv in H as (Xa & s1 & H1 & H).
  apply read_arr_inv in H1 as [HX ->].
  apply bind_Ok_inv in H as ([r' Xa'] & s2 & H2 & H).
  apply lift_inv in H2 as [Hg ->].
  apply bind_Ok_inv in H as ([] & s3 & H3 & H).
  apply modify_inv in H3 as [_ ->].
  apply ret_inv in H as [? ->]. simplify_eq. eauto.
Qed.

(** X16.  The point predictions in [raw_preds_df].  When [predict] returns
    a 1-D array of one prediction per subject of the call, the subjects
    being distinct labels of the index of [raw_preds_df], which names no
    row twice, the recording returns and the column
    [<eval_type><repeat>] holds, for the subject at each place, the
    prediction at that place; the fold tag written after it goes to
    another column. *)
Theorem predictions_recorded X_test subjects eval_type repeat fold
        (st : State) m Xa Xa' v ld :
  Model st = Some m → store st !! X_test = Some (ONdarray Xa) →
  predict m Xa = Ok (Arr1 v, Xa') → NoDup subjects →
  length v = length subjects →
  raw_preds_df st = Some ld → NoDup (ld_index ld) →
  Forall (λ s, s ∈ ld_index ld) subjects →
  ∃ st' ld',
    add_point_preds X_test subjects eval_type repeat fold st = (Ok tt, st') ∧
    raw_preds_df st' = Some ld' ∧
    ∀ i s z, subjects !! i = Some s → v !! i = Some z →
             ld_at ld' (eval_type +:+ repeat) s = Some (CNum z).
Proof.
  intros Hm HX Hp Hnd Hlen Hld _ Hin.
  destruct (loc_assign ld subjects (eval_type +:+ repeat) (CNum <$> v))
    as [ld1|] eqn:Ha; cycle 1.
  { unfold loc_assign in Ha. rewrite decide_True in Ha by done.
    by rewrite decide_True in Ha by (by rewrite length_fmap). }
  destruct (loc_assign_scalar ld1 subjects
              ((eval_type +:+ repeat) +:+ "_fold") (CStr fold))
    as [ld2|] eqn:Hf; cycle 1.
  { unfold loc_assign_scalar, loc_assign in Hf.
    rewrite (loc_assign_index _ _ _ _ _ Ha) in Hf.
    rewrite decide_True in Hf by done.
    by rewrite decide_True in Hf by apply length_replicate. }
  exists (set_raw_preds_df ld2
            (set_store (<[X_test := ONdarray Xa']> (store st)) st)), ld2.
  split; [|split; [done|]].
  - unfold add_point_preds, assign, call_on, read_arr, write_arr, gets,
      lift, modify, mbind, M_bind, mret, M_ret.
    rewrite Hm. simpl. rewrite HX, Hp. simpl. rewrite Hld. simpl.
    rewrite Ha. simpl. by rewrite Hf.
  - intros i s z Hs Hz.
    rewrite (loc_assign_other_col _ _ _ _ _ _ s Hf).
    + eapply loc_assign_at; eauto. by rewrite list_lookup_fmap, Hz.
    + intros Heq. apply (f_equal String.length) in Heq.
      rewrite !string_app_length in Heq. simpl in Heq. lia.
Qed.

(** *** What the estimator is fitted on *)

Lemma train_model_Ok train_data (st : State) st' :
  _train_model self train_data st = (Ok tt, st') →
  ∃ df Xdf Xa ya m m' Xa' ya',
    store st !! train_data = Some (ODataFrame df) ∧
    df_drop df (labels_of (target (ps self))) = Ok Xdf ∧
    df_to_array Xdf = Ok Xa ∧
    df_target_array df (target (ps self)) = Ok ya ∧
    Model st = Some m ∧
    fit m Xa ya = Ok (m', Xa', ya') ∧
    Model st' = Some m'.
Proof.
  unfold _train_model. intros H.
  apply bind_Ok_inv in H as ([X y] & s1 & HXy & H).
  pose proof (get_X_y_keeps Model _ _ _ ltac:(done) _ _ _ HXy) as HM.
  apply get_X_y_Ok in HXy
    as (df & Xdf & ya & Hdata & Hdrop & Hya & _ & _ & _ & (Xo & HXo & HX)
        & Hy).
  destruct (df_to_array Xdf) as [Xa0|] eqn:HXa; [|done].
  simpl in HXo. injection HXo as <-.
  apply bind_Ok_inv in H as (m & s2 & Hm & H).
  apply getattr_inv in Hm as [Hm ->].
  apply bind_Ok_inv in H as (m' & s3 & Hfit & H).
  apply call_on2_Ok in Hfit as (Xa & ya0 & Xa' & ya' & HX' & Hy' & Hfit).
  rewrite HX in HX'. injection HX' as <-.
  rewrite Hy in Hy'. injection Hy' as <-.
  apply modify_inv in H as [_ ->].
  exists df, Xdf, Xa0, ya, m, m', Xa', ya'. rewrite <- HM. done.
Qed.

(** X17.  What the estimator is fitted on.  When [Test] returns, [fit] has
    returned for the estimator that [_get_final_model] built, on the
    rows of the data table of the restricted train subjects, in their
    order, with the columns of [self.all_keys] that are no target key,
    in their order, and on the target values of the same rows, all as
    floats: no target column is among the features and no row of
    another subject is used. *)
Theorem fit_sees_train_rows data train_subjects test_subjects fold_ind
        (st : State) r st' df :
  store st !! data = Some (ODataFrame df) →
  Test self data train_subjects test_subjects fold_ind st = (Ok r, st') →
  let rows := _get_subjects_overlap self train_subjects in
  let feats := filter (λ k, k ∉ labels_of (target (ps self)))
                      (all_keys self) in
  ∃ train_data st1 st2 m0 ya m1 Xa' ya',
    _get_final_model self train_data st1 = (Ok m0, st2) ∧
    df_target_array (mkDataFrame rows (all_keys self) (df_at df))
                    (target (ps self)) = Ok ya ∧
    fit m0 (Arr2 (map (λ s, map (λ k, float64 (df_at df s k)) feats)
                      rows)) ya
    = Ok (m1, Xa', ya').
Proof.
  intros Hdata H rows feats.
  apply Test_Ok in H
    as (td & ted & s1 & m & s2 & s3 & s4 & s5 & ts & sc & H1 & H2 & H3 & _).
  apply Test_slices_Ok in H1 as (df0 & Hdata0 & _ & Htd & _).
  rewrite Hdata in Hdata0. injection Hdata0 as <-.
  assert (Hkeep : steps (keeps_at td) (_get_final_model self td)).
  { unfold _get_final_model, _get_search_cv, _get_score_metric.
    solve_frame. }
  pose proof (Hkeep _ _ _ H2 ltac:(by rewrite Htd)) as E2.
  rewrite Htd in E2.
  apply train_model_Ok in H3
    as (df3 & Xdf & Xa & ya & m0 & m1 & Xa' & ya' & Htd3 & Hdrop & HXa
        & Hya & Hm0 & Hfit & _).
  simpl in Htd3, Hm0. injection Hm0 as <-.
  rewrite E2 in Htd3. injection Htd3 as <-.
  exists td, s1, s2, m, ya, m1, Xa', ya'. split; [done|]. split; [done|].
  unfold df_drop in Hdrop. case_decide; [|done]. injection Hdrop as <-.
  unfold df_to_array in HXa. case_decide; [|done]. injection HXa as <-.
  exact Hfit.
Qed.


(** *** More probability columns than classes *)

Lemma column_total (rows : list (list Z)) k :
  Forall (λ row, k < length row) rows →
  ∃ col, column rows k = Ok col ∧ length col = length rows.
Proof.
  unfold column. induction 1 as [|row rows Hrow Hrows (col & IH & Hlen)].
  - by exists [].
  - destruct (lookup_lt_is_Some_2 row k Hrow) as [z Hz].
    assert (E : py_index row k = Ok z) by (unfold py_index; by rewrite Hz).
    exists (z :: col). simpl. rewrite E. simpl.
    rewrite IH. simpl. by rewrite Hlen.
Qed.

Section ProbaLoop.
Variables (subjects : list subject) (pred_col : string).
Variables (rows : list (list Z)) (u : list Z) (idx : list subject).
Hypothesis subjects_in : Forall (λ s, s ∈ idx) subjects.
Hypothesis rows_len : length rows = length subjects.
Hypothesis rows_rect : Forall (λ row, length row = ncols rows) rows.

(** The body of the loop over the columns of a 2-D [raw_prob_preds]. *)
Let body (i : nat) : M unit :=
  cs ← get_classes;
  label ← lift (label_str cs i);
  let p_col := pred_col +:+ "_class_" +:+ label in
  class_preds ← lift (column rows i);
  assign (λ df, loc_assign df subjects p_col (CNum <$> class_preds)).

Let Inv (s : State) : Prop :=
  classes s = Some (FloatLabels u) ∧
  ∃ ld, raw_preds_df s = Some ld ∧ ld_index ld = idx.

Lemma proba_body_Ok k s :
  k < length u → k < ncols rows → Inv s →
  ∃ s', body k s = (Ok tt, s') ∧ Inv s'.
Proof.
  intros Hk Hc (Hcs & ld & Hld & Hidx).
  destruct (lookup_lt_is_Some_2 u k Hk) as [z Hz].
  destruct (column_total rows k) as (col & Hcol & Hlen).
  { eapply Forall_impl; [exact rows_rect|]. simpl. intros; lia. }
  unfold body, get_classes, assign, gets, lift, modify, mbind, M_bind.
  rewrite Hcs. simpl. unfold py_index. rewrite Hz. simpl.
  rewrite Hcol, Hld. simpl. unfold loc_assign.
  rewrite decide_True by (by rewrite Hidx).
  rewrite decide_True by (rewrite length_fmap; lia).
  eexists. split; [done|]. split; [done|]. simpl. eauto.
Qed.

Lemma proba_body_Raise s :
  Inv s → body (length u) s = (Raise IndexError, s).
Proof.
  intros (Hcs & _).
  unfold body, get_classes, gets, lift, mbind, M_bind.
  rewrite Hcs. simpl. unfold py_index.
  by rewrite lookup_ge_None_2.
Qed.

Lemma proba_loop_Ok k : ∀ s,
  k ≤ length u → k ≤ ncols rows → Inv s →
  ∃ s', for_range k body s = (Ok tt, s') ∧ Inv s'.
Proof.
  induction k as [|k IH]; intros s Hk Hc Hinv; simpl.
  - by exists s.
  - destruct (IH s) as (s1 & H1 & Hinv1); [lia..|done|].
    destruct (proba_body_Ok k s1) as (s2 & H2 & Hinv2); [lia..|done|].
    exists s2. by rewrite (bind_Ok _ _ _ _ _ H1).
Qed.

Lemma proba_loop_Raise n : ∀ s,
  length u < n → n ≤ ncols rows → Inv s →
  ∃ s', for_range n body s = (Raise IndexError, s').
Proof.
  induction n as [|n IH]; intros s Hn Hc Hinv; [lia|]. simpl.
  destruct (decide (n = length u)) as [->|Hne].
  - destruct (proba_loop_Ok (length u) s) as (s1 & H1 & Hinv1);
      [lia..|done|].
    exists s1. rewrite (bind_Ok _ _ _ _ _ H1).
    by apply proba_body_Raise.
  - destruct (IH s) as (s1 & H1); [lia..|done|].
    exists s1. by apply bind_Raise.
Qed.
End ProbaLoop.

(** X18.  More probability columns than classes.  [self.classes] is what
    [np.unique] finds in the target of the rows scored.  When it finds
    two or more classes and [predict_proba] returns more columns than
    that, as for a fold that lacks one class of a problem with three or
    more, naming the column past the last class raises [IndexError]; the
    [try] block does not catch it and [_add_raw_preds] raises it. *)
Theorem proba_columns_beyond_classes X_test y_test subjects eval_type
        fold_ind (st : State) m Xa Xa' ya rows ld :
  Model st = Some m → raw_preds_df st = Some ld →
  (fold_ind = FoldTest ∨ ∃ n, n_splits_ st = Some n ∧ n ≠ 0%Z) →
  store st !! X_test = Some (ONdarray Xa) →
  store st !! y_test = Some (ONdarray ya) →
  predict_proba m Xa = Ok (Arr2 rows, Xa') →
  length (np_unique ya) ≠ 1 → length (np_unique ya) < ncols rows →
  Forall (λ s, s ∈ ld_index ld) subjects →
  length rows = length subjects →
  Forall (λ row, length row = ncols rows) rows →
  ∃ st', _add_raw_preds self X_test y_test subjects eval_type fold_ind st
         = (Raise IndexError, st').
Proof.
  intros Hm Hld Hfold HX Hy Hp Hne Hlt Hin Hlen Hrect.
  assert (Hfr : ∃ fold repeat,
            fold_and_repeat fold_ind st = (Ok (fold, repeat), st)).
  { destruct Hfold as [->|(n & Hn & Hn0)]; [by eexists _, _|].
    destruct fold_ind as [i|]; [|by eexists _, _].
    eexists _, _. unfold fold_and_repeat.
    rewrite (bind_Ok _ _ st n st) by (by apply get_n_splits_Some).
    unfold lift, py_mod, py_floordiv, mbind, M_bind.
    by rewrite !decide_False by done. }
  destruct Hfr as (fold & repeat & Hfr).
  set (s2 := set_classes (FloatLabels (np_unique ya)) st).
  assert (H2 : set_fold_classes y_test st = (Ok tt, s2)).
  { unfold set_fold_classes, read_arr, get_classes, gets, lift, modify,
      mbind, M_bind.
    rewrite Hy. simpl. by rewrite decide_False. }
  set (s3 := set_store (<[X_test := ONdarray Xa']> (store s2)) s2).
  destruct (proba_loop_Raise subjects (eval_type +:+ repeat +:+ "_prob")
              rows (np_unique ya) (ld_index ld) Hin Hlen Hrect
              (ncols rows) s3) as (s4 & H4); [done|done| |].
  { split; [done|]. exists ld. done. }
  exists s4. unfold _add_raw_preds.
  rewrite (bind_Ok _ _ _ _ _ Hfr). cbv beta iota.
  rewrite (bind_Ok _ _ _ _ _ H2).
  apply bind_Raise. unfold add_prob_preds, try_except_AttributeError.
  rewrite (bind_Ok _ _ s2 m s2)
    by (unfold gets, lift, mbind, M_bind; simpl; by rewrite Hm).
  rewrite (bind_Ok _ _ s2 (Arr2 rows) s3).
  - simpl in H4. by rewrite H4.
  - unfold call_on, read_arr, lift, write_arr, modify, mbind, M_bind.
    simpl. by rewrite HX, Hp.
Qed.

End EngineRuns.

(** ** Data_Helpers: properties *)

Section DataHelpersFacts.
Import Data_Helpers.

Lemma proc_args_single {A B : Type} (args : one_or_list A)
      (data_types : list B) a :
  match args with One a => [a] | Many l => l end = [a] →
  proc_args args data_types = Returns (replicate (length data_types) a).
Proof.
  intros Hl. unfold proc_args. rewrite Hl.
  assert (Hrep : ∀ n s, map (λ _, a) (seq s n) = replicate n a).
  { induction n as [|k IH]; intros s; simpl; [done|]. by rewrite IH. }
  rewrite Hrep, decide_False; [done|]. rewrite length_replicate. lia.
Qed.

Lemma proc_args_list {A B : Type} (args : one_or_list A)
      (data_types : list B) :
  let l := match args with One a => [a] | Many l => l end in
  length l ≠ 1 →
  proc_args args data_types
  = if decide (length l ≠ length data_types) then Raises RuntimeError
    else Returns l.
Proof.
  intros l Hl. unfold proc_args. fold l.
  by destruct l as [|a [|b l']].
Qed.

(** X19.  The arguments per column.  One argument, given alone or as a
    list of one, is repeated for every data type; a longer list is
    returned as it is when it has one argument per data type and is a
    [RuntimeError] otherwise; so is the empty list, unless there is no
    data type.  What is returned has one argument per data type, and
    passing it again returns it. *)
Theorem proc_args_per_column {A B : Type} (args : one_or_list A)
        (data_types : list B) :
  let n := length data_types in
  let l := match args with One a => [a] | Many l => l end in
  (∀ a, l = [a] → proc_args args data_types = Returns (replicate n a)) ∧
  (length l ≠ 1 → length l = n → proc_args args data_types = Returns l) ∧
  (length l ≠ 1 → length l ≠ n →
   proc_args args data_types = Raises RuntimeError) ∧
  (∀ r, proc_args args data_types = Returns r →
        length r = n ∧ proc_args (Many r) data_types = Returns r).
Proof.
  intros n l. split; [apply proc_args_single|]. split; [|split].
  - intros H1 Hn. rewrite proc_args_list by done.
    by rewrite decide_False by (fold l; lia).
  - intros H1 Hn. rewrite proc_args_list by done. by rewrite decide_True.
  - intros r Hr.
    assert (Hlen : length r = n).
    { destruct (decide (length l = 1)) as [H1|H1].
      - destruct l as [|a [|b l']] eqn:El; try done.
        rewrite (proc_args_single _ _ a El) in Hr. injection Hr as <-.
        apply length_replicate.
      - rewrite proc_args_list in Hr by done. fold l in Hr.
        case_decide; [done|]. injection Hr as <-. lia. }
    split; [done|].
    destruct (decide (length r = 1)) as [H1|H1].
    + destruct r as [|a [|b r']]; try done.
      rewrite (proc_args_single (Many [a]) _ a eq_refl).
      fold n. by rewrite <- Hlen.
    + rewrite proc_args_list by done. simpl.
      by rewrite decide_False by lia.
Qed.

(** X20.  The data types per column.  The [str] ['multilabel'], or ['m'],
    puts all the column names in one group and always passes; any other
    data type, or list of data types, passes when there are as many data
    types as [len(col_names)], which for a [str] counts its characters,
    and is a [RuntimeError] otherwise. *)
Theorem proc_datatypes_per_column (data_types col_names : str_or_list) :
  (data_types = PStr "multilabel" ∨ data_types = PStr "m" →
   ∃ s, data_types = PStr s ∧
        proc_datatypes data_types col_names
        = Returns ([s], Group col_names)) ∧
  (data_types ≠ PStr "multilabel" → data_types ≠ PStr "m" →
   let l := match data_types with PStr s => [s] | PList l => l end in
   proc_datatypes data_types col_names
   = if decide (length l ≠ py_len col_names) then Raises RuntimeError
     else Returns (l, Cols col_names)) ∧
  (∀ l c, proc_datatypes data_types col_names = Returns (l, c) →
          length l = col_names_len c).
Proof.
  split; [|split].
  - intros [->| ->]; eexists; (split; [done|]); reflexivity.
  - intros H1 H2 l. unfold proc_datatypes.
    assert (E : match data_types with
                | PStr "multilabel" | PStr "m" => Group col_names
                | _ => Cols col_names
                end = Cols col_names).
    { destruct data_types as [s|l0]; [|done].
      destruct (decide (s = "multilabel")) as [->|]; [done|].
      destruct (decide (s = "m")) as [->|]; [done|].
      repeat (match goal with
              | |- match ?s with _ => _ end = _ =>
                  destruct s as [|[[] [] [] [] [] [] [] []] ?]
              end; try done). }
    rewrite E. done.
  - intros l c. unfold proc_datatypes. case_decide; [done|].
    intros [= <- <-]. lia.
Qed.

(** *** Common substrings *)

(** [substrs x] holds what occurs in [x], for [x] not empty. *)
Lemma elem_of_substrs (t x : string) :
  t ∈ substrs x ↔ x ≠ "" ∧ occurs_in t x.
Proof.
  unfold substrs. rewrite elem_of_list_to_set, list_elem_of_bind. split.
  - intros (i & Ht & Hi). apply list_elem_of_bind in Ht as (j & Ht & Hj).
    apply list_elem_of_singleton in Ht as ->.
    apply elem_of_seq in Hi. apply elem_of_seq in Hj.
    split; [intros ->; simpl in *; lia|].
    destruct (substring_split x i j) as (pre & post & Hx & _); [lia|].
    by exists pre, post.
  - intros [Hx (pre & post & ->)].
    destruct (decide (String.length (t +:+ post) = 0)) as [H0|H0].
    + rewrite string_app_length in H0.
      assert (t = "") as -> by (apply string_length_0; lia).
      exists 0. split; [|apply elem_of_seq; destruct pre; [|simpl; lia]].
      * apply list_elem_of_bind. exists 0. split.
        -- apply list_elem_of_singleton. by destruct (pre +:+ "" +:+ post).
        -- apply elem_of_seq. lia.
      * assert (post = "") as -> by (apply string_length_0; lia). done.
    + exists (String.length pre). split.
      * apply list_elem_of_bind. exists (String.length t). split.
        -- apply list_elem_of_singleton.
           by rewrite substring_skip, substring_prefix.
        -- apply elem_of_seq. rewrite !string_app_length. lia.
      * apply elem_of_seq. rewrite !string_app_length in *. lia.
Qed.

Lemma max_by_len_spec (l : list string) mx :
  max_by_len l = Some mx →
  mx ∈ l ∧ ∀ t, t ∈ l → String.length t ≤ String.length mx.
Proof.
  destruct l as [|x rest]; [done|]. simpl. intros [= <-].
  assert (H : ∀ rest b,
            let r := fold_left (λ best y,
                       if String.length best <? String.length y
                       then y else best) rest b in
            (r = b ∨ r ∈ rest) ∧ String.length b ≤ String.length r ∧
            ∀ t, t ∈ rest → String.length t ≤ String.length r).
  { clear. induction rest as [|y rest IH]; intros b; simpl.
    - split; [by left|]. split; [done|]. by intros t ?%elem_of_nil.
    - destruct (IH (if String.length b <? String.length y then y else b))
        as (Hin & Hb & Hall).
      destruct (Nat.ltb_spec (String.length b) (String.length y)).
      + split; [|split; [lia|]].
        * right. destruct Hin as [->|?]; [apply list_elem_of_here|].
          by apply list_elem_of_further.
        * intros t [->|?]%elem_of_cons; [lia|auto].
      + split; [|split; [lia|]].
        * destruct Hin as [->|?]; [by left|].
          right. by apply list_elem_of_further.
        * intros t [->|?]%elem_of_cons; [lia|auto]. }
  destruct (H rest x) as (Hin & Hx & Hall). split.
  - destruct Hin as [->|?]; [apply list_elem_of_here|].
    by apply list_elem_of_further.
  - intros t [->|?]%elem_of_cons; auto.
Qed.

Lemma elem_of_common (rest : list string) : ∀ (s : gset string) t,
  t ∈ fold_left (λ s val, s ∩ substrs val) rest s ↔
  t ∈ s ∧ ∀ val, val ∈ rest → t ∈ substrs val.
Proof.
  induction rest as [|v rest IH]; intros s t; simpl.
  - split; [|tauto]. intros ?. split; [done|]. by intros ? ?%elem_of_nil.
  - rewrite IH, elem_of_intersection. split.
    + intros [[? ?] Hall]. split; [done|].
      intros val [->|?]%elem_of_cons; auto.
    + intros [? Hall]. split; [split; [done|]|].
      * apply Hall, list_elem_of_here.
      * intros val ?. by apply Hall, list_elem_of_further.
Qed.

Section CommonNameFacts.
Variable set_iter : gset string → list string.
Hypothesis set_iter_elements : ∀ s x, x ∈ set_iter s ↔ x ∈ s.

(** What [find_substr] returns on keys: either the set of the common
    substrings is empty, one key being empty, and it returns [''], or it
    returns an element of that set of greatest length. *)
Lemma find_substr_Returns d0 rest :
  ∃ mx, find_substr set_iter (d0 :: rest) = Returns mx ∧
        (∀ d, d ∈ d0 :: rest → occurs_in mx d) ∧
        (∀ t, (∀ d, d ∈ d0 :: rest → occurs_in t d) →
              String.length t ≤ String.length mx) ∧
        (mx ≠ "" → ∀ d, d ∈ d0 :: rest → d ≠ "").
Proof.
  simpl.
  set (s := fold_left (λ s val, s ∩ substrs val) rest (substrs d0)).
  assert (Hs : ∀ t, t ∈ s ↔ ∀ d, d ∈ d0 :: rest → d ≠ "" ∧ occurs_in t d).
  { intros t. unfold s. rewrite elem_of_common, elem_of_substrs.
    setoid_rewrite elem_of_substrs. split.
    - intros [? Hall] d [->|?]%elem_of_cons; auto.
    - intros Hall. split; [apply Hall, list_elem_of_here|].
      intros val ?. by apply Hall, list_elem_of_further. }
  destruct (max_by_len (set_iter s)) as [mx|] eqn:Hmax.
  - exists mx. split; [done|].
    apply max_by_len_spec in Hmax as [Hin Hmaxlen].
    apply set_iter_elements in Hin. pose proof (proj1 (Hs mx) Hin) as Hmx.
    split; [intros d Hd; by apply Hmx|].
    split; [|intros _ d Hd; by apply Hmx].
    intros t Ht. apply Hmaxlen, set_iter_elements. apply (proj2 (Hs t)).
    intros d Hd. split; [by apply Hmx|by apply Ht].
  - exists "". split; [done|]. split; [intros; apply occurs_in_empty|].
    split; [|done]. intros t Ht.
    assert (Hempty : ∀ x, x ∉ s).
    { intros x Hx%set_iter_elements.
      destruct (set_iter s); [by apply elem_of_nil in Hx|done]. }
    destruct (decide (Forall (λ d, d ≠ "") (d0 :: rest))) as [Hall|Hsome].
    + exfalso. apply (Hempty ""). apply (proj2 (Hs "")). intros d Hd.
      rewrite Forall_forall in Hall. split; [by apply Hall|].
      apply occurs_in_empty.
    + apply not_Forall_Exists in Hsome; [|apply _].
      apply Exists_exists in Hsome as (d & Hd & Hnn).
      assert (d = "") as -> by (by destruct (decide (d = ""))).
      by rewrite (occurs_in_of_empty t (Ht _ Hd)).
Qed.

(** X21.  [find_substr] returns a longest common substring.  On a list of
    keys that is not empty it returns a string that occurs in every key
    and that is as long as any string that does, whatever the order in
    which the set of the common substrings yields its elements; on the
    empty list it raises [IndexError]. *)
Theorem find_substr_longest_common (data : list string) :
  (data = [] → find_substr set_iter data = Raises (Builtin IndexError)) ∧
  (data ≠ [] →
   ∃ mx, find_substr set_iter data = Returns mx ∧
         (∀ d, d ∈ data → occurs_in mx d) ∧
         (∀ t, (∀ d, d ∈ data → occurs_in t d) →
               String.length t ≤ String.length mx)).
Proof.
  split; [by intros ->|]. intros Hne.
  destruct data as [|d0 rest]; [done|].
  destruct (find_substr_Returns d0 rest) as (mx & H & Hocc & Hmax & _).
  eauto.
Qed.

(** **** [replace] shortens a key in which [old] occurs *)

Lemma replace_from_cons old new k c rest :
  replace_from old new k (String c rest)
  = match k with
    | S k' => replace_from old new k' rest
    | O =>
        if String.prefix old (String c rest)
        then new +:+ replace_from old new (String.length old - 1) rest
        else String c (replace_from old new 0 rest)
    end.
Proof. reflexivity. Qed.

Lemma replace_from_length old : ∀ s k,
  String.length (replace_from old "" k s) ≤ String.length s - k.
Proof.
  induction s as [|c rest IH]; intros k; [simpl; lia|].
  rewrite replace_from_cons. destruct k as [|k].
  - destruct (String.prefix old (String c rest)).
    + rewrite string_app_nil_l.
      pose proof (IH (String.length old - 1)). simpl. lia.
    + pose proof (IH 0). simpl. lia.
  - simpl. apply IH.
Qed.

Lemma prefix_app (old post : string) :
  String.prefix old (old +:+ post) = true.
Proof. apply String.prefix_correct, substring_prefix. Qed.

Lemma replace_from_occurs old : ∀ s,
  old ≠ "" → occurs_in old s →
  String.length (replace_from old "" 0 s) + String.length old
  ≤ String.length s.
Proof.
  intros s Hold. induction s as [|c rest IH]; intros Hocc.
  - by apply occurs_in_of_empty in Hocc.
  - pose proof (occurs_in_length _ _ Hocc) as Hlen. simpl in Hlen.
    assert (0 < String.length old) by (destruct old; [done|simpl; lia]).
    rewrite replace_from_cons.
    destruct (String.prefix old (String c rest)) eqn:Hpre.
    + rewrite string_app_nil_l.
      pose proof (replace_from_length old rest (String.length old - 1)).
      simpl. lia.
    + destruct Hocc as (pre & post & Hs). destruct pre as [|c' pre].
      * rewrite string_app_nil_l in Hs.
        rewrite Hs, prefix_app in Hpre. done.
      * rewrite string_app_cons in Hs. injection Hs as -> ->.
        assert (occurs_in old (pre +:+ old +:+ post)) as Hocc'
          by (by exists pre, post).
        specialize (IH Hocc'). simpl. lia.
Qed.

Lemma str_replace_occurs old s :
  old ≠ "" → occurs_in old s →
  String.length (str_replace old "" s) + String.length old
  ≤ String.length s.
Proof.
  intros Hold Hocc. unfold str_replace. destruct old as [|c old]; [done|].
  by apply replace_from_occurs.
Qed.

Lemma total_len_replace top : ∀ keys,
  top ≠ "" → (∀ d, d ∈ keys → occurs_in top d) →
  total_len (map (str_replace top "") keys)
  + length keys * String.length top ≤ total_len keys.
Proof.
  intros keys Htop. induction keys as [|k keys IH]; intros Hocc; simpl;
    [done|].
  pose proof (str_replace_occurs top k Htop
                (Hocc k (list_elem_of_here _ _))).
  assert (total_len (map (str_replace top "") keys)
          + length keys * String.length top ≤ total_len keys).
  { apply IH. intros d Hd. by apply Hocc, list_elem_of_further. }
  lia.
Qed.

(** The loop of [get_top_substrs] comes to its end within the fuel it
    is given, and adds to [found] strings of two characters or more, the
    first being [top] when [top] is that long. *)
Lemma top_substrs_loop_total : ∀ fuel keys top found,
  keys ≠ [] → (∀ d, d ∈ keys → occurs_in top d) →
  total_len keys ≤ fuel →
  ∃ new,
    top_substrs_loop set_iter fuel keys top found
    = Some (Returns (found ++ new)) ∧
    Forall (λ t, 1 < String.length t) new ∧
    (if decide (1 < String.length top) then head new = Some top
     else new = []).
Proof.
  induction fuel as [|fuel IH]; intros keys top found Hne Hocc Hfuel.
  - simpl. destruct (decide (1 < String.length top)) as [Hlong|Hshort].
    + exfalso.
      assert (top ≠ "") by (intros ->; simpl in *; lia).
      pose proof (total_len_replace top keys ltac:(done) Hocc).
      destruct keys; [done|]. simpl in *. lia.
    + exists []. by rewrite app_nil_r.
  - simpl. destruct (decide (1 < String.length top)) as [Hlong|Hshort].
    + assert (top ≠ "") by (intros ->; simpl in *; lia).
      pose proof (total_len_replace top keys ltac:(done) Hocc) as Hless.
      destruct keys as [|k keys]; [done|].
      set (keys' := map (str_replace top "") (k :: keys)) in *.
      destruct (find_substr_Returns (str_replace top "" k)
                  (map (str_replace top "") keys))
        as (top' & Hfind & Hocc' & _).
      change (str_replace top "" k :: map (str_replace top "") keys)
        with keys' in Hfind, Hocc'.
      rewrite Hfind.
      destruct (IH keys' top' (found ++ [top])) as (new & Hloop & Hall & Hd);
        [done|done|unfold keys'; simpl; simpl in Hless, Hfuel; lia|].
      exists (top :: new). rewrite Hloop, <- app_assoc. split; [done|].
      split; [by constructor|done].
    + exists []. by rewrite app_nil_r.
Qed.

(** X22.  [get_top_substrs] comes to an end.  Each turn of its loop takes
    a common substring of two characters or more out of every key, so
    the keys get shorter and the loop stops within the fuel of the model:
    on keys that are not empty lists it returns; every string found has
    two characters or more; and when the longest common substring of the
    keys is that long, it is the first string found. *)
Theorem get_top_substrs_returns (keys : list string) :
  keys ≠ [] →
  ∃ mx found,
    find_substr set_iter keys = Returns mx ∧
    get_top_substrs set_iter keys = Some (Returns found) ∧
    Forall (λ t, 1 < String.length t) found ∧
    (if decide (1 < String.length mx) then head found = Some mx
     else found = []).
Proof.
  intros Hne. destruct keys as [|d0 rest]; [done|].
  destruct (find_substr_Returns d0 rest) as (mx & Hfind & Hocc & _).
  destruct (top_substrs_loop_total (total_len (d0 :: rest)) (d0 :: rest)
              mx []) as (found & Hloop & Hall & Hd); [done..|].
  exists mx, found. unfold get_top_substrs. rewrite Hfind. done.
Qed.

(** What [get_common_name] returns for keys. *)
Lemma get_common_name_Returns d0 rest :
  ∃ mx name,
    find_substr set_iter (d0 :: rest) = Returns mx ∧
    get_common_name set_iter (d0 :: rest) = Some (Returns name) ∧
    name = (if decide (1 < String.length mx) then mx else d0).
Proof.
  destruct (find_substr_Returns d0 rest) as (mx & Hfind & Hocc & _).
  destruct (top_substrs_loop_total (total_len (d0 :: rest)) (d0 :: rest)
              mx []) as (found & Hloop & Hall & Hd); [done..|].
  exists mx. unfold get_common_name, get_top_substrs.
  rewrite Hfind, Hloop. simpl.
  destruct (decide (1 < String.length mx)).
  - destruct found as [|t found]; [done|]. simpl in Hd.
    injection Hd as ->. exists mx. by rewrite decide_False.
  - subst found. exists d0. done.
Qed.

(** X23.  The common name of keys.  For keys that are not the empty list
    [get_common_name] returns their longest common substring when it has
    two characters or more, and the first key otherwise, that is when no
    string of two characters occurs in every key; for the empty list it
    raises [IndexError]. *)
Theorem get_common_name_spec (keys : list string) :
  (keys = [] →
   get_common_name set_iter keys = Some (Raises (Builtin IndexError))) ∧
  (∀ d0 rest, keys = d0 :: rest →
   ∃ name,
     get_common_name set_iter keys = Some (Returns name) ∧
     ((1 < String.length name ∧
       (∀ d, d ∈ keys → occurs_in name d) ∧
       (∀ t, (∀ d, d ∈ keys → occurs_in t d) →
             String.length t ≤ String.length name)) ∨
      (name = d0 ∧
       ∀ t, (∀ d, d ∈ keys → occurs_in t d) → String.length t ≤ 1))).
Proof.
  split; [by intros ->|]. intros d0 rest ->.
  destruct (get_common_name_Returns d0 rest) as (mx & name & Hfind & H & ->).
  destruct (find_substr_Returns d0 rest) as (mx' & Hfind' & Hocc & Hmax & _).
  rewrite Hfind in Hfind'. injection Hfind' as <-.
  eexists. split; [exact H|].
  destruct (decide (1 < String.length mx)); [left; done|].
  right. split; [done|]. intros t Ht. specialize (Hmax t Ht). lia.
Qed.

(** X24.  The name of a multilabel.  Keys that are no list stop
    [process_multilabel_input] with [NameError], its first [raise]
    naming [key]; a list of fewer than two keys is a [RuntimeError]; for
    two keys or more it returns a name, which occurs in the first key:
    a string that occurs in every key, or the first key itself. *)
Theorem process_multilabel_input_spec (keys : str_or_list) :
  (∀ s, keys = PStr s →
        process_multilabel_input set_iter keys
        = Some (Raises (NameError "key"))) ∧
  (∀ l, keys = PList l → length l < 2 →
        process_multilabel_input set_iter keys = Some (Raises RuntimeError)) ∧
  (∀ l, keys = PList l → 2 ≤ length l →
        ∃ name d0,
          process_multilabel_input set_iter keys = Some (Returns name) ∧
          head l = Some d0 ∧ occurs_in name d0 ∧
          (name = d0 ∨ ∀ d, d ∈ l → occurs_in name d)).
Proof.
  split; [by intros s ->|]. split.
  - intros l -> Hl. simpl. by rewrite decide_True.
  - intros l -> Hl. simpl. rewrite decide_False by lia.
    destruct l as [|d0 rest]; [simpl in Hl; lia|].
    destruct (get_common_name_Returns d0 rest)
      as (mx & name & Hfind & H & ->).
    destruct (find_substr_Returns d0 rest) as (mx' & Hfind' & Hocc & _).
    rewrite Hfind in Hfind'. injection Hfind' as <-.
    eexists _, d0. split; [exact H|]. split; [done|].
    destruct (decide (1 < String.length mx)).
    + split; [apply Hocc, list_elem_of_here|by right].
    + split; [|by left]. exists "", "".
      by rewrite string_app_nil_l, string_app_nil_r.
Qed.

End CommonNameFacts.
End DataHelpersFacts.

(** ** The further properties on the small pipeline *)

Section ScopesMoreRuns.
Import Scopes.

Lemma train_inds_round_trip_witness :
  ∃ inds,
    get_train_inds_from_keys demo_resolved ["sex"; "iq"; "thickness"]
    = Ok inds ∧
    (λ i, ["thickness"; "area"; "age"; "sex"; "site"; "score"] !! i)
      <$> inds = [Some "sex"; Some "thickness"].
Proof.
  destruct (train_inds_round_trip demo_resolved
              ["thickness"; "area"; "age"; "sex"; "site"; "score"]
              ["sex"; "iq"; "thickness"] eq_refl)
    as (inds & H & E & _).
  exists inds. split; [exact H|]. rewrite E. vm_compute. reflexivity.
Defined.

Lemma demo_keys_distinct :
  NoDup (data_keys demo_scopes ++ covars_keys demo_scopes
         ++ strat_keys demo_scopes ++ conv_to_list_std (PStr "score")) ∧
  NoDup (data_file_keys demo_scopes) ∧ NoDup (cat_keys demo_scopes).
Proof.
  split; [|split]; refine (bool_decide_unpack _ _); vm_compute; exact I.
Defined.

Lemma scope_inds_are_feature_inds_witness :
  set_all_keys SCOPES_std conv_to_list_std demo_scopes
               (ScopeRaw (PStr "all")) (PStr "score") = Ok demo_resolved ∧
  ∃ inds,
    get_inds_from_scope SCOPES_std conv_to_list_std demo_resolved
                        (ScopeRaw (PList ["covars"; "thick"])) = Ok inds ∧
    length inds = 3 ∧ Forall (λ i, i < 4) inds.
Proof.
  assert (H : set_all_keys SCOPES_std conv_to_list_std demo_scopes
                (ScopeRaw (PStr "all")) (PStr "score") = Ok demo_resolved)
    by (vm_compute; reflexivity).
  assert (H' : get_inds_from_scope SCOPES_std conv_to_list_std demo_resolved
                 (ScopeRaw (PList ["covars"; "thick"])) = Ok [3; 2; 0])
    by (vm_compute; reflexivity).
  destruct demo_keys_distinct as (H1 & H2 & H3).
  destruct (scope_inds_are_feature_inds SCOPES_std conv_to_list_std
              demo_scopes (ScopeRaw (PStr "all")) (PStr "score")
              demo_resolved (ScopeRaw (PList ["covars"; "thick"]))
              [3; 2; 0] H1 H2 H3 H H')
    as (n & ak & Hn & _ & _ & Hall).
  split; [exact H|]. exists [3; 2; 0]. split; [exact H'|].
  split; [reflexivity|]. injection Hn as <-. exact Hall.
Defined.

Lemma strat_inds_follow_features_witness :
  set_all_keys SCOPES_std conv_to_list_std demo_scopes
               (ScopeRaw (PStr "all")) (PStr "score") = Ok demo_resolved ∧
  get_strat_inds demo_resolved = Ok [4].
Proof.
  assert (H : set_all_keys SCOPES_std conv_to_list_std demo_scopes
                (ScopeRaw (PStr "all")) (PStr "score") = Ok demo_resolved)
    by (vm_compute; reflexivity).
  destruct demo_keys_distinct as (H1 & H2 & H3).
  destruct (strat_inds_follow_features SCOPES_std conv_to_list_std
              demo_scopes (ScopeRaw (PStr "all")) (PStr "score")
              demo_resolved H1 H2 H3 H) as (n & Hn & Hs).
  split; [exact H|]. injection Hn as <-. exact Hs.
Defined.

Lemma resolver_needs_set_all_keys_witness :
  get_keys_from_scope SCOPES_std conv_to_list_std demo_scopes
                      (ScopeRaw (PStr "data")) = Raise AttributeError ∧
  get_inds_from_scope SCOPES_std conv_to_list_std demo_scopes
                      (ScopeRaw (PStr "data")) = Raise AttributeError.
Proof.
  apply (resolver_needs_set_all_keys SCOPES_std conv_to_list_std
           demo_scopes (ScopeRaw (PStr "data")) eq_refl eq_refl).
  intros x Hx. exact Hx.
Defined.

Lemma set_all_keys_starts_anew_witness :
  ∃ self',
    set_all_keys SCOPES_std conv_to_list_std demo_scopes
                 (ScopeRaw (PStr "covars")) (PStr "score") = Ok self' ∧
    set_all_keys SCOPES_std conv_to_list_std self'
                 (ScopeRaw (PStr "all")) (PStr "score")
    = set_all_keys SCOPES_std conv_to_list_std demo_scopes
                   (ScopeRaw (PStr "all")) (PStr "score") ∧
    set_all_keys SCOPES_std conv_to_list_std self'
                 (ScopeRaw (PStr "covars")) (PStr "score") = Ok self'.
Proof.
  eexists _.
  assert (H : set_all_keys SCOPES_std conv_to_list_std demo_scopes
                (ScopeRaw (PStr "covars")) (PStr "score") = Ok _)
    by (vm_compute; reflexivity).
  destruct (set_all_keys_starts_anew SCOPES_std conv_to_list_std
              demo_scopes _ _ _ H) as [Hany Hsame].
  split; [exact H|]. split; [apply Hany|exact Hsame].
Defined.

Lemma listed_scope_keys_witness :
  ∃ keys,
    get_keys_from_scope SCOPES_std conv_to_list_std demo_resolved
                        (ScopeRaw (PList ["covars"; "area"; "thick"]))
    = Ok keys ∧
    NoDup keys ∧
    (∀ k, k ∈ keys ↔ k ∈ ["age"; "sex"; "area"; "thickness"]).
Proof.
  eexists _.
  assert (H : get_keys_from_scope SCOPES_std conv_to_list_std demo_resolved
                (ScopeRaw (PList ["covars"; "area"; "thick"])) = Ok _)
    by (vm_compute; reflexivity).
  destruct (listed_scope_keys SCOPES_std conv_to_list_std demo_resolved
              ["covars"; "area"; "thick"] _ _ _ eq_refl eq_refl eq_refl H)
    as [Hnd _].
  split; [exact H|]. split; [exact Hnd|].
  intros k. rewrite !elem_of_cons, !elem_of_nil. tauto.
Defined.

End ScopesMoreRuns.
Lemma no_search_no_model_witness :
  ∃ s1, Test demo_self_plain 0 [1; 2; 3] [4; 5; 6] FoldTest demo_state
        = (Raise UnboundLocalError, s1).
Proof.
  eexists _.
  eapply (proj1 (no_search_no_model demo_self_plain 0 demo_state eq_refl)).
  vm_compute. reflexivity.
Defined.

Lemma missing_key_is_KeyError_witness :
  Test demo_self_missing 0 [1; 2; 3] [4; 5; 6] FoldTest demo_state
  = (Raise KeyError, demo_state).
Proof.
  apply (missing_key_is_KeyError demo_self_missing 0 [1; 2; 3] [4; 5; 6]
           FoldTest demo_state demo_table eq_refl).
  refine (proj1 (bool_decide_eq_false _) _). vm_compute. reflexivity.
Defined.

Lemma predict_proba_errors_witness :
  add_prob_preds 1 [2; 4] "" "2" (wide_state 0) = (Ok tt, wide_state 0).
Proof.
  exact (predict_proba_errors 1 [2; 4] "" "2" (wide_state 0) 0%nat
           (Arr2 [[2%Z; 2%Z]; [4%Z; 4%Z]]) AttributeError
           eq_refl eq_refl eq_refl).
Defined.

Lemma process_metrics_first_witness :
  init (Some (PList ["shap"])) demo_spec_bare demo_cv demo_data_scopes true
       (Ok (demo_base false)) demo_store = Raise IndexError.
Proof.
  exact (proj2 (proj1 (process_metrics_first demo_spec_bare (PList []))
                  eq_refl) eq_refl _ _ demo_data_scopes _ _ _
               ["a"; "b"; "t"] eq_refl).
Defined.

Lemma fold_tags_identify_fold_witness :
  fold_and_repeat (FoldNum 3) demo_fold_state
  = (Ok ("2", "2"), demo_fold_state) ∧
  ∀ j, fold_and_repeat (FoldNum j) demo_fold_state
       = fold_and_repeat (FoldNum 3) demo_fold_state → j = 3%Z.
Proof.
  destruct (fold_tags_identify_fold demo_fold_state 2 3 eq_refl
              ltac:(reflexivity)) as (H & _ & _ & Hj).
  split; [exact H|exact Hj].
Defined.

Lemma test_counts_recorded_witness :
  ∃ all_train_scores all_scores df fis st',
    Evaluate (demo_self true false) 0 [1; 2; 3; 4; 5; 6; 7] 2 2 None
             demo_state
    = (Ok (all_train_scores, all_scores, df, fis), st') ∧
    n_test_per_fold st' = [2; 3; 2; 3].
Proof.
  eexists _, _, _, _, _.
  assert (H : Evaluate (demo_self true false) 0 [1; 2; 3; 4; 5; 6; 7] 2 2
                None demo_state = (Ok (_, _, _, _), _))
    by (vm_compute; reflexivity).
  destruct (test_counts_recorded (demo_self true false) 0 _ _ _ _
              demo_state _ _ _ _ _ ltac:(reflexivity) H)
    as (L & HL & Hn).
  split; [exact H|].
  vm_compute in HL. injection HL as <-. exact Hn.
Defined.

Lemma fold_number_needs_n_splits_witness :
  fold_and_repeat (FoldNum 3) demo_state = (Raise TypeError, demo_state).
Proof.
  exact (proj1 (fold_number_needs_n_splits (demo_self true false) 3
                  demo_state) eq_refl).
Defined.

Lemma evaluate_without_splits_witness :
  ∃ st',
    Evaluate (demo_self true false) 0 [1; 2; 3; 4; 5; 6; 7] 2 2 (Some tt)
             demo_state
    = (Ok ([], [],
           Ledger_new (_get_subjects_overlap (demo_self true false)
                         [1; 2; 3; 4; 5; 6; 7]), []), st') ∧
    Model st' = None ∧ store st' = demo_store.
Proof.
  destruct (evaluate_without_splits (demo_self true false) 0
              [1; 2; 3; 4; 5; 6; 7] 2 2 (Some tt) demo_state _
              ltac:(reflexivity) ltac:(vm_compute; reflexivity))
    as (st' & H & Hm & Hs & _).
  exists st'. split; [exact H|]. split; [exact Hm|exact Hs].
Defined.

Lemma true_values_recorded_witness :
  ∃ r st' ld,
    Test (demo_self true false) 0 [1; 2; 3; 7] [4; 5; 6] FoldTest demo_state
    = (Ok r, st') ∧
    raw_preds_df st' = Some ld ∧
    ld_at ld "t" 5 = Some (CNum 1) ∧ ld_at ld "t" 2 = Some (CNum 0).
Proof.
  eexists _, _.
  assert (H : Test (demo_self true false) 0 [1; 2; 3; 7] [4; 5; 6] FoldTest
                demo_state = (Ok _, _))
    by (vm_compute; reflexivity).
  destruct (true_values_recorded (demo_self true false) 0 _ _ _ demo_state
              _ _ demo_table ltac:(reflexivity) eq_refl H)
    as (ld & Hld & Hte & Htr & _).
  exists ld. split; [exact H|]. split; [exact Hld|]. split.
  - apply (Hte "t" 5); [by left| |vm_compute; discriminate].
    refine (bool_decide_unpack _ _). vm_compute. exact I.
  - apply (Htr eq_refl "t" 2); [by left| |vm_compute; discriminate].
    refine (bool_decide_unpack _ _). vm_compute. exact I.
Defined.

Lemma predictions_recorded_witness :
  ∃ st' ld',
    add_point_preds 1 [2; 4] "" "2" "2" demo_fold_state = (Ok tt, st') ∧
    raw_preds_df st' = Some ld' ∧
    ld_at ld' "2" 2 = Some (CNum 2) ∧ ld_at ld' "2" 4 = Some (CNum 4).
Proof.
  assert (Hp : predict (false, 1%nat) (Arr2 [[2%Z; 2%Z]; [4%Z; 4%Z]])
               = Ok (Arr1 [2%Z; 4%Z], Arr2 [[2%Z; 2%Z]; [4%Z; 4%Z]]))
    by reflexivity.
  assert (Hnd : NoDup [2; 4])
    by (refine (bool_decide_unpack _ _); vm_compute; exact I).
  assert (Hin : Forall (λ s, s ∈ ld_index (Ledger_new [1; 2; 3; 4; 5]))
                       [2; 4])
    by (refine (bool_decide_unpack _ _); vm_compute; exact I).
  assert (Hidx : NoDup (ld_index (Ledger_new [1; 2; 3; 4; 5])))
    by (refine (bool_decide_unpack _ _); vm_compute; exact I).
  destruct (predictions_recorded 1 [2; 4] "" "2" "2" demo_fold_state
              (false, 1%nat) (Arr2 [[2%Z; 2%Z]; [4%Z; 4%Z]])
              (Arr2 [[2%Z; 2%Z]; [4%Z; 4%Z]]) [2%Z; 4%Z]
              (Ledger_new [1; 2; 3; 4; 5])
              eq_refl eq_refl Hp Hnd eq_refl eq_refl Hidx Hin)
    as (st' & ld' & H & Hld & Hat).
  exists st', ld'. split; [exact H|]. split; [exact Hld|]. split.
  - exact (Hat 0%nat 2 2%Z eq_refl eq_refl).
  - exact (Hat 1%nat 4 4%Z eq_refl eq_refl).
Defined.

Lemma fit_sees_train_rows_witness :
  ∃ r st' train_data st1 st2 m0 ya m1 Xa' ya',
    Test (demo_self true false) 0 [1; 2; 3; 7] [4; 5; 6] FoldTest demo_state
    = (Ok r, st') ∧
    _get_final_model (demo_self true false) train_data st1
    = (Ok m0, st2) ∧
    fit m0 (Arr2 [[2%Z; 2%Z]; [3%Z; 3%Z]; [1%Z; 1%Z]]) ya
    = Ok (m1, Xa', ya').
Proof.
  eexists _, _.
  assert (H : Test (demo_self true false) 0 [1; 2; 3; 7] [4; 5; 6] FoldTest
                demo_state = (Ok _, _))
    by (vm_compute; reflexivity).
  destruct (fit_sees_train_rows (demo_self true false) 0 _ _ _ demo_state
              _ _ demo_table eq_refl H)
    as (td & s1 & s2 & m0 & ya & m1 & Xa' & ya' & Hm & _ & Hfit).
  exists td, s1, s2, m0, ya, m1, Xa', ya'. split; [exact H|].
  split; [exact Hm|exact Hfit].
Defined.

Lemma proba_columns_beyond_classes_witness :
  ∃ st', _add_raw_preds wide_self 1 2 [2; 4] "" (FoldNum 3) (wide_state 3)
         = (Raise IndexError, st').
Proof.
  apply (proba_columns_beyond_classes wide_self 1 2 [2; 4] "" (FoldNum 3)
           (wide_state 3) 3%nat (Arr2 [[2%Z; 2%Z]; [4%Z; 4%Z]])
           (Arr2 [[2%Z; 2%Z]; [4%Z; 4%Z]]) (Arr1 [0%Z; 1%Z])
           [[0%Z; 0%Z; 0%Z]; [0%Z; 0%Z; 0%Z]]
           (Ledger_new [1; 2; 3; 4; 5]) eq_refl eq_refl).
  - right. exists 2%Z. split; [reflexivity|done].
  - reflexivity.
  - reflexivity.
  - reflexivity.
  - vm_compute. lia.
  - vm_compute. lia.
  - refine (bool_decide_unpack _ _). vm_compute. exact I.
  - reflexivity.
  - refine (bool_decide_unpack _ _). vm_compute. exact I.
Defined.

Section DataHelpersRuns.
Import Data_Helpers.

Lemma demo_set_iter_elements (s : gset string) (x : string) :
  x ∈ demo_set_iter s ↔ x ∈ s.
Proof. apply elem_of_elements. Qed.

Lemma proc_args_per_column_witness :
  proc_args (One 5) ["float"; "cat"; "float"] = Returns [5; 5; 5].
Proof.
  exact (proj1 (proc_args_per_column (One 5) ["float"; "cat"; "float"])
               5 eq_refl).
Defined.

Lemma proc_datatypes_per_column_witness :
  proc_datatypes (PStr "float") (PStr "age") = Raises RuntimeError.
Proof.
  exact (proj1 (proj2 (proc_datatypes_per_column (PStr "float")
                         (PStr "age")))
               ltac:(discriminate) ltac:(discriminate)).
Defined.

Lemma find_substr_longest_common_witness :
  ∃ mx, find_substr demo_set_iter ["lh_area"; "rh_area"] = Returns mx ∧
        (∀ d, d ∈ ["lh_area"; "rh_area"] → occurs_in mx d) ∧
        String.length "h_area" ≤ String.length mx.
Proof.
  destruct (proj2 (find_substr_longest_common demo_set_iter
                     demo_set_iter_elements ["lh_area"; "rh_area"])
                  ltac:(discriminate))
    as (mx & H & Hocc & Hmax).
  exists mx. split; [exact H|]. split; [exact Hocc|].
  apply Hmax. intros d Hd.
  apply elem_of_cons in Hd as [->|Hd];
    [|apply list_elem_of_singleton in Hd as ->].
  - by exists "l", "".
  - by exists "r", "".
Defined.

Lemma get_top_substrs_returns_witness :
  ∃ found,
    get_top_substrs demo_set_iter ["lh_area"; "rh_area"]
    = Some (Returns found) ∧
    Forall (λ t, 1 < String.length t) found.
Proof.
  destruct (get_top_substrs_returns demo_set_iter demo_set_iter_elements
              ["lh_area"; "rh_area"] ltac:(discriminate))
    as (mx & found & _ & H & Hall & _).
  exists found. split; [exact H|exact Hall].
Defined.

Lemma get_common_name_spec_witness :
  get_common_name demo_set_iter []
  = Some (Raises (Builtin IndexError)) ∧
  ∃ name,
    get_common_name demo_set_iter ["lh_area"; "rh_area"]
    = Some (Returns name).
Proof.
  destruct (get_common_name_spec demo_set_iter demo_set_iter_elements [])
    as [He _].
  destruct (get_common_name_spec demo_set_iter demo_set_iter_elements
              ["lh_area"; "rh_area"]) as [_ Hn].
  destruct (Hn _ _ eq_refl) as (name & H & _).
  split; [exact (He eq_refl)|]. exists name. exact H.
Defined.

Lemma process_multilabel_input_spec_witness :
  process_multilabel_input demo_set_iter (PStr "lh_area")
  = Some (Raises (NameError "key")) ∧
  process_multilabel_input demo_set_iter (PList ["lh_area"])
  = Some (Raises RuntimeError).
Proof.
  destruct (process_multilabel_input_spec demo_set_iter
              demo_set_iter_elements (PStr "lh_area")) as (Hs & _).
  destruct (process_multilabel_input_spec demo_set_iter
              demo_set_iter_elements (PList ["lh_area"])) as (_ & Hl & _).
  split; [exact (Hs _ eq_refl)|]. apply (Hl _ eq_refl). simpl. lia.
Defined.

End DataHelpersRuns.
